(** * Mapping-rule editor (importer_app/static/js/mapping_data.js)

    A shallow embedding of the rule editor's client-side logic: the schema
    registry constants, the multi-select of source kinds, the choice of the
    auxiliary editor, the payload builder, the link picker, the canonical
    ordering of the shared rule collection, the editability toggle and the
    batch save.  DOM nodes are records holding the properties the script
    reads or writes; the closure variables [allRules], [newRuleCounter] and
    [ruleToDeleteId] are fields of an explicit page state. *)

From Stdlib Require Import List String Ascii ZArith Bool Lia Arith.
From Stdlib Require Import Permutation Sorted DecimalString OrdersEx DecimalNat.
Import ListNotations.

Open Scope string_scope.
Open Scope list_scope.

(** ** JavaScript strings and values *)

Module Js.

(** [hay.includes(needle)] on strings: substring search. *)
Fixpoint includes (hay needle : string) : bool :=
  if String.prefix needle hay then true
  else match hay with
       | EmptyString => false
       | String _ rest => includes rest needle
       end.

(** [s.startsWith(p)]. *)
Definition startsWith (s p : string) : bool := String.prefix p s.

(** [arr.includes(x)] on arrays of strings (strict equality). *)
Definition arrIncludes (arr : list string) (x : string) : bool :=
  existsb (String.eqb x) arr.

(** Truthiness of a string: only the empty string is falsy. *)
Definition truthy (s : string) : bool := negb (s =? "").

Definition lowerAscii (c : ascii) : ascii :=
  let n := nat_of_ascii c in
  if andb (Nat.leb 65 n) (Nat.leb n 90) then ascii_of_nat (n + 32) else c.

(** [s.toLowerCase()], on the ASCII letters. *)
Fixpoint toLowerCase (s : string) : string :=
  match s with
  | EmptyString => EmptyString
  | String c rest => String (lowerAscii c) (toLowerCase rest)
  end.

(** [s.split(sep)] for a one-character separator. *)
Fixpoint split (sep : ascii) (s : string) : list string :=
  match s with
  | EmptyString => [EmptyString]
  | String c rest =>
      if Ascii.eqb c sep then EmptyString :: split sep rest
      else match split sep rest with
           | [] => [String c EmptyString]
           | piece :: pieces => String c piece :: pieces
           end
  end.

(** [arr.join(sep)]. *)
Definition join (sep : string) (arr : list string) : string :=
  String.concat sep arr.

(** [arr.find(p)]. *)
Definition find {A : Type} (p : A -> bool) (arr : list A) : option A :=
  List.find p arr.

(** The values a payload property can hold: the JSON scalars, and what a
    property inherited from [Object.prototype] holds, a function or, under
    [__proto__], the prototype object itself. *)
Inductive Value : Type :=
| Null : Value
| Bool (b : bool) : Value
| Str (s : string) : Value
| Fun : Value
| Proto : Value.

(** [({})[key]] for a key the literal does not have: the property that
    [Object.prototype] hands down under that name, or [None] for
    [undefined]. *)
Definition inherited (key : string) : option Value :=
  if key =? "__proto__" then Some Proto
  else if existsb (String.eqb key)
            ["constructor"; "hasOwnProperty"; "isPrototypeOf";
             "propertyIsEnumerable"; "toLocaleString"; "toString"; "valueOf";
             "__defineGetter__"; "__defineSetter__"; "__lookupGetter__";
             "__lookupSetter__"]
  then Some Fun
  else None.

(** An object literal: its properties in the order they are written. *)
Definition Object := list (string * Value).

(** Property read [obj.key]; [None] stands for [undefined]. *)
Fixpoint get (key : string) (obj : Object) : option Value :=
  match obj with
  | [] => None
  | (k, v) :: rest => if k =? key then Some v else get key rest
  end.

Definition keys (obj : Object) : list string := map fst obj.

(** [s || null]. *)
Definition strOrNull (s : string) : Value :=
  if truthy s then Str s else Null.

(** [o || null] for a property that may be absent. *)
Definition optOrNull (o : option string) : Value :=
  match o with
  | Some s => strOrNull s
  | None => Null
  end.

(** Truthiness of a payload value. *)
Definition truthyValue (v : Value) : bool :=
  match v with
  | Null => false
  | Bool b => b
  | Str s => truthy s
  | Fun => true
  | Proto => true
  end.

(** [obj[key] || null] on a literal with string values [own]: the own
    entry, else the inherited property, else [null]. *)
Definition lookupOrNull (own : string -> option string) (key : string)
    : Value :=
  match own key with
  | Some s => strOrNull s
  | None => match inherited key with
            | Some v => v
            | None => Null
            end
  end.

(** The properties that [JSON.stringify(obj)] writes: a property that
    holds a function is left out; the prototype object is written as an
    empty object. *)
Definition serialised (v : Value) : bool :=
  match v with
  | Fun => false
  | _ => true
  end.

Definition stringify (obj : Object) : Object :=
  filter (fun property => serialised (snd property)) obj.

Definition isCR (c : ascii) : bool := Ascii.eqb c (ascii_of_nat 13).

Definition isLF (c : ascii) : bool := Ascii.eqb c (ascii_of_nat 10).

(** The value an [<input type="text">] keeps of a string assigned to its
    [value]: line feeds and carriage returns are stripped. *)
Fixpoint stripNewlines (s : string) : string :=
  match s with
  | EmptyString => EmptyString
  | String c rest =>
      if orb (isCR c) (isLF c) then stripNewlines rest
      else String c (stripNewlines rest)
  end.

(** The value a [<textarea>] gives back of a string assigned to its
    [value]: a carriage return followed by a line feed, and any other
    carriage return, reads as one line feed. *)
Fixpoint normalizeNewlines (s : string) : string :=
  match s with
  | EmptyString => EmptyString
  | String c rest =>
      if isCR c then
        match rest with
        | String d rest' =>
            if isLF d then String d (normalizeNewlines rest')
            else String (ascii_of_nat 10) (normalizeNewlines rest)
        | EmptyString => String (ascii_of_nat 10) EmptyString
        end
      else String c (normalizeNewlines rest)
  end.

(** An id as the JSON of the server gives it. *)
Inductive Id : Type :=
| IdNumber (n : Z) : Id
| IdString (s : string) : Id
| IdNull : Id.

(** [String(id)]. *)
Definition render (i : Id) : string :=
  match i with
  | IdNumber n => DecimalString.NilEmpty.string_of_int (Z.to_int n)
  | IdString s => s
  | IdNull => "null"
  end.

(** Truthiness of an id: zero, the empty string and [null] are falsy. *)
Definition truthyId (i : Id) : bool :=
  match i with
  | IdNumber n => negb (n =? 0)%Z
  | IdString s => truthy s
  | IdNull => false
  end.

End Js.

Coercion Js.IdString : string >-> Js.Id.

(** ** Constants (lines 9-19) *)

Definition ALL_ROLES : list string :=
  ["header"; "item"; "line"; "account"; "ignore"].

Definition ALL_SOURCE_TYPES : list string :=
  ["CSV"; "CSV Formula"; "Text Override"; "Link"].

(** An entry [{value, text}] handed to [populateSelect]. *)
Record OptionData : Type := mkOptionData {
  od_value : string;
  od_text : string
}.

(** The three object literals below are given by their own entries.  A
    lookup [literal[key]] under a key that is no entry finds what
    [Object.prototype] hands down under that name ([Js.inherited]); the
    definitions that embed a lookup say what comes of it. *)

(** The entries of [ROLE_DESTINATION_FIELDS]. *)
Definition ROLE_DESTINATION_FIELDS (role : string) : option (list OptionData) :=
  if role =? "header" then
    Some [mkOptionData "id" "ID"; mkOptionData "supplier_id" "Supplier ID";
          mkOptionData "invoice_number" "Invoice Number";
          mkOptionData "invoice_date" "Invoice Date";
          mkOptionData "due_date" "Due Date";
          mkOptionData "total_amount" "Total Amount";
          mkOptionData "tax_amount" "Tax Amount";
          mkOptionData "account_number_id" "Account Number ID";
          mkOptionData "notes" "Notes"]
  else if role =? "item" then
    Some [mkOptionData "id" "ID"; mkOptionData "supplier_id" "Supplier ID";
          mkOptionData "billing_reference" "Billing Reference";
          mkOptionData "account_number_id" "Account Number ID";
          mkOptionData "audit_date" "Audit Date";
          mkOptionData "contract_start_date" "Contract Start Date";
          mkOptionData "contract_end_date" "Contract End Date";
          mkOptionData "contract_term_in_months" "Contract Term In Months";
          mkOptionData "review_flag" "Review Flag";
          mkOptionData "notes" "Notes"]
  else if role =? "line" then
    Some [mkOptionData "id" "ID";
          mkOptionData "invoice_header_id" "Invoice Header ID";
          mkOptionData "item_id" "Item ID";
          mkOptionData "unique_reference" "Unique Reference";
          mkOptionData "description" "Description";
          mkOptionData "quantity" "Quantity";
          mkOptionData "unit_price" "Unit Price";
          mkOptionData "total_amount" "Total Amount";
          mkOptionData "start_date" "Start Date";
          mkOptionData "end_date" "End Date"]
  else if role =? "account" then
    Some [mkOptionData "id" "ID";
          mkOptionData "account_number" "Account Number";
          mkOptionData "supplier_id" "Supplier ID"]
  else if role =? "ignore" then
    Some [mkOptionData "" "N/A (No Destination)"]
  else None.

(** The entries of [FIELD_ROLE_ORDER]. *)
Definition FIELD_ROLE_ORDER (role : string) : option Z :=
  if role =? "header" then Some 1%Z
  else if role =? "item" then Some 2%Z
  else if role =? "line" then Some 3%Z
  else if role =? "account" then Some 4%Z
  else if role =? "ignore" then Some 5%Z
  else None.

Definition SUPPLIER_FORMULA_FIELDS : list OptionData :=
  [mkOptionData "Supplier Name" "Supplier Name";
   mkOptionData "Supplier Short Name" "Supplier Short Name"].

(** ** Rules as the API returns them *)

(** A rule record of [allRules].  [id] holds the rendering [String(r.id)],
    the form in which the script compares an id and writes it to the
    document; its one other use, the truthiness test of [deleteRule] on
    the id a delete button stored, is given the id itself by
    [clickDelete].  [rule_name] is a string, as the data model has it and
    as line 218 needs it to call [localeCompare].  A string-valued
    property that is [null] or missing is the empty string where the
    script only tests its truthiness, and [None] where it is copied. *)
Record Rule : Type := mkRule {
  id : string;
  rule_name : string;
  field_role : string;
  destination_field : string;
  source_type_options : string;
  is_required : bool;
  is_hidden : bool;
  is_base_rule : bool;
  link_table_lookup : option string;
  link_field_lookup : option string;
  formula_template : option string;
  static_value : option string;
  default_transformation : option string
}.

(** ** Select elements *)

(** An [<option>] of a select element. *)
Record SelectOption : Type := mkOption {
  value : string;
  text : string;
  selected : bool;
  disabled : bool
}.

Definition Select := list SelectOption.

(** [populateSelect] on a [multiple] select (lines 32-45): an option is
    selected when the array of selected values includes its value. *)
Definition populateSelectMultiple (options : list OptionData)
    (selectedValues : list string) : Select :=
  map (fun optionData =>
         mkOption (od_value optionData) (od_text optionData)
                  (Js.arrIncludes selectedValues (od_value optionData)) false)
      options.

(** [populateSelect] on a single select: an option is selected when
    [String(optionData.value) === String(selectedValues)]; the argument is
    that rendering. *)
Definition populateSelectSingle (options : list OptionData)
    (selectedValue : string) : Select :=
  map (fun optionData =>
         mkOption (od_value optionData) (od_text optionData)
                  (od_value optionData =? selectedValue) false)
      options.

(** [Array.from(select.selectedOptions).map(option => option.value)]. *)
Definition selectedValues (sel : Select) : list string :=
  map value (filter selected sel).

(** [select.value] of a single select: the last option marked selected,
    else the first option that is not disabled, else the empty string. *)
Definition selectValue (sel : Select) : string :=
  match rev (filter selected sel) with
  | o :: _ => value o
  | [] => match filter (fun o => negb (disabled o)) sel with
          | o :: _ => value o
          | [] => ""
          end
  end.

(** [String(x)] of a value that is [null] or an id. *)
Definition stringOfId (x : option string) : string :=
  match x with
  | Some i => i
  | None => "null"
  end.

(** ** Source kinds and the auxiliary editor *)

Inductive SourceKind : Type :=
| Link
| CsvFormula
| TextOverride
| Csv.

(** The branch taken by [updateSourceDetailsDisplay] (lines 55-82) on the
    lower-cased selected values. *)
Definition activeKind (selectedSourceTypes : list string) : option SourceKind :=
  if Js.arrIncludes selectedSourceTypes "link" then Some Link
  else if Js.arrIncludes selectedSourceTypes "csv formula" then Some CsvFormula
  else if Js.arrIncludes selectedSourceTypes "text override" then Some TextOverride
  else if Js.arrIncludes selectedSourceTypes "csv" then Some Csv
  else None.

(** The branch taken by [getRulePayload] (lines 108-124) on the joined
    string of selected values; the plain CSV kind has no branch there. *)
Definition payloadKind (sourceTypeOptions : string) : option SourceKind :=
  if Js.includes sourceTypeOptions "Link" then Some Link
  else if Js.includes sourceTypeOptions "CSV Formula" then Some CsvFormula
  else if Js.includes sourceTypeOptions "Text Override" then Some TextOverride
  else None.

(** What [updateSourceDetailsDisplay] leaves in the row's
    [.dynamic-source-input-container]. *)
Inductive SourceDetails : Type :=
| LinkSourceSelect (options : Select)
| FormulaEditor (formulaInput : string) (formulaBuilderSelect : Select)
| TextOverrideInput (textInput : string)
| CsvColumnLabel
| DashLabel.

(** ** Table rows *)

(** A form control of a row ([input], [select], [button] or [textarea]) as
    [toggleBaseRuleEditability] sees it: its [dataset.field], absent on the
    delete button and on the controls of the auxiliary editor, and its
    [disabled] flag. *)
Record Control : Type := mkControl {
  field : option string;
  ctl_disabled : bool
}.

(** A [<tr>] built by [createRuleRow]: [dataset.id], the inputs and selects
    addressed through [data-field], the auxiliary editor, and the row's
    form controls in document order. *)
Record Row : Type := mkRow {
  dataset_id : string;
  rule_name_input : string;
  field_role_select : Select;
  destination_field_select : Select;
  source_type_select : Select;
  source_details : SourceDetails;
  default_transformation_input : string;
  is_required_input : option bool;
  is_hidden_input : bool;
  is_base_rule_input : bool;
  controls : list Control
}.

(** The form controls inside the auxiliary editor. *)
Definition detailControls (d : SourceDetails) : list Control :=
  match d with
  | LinkSourceSelect _ => [mkControl None false]
  | FormulaEditor _ _ => [mkControl None false; mkControl None false]
  | TextOverrideInput _ => [mkControl None false]
  | CsvColumnLabel => []
  | DashLabel => []
  end.

(** [row.querySelector('.link-source-select')] and its [value]. *)
Definition linkSourceSelectValue (row : Row) : option string :=
  match source_details row with
  | LinkSourceSelect options => Some (selectValue options)
  | _ => None
  end.

(** [row.querySelector('.formula-input')] and its [value]. *)
Definition formulaInputValue (row : Row) : option string :=
  match source_details row with
  | FormulaEditor v _ => Some v
  | _ => None
  end.

(** [row.querySelector('.text-override-input')] and its [value]. *)
Definition textInputValue (row : Row) : option string :=
  match source_details row with
  | TextOverrideInput v => Some v
  | _ => None
  end.

(** ** Link resolver *)

(** The entries of the role-to-table literal of [getRulePayload]
    (line 113); the lookup [tableMap[role] || null] is
    [Js.lookupOrNull tableMap role]. *)
Definition tableMap (role : string) : option string :=
  if role =? "header" then Some "supplier_invoice_headers"
  else if role =? "item" then Some "supplier_invoice_items"
  else if role =? "line" then Some "supplier_invoice_lines"
  else if role =? "account" then Some "supplier_account"
  else None.

(** The entries of the table-to-role literal of [createRuleRow]
    (line 175).  The lookup is only compared with [===] to a role, which
    an inherited property, not being a string, never equals. *)
Definition roleOfTable (table : string) : option string :=
  if table =? "supplier_invoice_headers" then Some "header"
  else if table =? "supplier_invoice_items" then Some "item"
  else if table =? "supplier_invoice_lines" then Some "line"
  else if table =? "supplier_account" then Some "account"
  else None.

(** Lines 113-115: the pointer written for the rule the picker targets,
    [(link_table_lookup, link_field_lookup)]. *)
Definition linkPointer (linkedRule : Rule) : Js.Value * Js.Value :=
  (Js.lookupOrNull tableMap (field_role linkedRule),
   Js.Str (destination_field linkedRule)).

(** Lines 109-117: the pointer for the value of the link picker; both
    components stay [null] when there is no picker, no chosen value, or no
    rule of [allRules] with that id. *)
Definition forwardLookup (allRules : list Rule)
    (linkSourceSelect : option string) : Js.Value * Js.Value :=
  match linkSourceSelect with
  | Some v =>
      if Js.truthy v then
        match Js.find (fun r => id r =? v) allRules with
        | Some linkedRule => linkPointer linkedRule
        | None => (Js.Null, Js.Null)
        end
      else (Js.Null, Js.Null)
  | None => (Js.Null, Js.Null)
  end.

(** Lines 173-178: the id of the first rule the stored pointer designates,
    when both parts of the pointer are truthy. *)
Definition reverseLookup (allRules : list Rule)
    (link_table_lookup link_field_lookup : Js.Value) : option string :=
  if andb (Js.truthyValue link_table_lookup) (Js.truthyValue link_field_lookup)
  then
    match link_table_lookup, link_field_lookup with
    | Js.Str table, Js.Str field =>
        match Js.find (fun r =>
                 andb (match roleOfTable table with
                       | Some role => role =? field_role r
                       | None => false
                       end)
                      (destination_field r =? field)) allRules with
        | Some sourceRule => Some (id sourceRule)
        | None => None
        end
    | _, _ => None
    end
  else None.

(** The filter of [populateLinkSourceDropdown] (lines 313-317);
    [currentRow] is the edited row's [dataset.id], when a row is passed. *)
Definition linkableRules (allRules : list Rule) (currentRow : option string)
    : list Rule :=
  filter (fun r =>
            let isSelf := match currentRow with
                          | Some rowId => id r =? rowId
                          | None => false
                          end in
            let isNotLinkSource :=
              negb (andb (Js.truthy (source_type_options r))
                         (Js.includes (source_type_options r) "Link")) in
            andb (negb isSelf) isNotLinkSource)
         allRules.

Definition ruleLabel (r : Rule) : string :=
  rule_name r ++ " (" ++ field_role r ++ "." ++ destination_field r ++ ")".

(** [populateLinkSourceDropdown] (lines 310-323): the options of the link
    picker. *)
Definition populateLinkSourceDropdown (allRules : list Rule)
    (selectedSourceTypes : list string) (currentLinkedRuleId : option string)
    (currentRow : option string) : Select :=
  if Js.arrIncludes selectedSourceTypes "link" then
    let candidates := linkableRules allRules currentRow in
    let sel :=
      populateSelectSingle
        (map (fun r => mkOptionData (id r) (ruleLabel r)) candidates)
        (stringOfId currentLinkedRuleId) in
    if Nat.eqb (List.length candidates) 0
    then sel ++ [mkOption "" "No available rules" false true]
    else sel
  else [mkOption "" "-- Select Linked Rule --" false false].

(** The filter of [populateFormulaBuilderDropdown] (lines 87-88): the rules
    offered as placeholders. *)
Definition placeholderRules (allRules : list Rule)
    (currentRow : option string) : list Rule :=
  let currentRuleId := stringOfId currentRow in
  filter (fun r => negb (id r =? currentRuleId)) allRules.

(** [populateFormulaBuilderDropdown] (lines 85-93): the placeholder
    choices offered next to a formula. *)
Definition populateFormulaBuilderDropdown (allRules : list Rule)
    (currentRow : option string) : Select :=
  mkOption "" "-- Insert Placeholder --" false false
  :: map (fun rule =>
            mkOption ("{" ++ rule_name rule ++ "}")
                     ("Rule: " ++ ruleLabel rule) false false)
         (placeholderRules allRules currentRow)
  ++ map (fun field =>
            mkOption ("{" ++ od_value field ++ "}")
                     ("Supplier: " ++ od_text field) false false)
         SUPPLIER_FORMULA_FIELDS.

(** [a || b] on two optional strings. *)
Definition orElse (a b : option string) : option string :=
  match a with
  | Some s => if Js.truthy s then a else b
  | None => b
  end.

(** [v || ''] . *)
Definition orEmpty (v : option string) : string :=
  match v with
  | Some s => s
  | None => ""
  end.

(** [updateSourceDetailsDisplay] (lines 52-83).  The text given to the
    formula textarea or to the static text input is held as the element
    gives it back through [value]. *)
Definition updateSourceDetailsDisplay (allRules : list Rule)
    (sourceTypeSelect : Select) (currentFormulaValue : option string)
    (currentLinkedRuleId : option string) (currentRow : option string)
    : SourceDetails :=
  let selectedSourceTypes :=
    map Js.toLowerCase (selectedValues sourceTypeSelect) in
  match activeKind selectedSourceTypes with
  | Some Link =>
      LinkSourceSelect
        (populateLinkSourceDropdown allRules selectedSourceTypes
           currentLinkedRuleId currentRow)
  | Some CsvFormula =>
      FormulaEditor (Js.normalizeNewlines (orEmpty currentFormulaValue))
        (populateFormulaBuilderDropdown allRules currentRow)
  | Some TextOverride =>
      TextOverrideInput (Js.stripNewlines (orEmpty currentFormulaValue))
  | Some Csv => CsvColumnLabel
  | None => DashLabel
  end.

(** ** Rule payload builder *)

(** [getRulePayload] (lines 102-142). *)
Definition getRulePayload (allRules : list Rule) (row : Row) : Js.Object :=
  let isBaseRule := is_base_rule_input row in
  let isRequiredInput := is_required_input row in
  let sourceTypeOptions :=
    Js.join "," (selectedValues (source_type_select row)) in
  let '(linkTableLookup, linkFieldLookup, formula_template, static_value) :=
    match payloadKind sourceTypeOptions with
    | Some Link =>
        let '(t, f) := forwardLookup allRules (linkSourceSelectValue row) in
        (t, f, Js.Null, Js.Null)
    | Some CsvFormula =>
        (Js.Null, Js.Null, Js.optOrNull (formulaInputValue row), Js.Null)
    | Some TextOverride =>
        (Js.Null, Js.Null, Js.Null, Js.optOrNull (textInputValue row))
    | _ => (Js.Null, Js.Null, Js.Null, Js.Null)
    end in
  [ ("id", if andb (Js.truthy (dataset_id row))
                   (negb (Js.startsWith (dataset_id row) "new_"))
           then Js.Str (dataset_id row) else Js.Null);
    ("rule_name", Js.Str (rule_name_input row));
    ("field_role", Js.Str (selectValue (field_role_select row)));
    ("destination_field", Js.Str (selectValue (destination_field_select row)));
    ("source_type_options", Js.Str sourceTypeOptions);
    ("rule_type", Js.Str "user_set");
    ("is_required",
      Js.Bool (orb isBaseRule
                   (match isRequiredInput with
                    | Some checked => checked
                    | None => false
                    end)));
    ("is_hidden", Js.Bool (is_hidden_input row));
    ("is_base_rule", Js.Bool isBaseRule);
    ("link_table_lookup", linkTableLookup);
    ("link_field_lookup", linkFieldLookup);
    ("formula_template", formula_template);
    ("static_value", static_value);
    ("default_transformation",
      Js.strOrNull (default_transformation_input row)) ].

(** ** Building a row *)

Definition upperAscii (c : ascii) : ascii :=
  let n := nat_of_ascii c in
  if andb (Nat.leb 97 n) (Nat.leb n 122) then ascii_of_nat (n - 32) else c.

(** [r.charAt(0).toUpperCase() + r.slice(1)]. *)
Definition capitalize (r : string) : string :=
  match r with
  | EmptyString => EmptyString
  | String c rest => String (upperAscii c) rest
  end.

(** [populateDestinationFields] (lines 47-50), for a role that names no
    inherited property: the options are the role's entry, or none.  For
    the other roles [populateSelect] throws, see [createRuleRowThrows];
    the role select never holds such a role. *)
Definition populateDestinationFields (fieldRole : string)
    (currentDestinationField : string) : Select :=
  let fields := match ROLE_DESTINATION_FIELDS fieldRole with
                | Some fs => fs
                | None => []
                end in
  populateSelectSingle fields currentDestinationField.

Definition optValue (o : option string) : Js.Value :=
  match o with
  | Some s => Js.Str s
  | None => Js.Null
  end.

(** A string that the markup of line 150 or 155 holds as the value of an
    attribute between double quotes: it has no double quote, which would
    end the attribute, no ampersand, which would start a character
    reference, and no null character, which the parser replaces. *)
Definition markupSafe (s : string) : bool :=
  forallb (fun c => negb (orb (Ascii.eqb c (ascii_of_nat 34))
                              (orb (Ascii.eqb c (ascii_of_nat 38))
                                   (Ascii.eqb c (ascii_of_nat 0)))))
          (list_ascii_of_string s).

(** [createRuleRow] (lines 144-210), up to the event listeners: the row of
    a rule whose name and default transformation are [markupSafe] and
    whose role names no inherited property (see [createRuleRowThrows]
    below).  The two text inputs hold their strings as an
    [<input type="text">] gives them back. *)
Definition createRuleRow (allRules : list Rule) (rule : Rule) (isBase : bool)
    : Row :=
  let selectedSourceTypesArray :=
    if Js.truthy (source_type_options rule)
    then Js.split "," (source_type_options rule) else [] in
  let fieldRoleSelect :=
    populateSelectSingle
      (map (fun r => mkOptionData r (capitalize r)) ALL_ROLES)
      (field_role rule) in
  let destFieldSelect :=
    populateDestinationFields (field_role rule) (destination_field rule) in
  let sourceTypeSelect :=
    populateSelectMultiple
      (map (fun t => mkOptionData t t) ALL_SOURCE_TYPES)
      selectedSourceTypesArray in
  let currentLinkedRuleId :=
    reverseLookup allRules (optValue (link_table_lookup rule))
                  (optValue (link_field_lookup rule)) in
  let details :=
    updateSourceDetailsDisplay allRules sourceTypeSelect
      (orElse (formula_template rule) (static_value rule))
      currentLinkedRuleId (Some (id rule)) in
  mkRow (id rule)
        (Js.stripNewlines (rule_name rule))
        fieldRoleSelect
        destFieldSelect
        sourceTypeSelect
        details
        (Js.stripNewlines (orEmpty (default_transformation rule)))
        (Some (orb isBase (is_required rule)))
        (is_hidden rule)
        (is_base_rule rule)
        ([mkControl (Some "rule_name") false;
          mkControl (Some "field_role") false;
          mkControl (Some "destination_field") false;
          mkControl (Some "source_type_options") false]
         ++ detailControls details
         ++ [mkControl (Some "default_transformation") false;
             mkControl (Some "is_required") isBase;
             mkControl (Some "is_hidden") false;
             mkControl (Some "is_base_rule") false;
             mkControl None false]).

(** ** Mutability policy *)

(** The body of the loop of [toggleBaseRuleEditability] (lines 339-348):
    the [disabled] flag given to a control. *)
Definition controlDisabled (fieldName : option string)
    (isBaseRow isOverrideActive : bool) : bool :=
  match fieldName with
  | Some f =>
      if f =? "is_base_rule" then negb isOverrideActive
      else if f =? "is_required" then isBaseRow
      else andb isBaseRow (negb isOverrideActive)
  | None => andb isBaseRow (negb isOverrideActive)
  end.

Definition toggleControl (isBaseRow isOverrideActive : bool) (el : Control)
    : Control :=
  mkControl (field el) (controlDisabled (field el) isBaseRow isOverrideActive).

Definition toggleRow (isBaseRow isOverrideActive : bool) (row : Row) : Row :=
  mkRow (dataset_id row) (rule_name_input row) (field_role_select row)
        (destination_field_select row) (source_type_select row)
        (source_details row) (default_transformation_input row)
        (is_required_input row) (is_hidden_input row) (is_base_rule_input row)
        (map (toggleControl isBaseRow isOverrideActive) (controls row)).

(** ** The page: closure variables, table bodies and effects *)

Definition API_BASE_URL : string := "/admin/mapping_rules/api/metadata".

Definition dquote : string := String (ascii_of_nat 34) EmptyString.

(** Decimal rendering of a counter inside a template string. *)
Definition decimal (n : nat) : string :=
  DecimalString.NilEmpty.string_of_uint (Nat.to_uint n).

(** What the script does to the outside: calls of [showMessage] and of
    [fetch].  The [body] of a request is the object that line 257 hands
    to [JSON.stringify]; [Js.stringify] gives what goes on the wire. *)
Inductive Event : Type :=
| ShowMessage (message type : string)
| Request (method url : string) (body : option Js.Object).

(** How an awaited API call ends. *)
Inductive Response (A : Type) : Type :=
| Ok (body : A)
| NotOk (message : option string)
| Rejected (message : string).

Arguments Ok {A} body.
Arguments NotOk {A} message.
Arguments Rejected {A} message.

Definition isOk {A : Type} (r : Response A) : bool :=
  match r with
  | Ok _ => true
  | _ => false
  end.

(** The [message] of the [Error] caught after a failed call:
    [(await response.json()).message || fallback], or the message of the
    rejection. *)
Definition errorMessage {A : Type} (r : Response A) (fallback : string)
    : string :=
  match r with
  | Ok _ => fallback
  | NotOk (Some m) => if Js.truthy m then m else fallback
  | NotOk None => fallback
  | Rejected m => m
  end.

Record Page : Type := mkPage {
  allRules : list Rule;
  newRuleCounter : nat;
  ruleToDeleteId : option Js.Id;
  chk_super_admin : option bool;
  base_rules_body : option (list Row);
  additional_rules_body : option (list Row);
  btn_add_base_disabled : bool;
  trace : list Event
}.

Definition bodyRows (body : option (list Row)) : list Row :=
  match body with
  | Some rows => rows
  | None => []
  end.

Definition emit (p : Page) (events : list Event) : Page :=
  mkPage (allRules p) (newRuleCounter p) (ruleToDeleteId p)
         (chk_super_admin p) (base_rules_body p) (additional_rules_body p)
         (btn_add_base_disabled p) (trace p ++ events).

Definition setRuleToDeleteId (p : Page) (target : option Js.Id) : Page :=
  mkPage (allRules p) (newRuleCounter p) target
         (chk_super_admin p) (base_rules_body p) (additional_rules_body p)
         (btn_add_base_disabled p) (trace p).

(** [toggleBaseRuleEditability] (lines 325-354). *)
Definition toggleBaseRuleEditability (p : Page) : Page :=
  let isOverrideActive := match chk_super_admin p with
                          | Some checked => checked
                          | None => false
                          end in
  mkPage (allRules p) (newRuleCounter p) (ruleToDeleteId p)
         (chk_super_admin p)
         (option_map (map (toggleRow true isOverrideActive))
                     (base_rules_body p))
         (option_map (map (toggleRow false isOverrideActive))
                     (additional_rules_body p))
         (negb isOverrideActive) (trace p).

(** A number as line 218 computes with it. *)
Inductive Operand : Type :=
| Num (z : Z) : Operand
| NaN : Operand.

(** Lines 48 and 34: for a role that names a property inherited from
    [Object.prototype], [ROLE_DESTINATION_FIELDS[role] || []] is that
    property, which has no [forEach], and [populateSelect] throws a
    [TypeError] before the row is complete.  [createRuleRow] above gives
    the row of the other rules. *)
Definition createRuleRowThrows (rule : Rule) : bool :=
  match ROLE_DESTINATION_FIELDS (field_role rule) with
  | Some _ => false
  | None => match Js.inherited (field_role rule) with
            | Some _ => true
            | None => false
            end
  end.

(** The message of that [TypeError], in the wording of V8 and
    SpiderMonkey. *)
Definition forEachTypeError : string := "options.forEach is not a function".

(** The rules a [forEach] over [rules] gets through before
    [createRuleRow] throws. *)
Fixpoint builtBeforeThrow (rules : list Rule) : list Rule :=
  match rules with
  | [] => []
  | rule :: rest =>
      if createRuleRowThrows rule then []
      else rule :: builtBeforeThrow rest
  end.

Section Ordering.

(** [a.localeCompare(b)], the host's collation: negative, zero or
    positive. *)
Variable localeCompare : string -> string -> Z.

(** [FIELD_ROLE_ORDER[role] || 99] as an operand of the subtraction of
    line 218.  A role that names a property inherited from
    [Object.prototype] finds that property, which is truthy and converts
    to no number. *)
Definition roleOrder (role : string) : Operand :=
  match FIELD_ROLE_ORDER role with
  | Some n => if (n =? 0)%Z then Num 99 else Num n
  | None => match Js.inherited role with
            | Some _ => NaN
            | None => Num 99
            end
  end.

(** The comparator of [renderRules] (line 218): the difference of the
    role orders, or, where that is zero or [NaN], the comparison of the
    names. *)
Definition compareRules (a b : Rule) : Z :=
  match roleOrder (field_role a), roleOrder (field_role b) with
  | Num x, Num y =>
      if (x - y =? 0)%Z then localeCompare (rule_name a) (rule_name b)
      else (x - y)%Z
  | _, _ => localeCompare (rule_name a) (rule_name b)
  end.

Fixpoint insertRule (x : Rule) (sorted : list Rule) : list Rule :=
  match sorted with
  | [] => [x]
  | y :: rest =>
      if (compareRules x y <=? 0)%Z then x :: sorted
      else y :: insertRule x rest
  end.

(** [rules.sort(compareRules)]: the sort is stable, so for a consistent
    comparator its result is the one a stable insertion computes, as it is
    for any two rules whose names [localeCompare] orders one way round.
    For other comparators the order is left to the engine, and nothing is
    stated of it here. *)
Definition sortRules (rules : list Rule) : list Rule :=
  fold_right insertRule [] rules.

(** [renderRules(allRules)] (lines 212-230) throws when the row of one of
    the rules cannot be built. *)
Definition renderRulesThrows (p : Page) : bool :=
  match base_rules_body p, additional_rules_body p with
  | Some _, Some _ => existsb createRuleRowThrows (sortRules (allRules p))
  | _, _ => false
  end.

(** The page [renderRules(allRules)] leaves (lines 212-230).  Its only
    caller passes the array [allRules] itself, which [sort] reorders in
    place before any row is built.  When a row cannot be built the rows
    of the rules before it are in the tables and
    [toggleBaseRuleEditability] has not run. *)
Definition renderRules (p : Page) : Page :=
  match base_rules_body p, additional_rules_body p with
  | Some _, Some _ =>
      let rules := sortRules (allRules p) in
      let built := builtBeforeThrow rules in
      let rendered :=
        mkPage rules (newRuleCounter p) (ruleToDeleteId p)
           (chk_super_admin p)
           (Some (map (fun rule => createRuleRow rules rule true)
                      (filter is_base_rule built)))
           (Some (map (fun rule => createRuleRow rules rule false)
                      (filter (fun rule => negb (is_base_rule rule)) built)))
           (btn_add_base_disabled p) (trace p) in
      if existsb createRuleRowThrows rules then rendered
      else toggleBaseRuleEditability rendered
  | _, _ => p
  end.

(** [fetchRules] (lines 232-241), up to its first await. *)
Definition fetchRulesCall (p : Page) : Page :=
  emit p [Request "GET" API_BASE_URL None].

(** [fetchRules], from the arrival of the response on; what
    [renderRules] throws is caught and shown (line 239). *)
Definition fetchRulesSettle (p : Page) (response : Response (list Rule))
    : Page :=
  match response with
  | Ok rules =>
      let assigned :=
        mkPage rules (newRuleCounter p) (ruleToDeleteId p)
           (chk_super_admin p) (base_rules_body p)
           (additional_rules_body p) (btn_add_base_disabled p) (trace p) in
      if renderRulesThrows assigned
      then emit (renderRules assigned)
                [ShowMessage ("Error: " ++ forEachTypeError) "error"]
      else renderRules assigned
  | _ =>
      emit p [ShowMessage
                ("Error: " ++ errorMessage response "Failed to fetch rules")
                "error"]
  end.

(** [addRow] (lines 270-278). *)
Definition addRow (p : Page) (isBase : bool) : Page :=
  let counter := S (newRuleCounter p) in
  let newRule :=
    mkRule ("new_" ++ decimal counter) "" "" "" "" isBase false isBase
           None None None None None in
  let newRow := createRuleRow (allRules p) newRule isBase in
  toggleBaseRuleEditability
    (mkPage (allRules p) counter (ruleToDeleteId p) (chk_super_admin p)
       (if isBase
        then option_map (fun rows => rows ++ [newRow]) (base_rules_body p)
        else base_rules_body p)
       (if isBase
        then additional_rules_body p
        else option_map (fun rows => rows ++ [newRow])
                        (additional_rules_body p))
       (btn_add_base_disabled p) (trace p)).

(** The request a row's save issues (lines 251-258). *)
Definition saveRequest (rules : list Rule) (row : Row) : Event :=
  let payload := getRulePayload rules row in
  match Js.get "id" payload with
  | Some (Js.Str i) =>
      if Js.truthy i
      then Request "PUT" (API_BASE_URL ++ "/" ++ i) (Some payload)
      else Request "POST" API_BASE_URL (Some payload)
  | _ => Request "POST" API_BASE_URL (Some payload)
  end.

(** The message shown when a row's save fails (lines 259 and 262). *)
Definition saveFailure (row : Row) (response : Response unit) : Event :=
  ShowMessage
    ("Error saving " ++ dquote ++ rule_name_input row ++ dquote ++ ": "
     ++ errorMessage response ("Failed to save rule: " ++ rule_name_input row))
    "error".

(** The continuation of one row's save once its call has ended
    (lines 259-263): count a success, or report the failure. *)
Definition settleSave (rows : list Row) (responses : nat -> Response unit)
    (acc : nat * list Event) (i : nat) : nat * list Event :=
  match nth_error rows i with
  | Some row =>
      if isOk (responses i) then (S (fst acc), snd acc)
      else (fst acc, snd acc ++ [saveFailure row (responses i)])
  | None => acc
  end.

(** The saves of a batch settle one at a time, in the order [order] in
    which the calls end; the result is [successCount] and the failure
    messages shown. *)
Definition settleAll (rows : list Row) (responses : nat -> Response unit)
    (order : list nat) : nat * list Event :=
  fold_left (settleSave rows responses) order (0, []).

(** [saveAllChanges] (lines 243-268): every row's request is issued
    while the array of promises is built; the calls then end in the order
    [order]; after all have settled the count is reported and the rules
    are fetched again. *)
Definition saveAllChanges (p : Page) (responses : nat -> Response unit)
    (order : list nat) : Page :=
  match base_rules_body p, additional_rules_body p with
  | Some baseRows, Some additionalRows =>
      let allRows := baseRows ++ additionalRows in
      let '(successCount, failures) := settleAll allRows responses order in
      fetchRulesCall
        (emit p
           (map (saveRequest (allRules p)) allRows
            ++ failures
            ++ (if Nat.ltb 0 successCount
                then [ShowMessage
                        ("Successfully saved " ++ decimal successCount
                         ++ " rule(s).") "success"]
                else [])))
  | _, _ => p
  end.

(** [hideConfirmationModal] (lines 304-308). *)
Definition hideConfirmationModal (p : Page) : Page :=
  setRuleToDeleteId p None.

(** The click handler of a row's delete button (lines 205-208);
    [ruleId] is [rule.id] as the row's rule has it, of which the row's
    [dataset.id] is the rendering. *)
Definition clickDelete (p : Page) (ruleId : Js.Id) : Page :=
  setRuleToDeleteId p (Some ruleId).

Fixpoint removeFirstRow (rowId : string) (rows : list Row) : list Row :=
  match rows with
  | [] => []
  | row :: rest =>
      if dataset_id row =? rowId then rest
      else row :: removeFirstRow rowId rest
  end.

(** [deleteRule] (lines 280-297); [response] is the outcome of the
    DELETE call, when one is made. *)
Definition deleteRule (p : Page) (response : Response unit) : Page :=
  match ruleToDeleteId p with
  | None => p
  | Some raw =>
      let target := Js.render raw in
      if negb (Js.truthyId raw) then p
      else if Js.startsWith target "new_" then
        let inBase :=
          existsb (fun row => dataset_id row =? target)
                  (bodyRows (base_rules_body p)) in
        hideConfirmationModal
          (emit
             (mkPage (allRules p) (newRuleCounter p) (ruleToDeleteId p)
                (chk_super_admin p)
                (option_map (removeFirstRow target) (base_rules_body p))
                (if inBase then additional_rules_body p
                 else option_map (removeFirstRow target)
                                 (additional_rules_body p))
                (btn_add_base_disabled p) (trace p))
             [ShowMessage "New unsaved rule removed." "success"])
      else
        let called :=
          emit p [Request "DELETE" (API_BASE_URL ++ "/" ++ target) None] in
        hideConfirmationModal
          (if isOk response
           then fetchRulesCall
                  (emit called
                     [ShowMessage "Rule deleted successfully!" "success"])
           else emit called
                  [ShowMessage
                     ("Error: "
                      ++ errorMessage response "Failed to delete rule")
                     "error"])
  end.

(** What happens to the page: calls of the exported functions, ends of
    API calls, and the user setting the [chk-super-admin] checkbox. *)
Inductive Action : Type :=
| CallFetchRules
| RulesArrive (response : Response (list Rule))
| AddRow (isBase : bool)
| ClickDelete (ruleId : Js.Id)
| ConfirmDelete (response : Response unit)
| SaveAll (responses : nat -> Response unit) (order : list nat)
| CheckOverride (checked : bool)
| ToggleEditability.

Definition step (p : Page) (a : Action) : Page :=
  match a with
  | CallFetchRules => fetchRulesCall p
  | RulesArrive response => fetchRulesSettle p response
  | AddRow isBase => addRow p isBase
  | ClickDelete ruleId => clickDelete p ruleId
  | ConfirmDelete response => deleteRule p response
  | SaveAll responses order => saveAllChanges p responses order
  | CheckOverride checked =>
      mkPage (allRules p) (newRuleCounter p) (ruleToDeleteId p)
        (option_map (fun _ => checked) (chk_super_admin p))
        (base_rules_body p) (additional_rules_body p)
        (btn_add_base_disabled p) (trace p)
  | ToggleEditability => toggleBaseRuleEditability p
  end.

Definition run (p : Page) (actions : list Action) : Page :=
  fold_left step actions p.

(** The page when the script has just been loaded: [allRules = []],
    [newRuleCounter = 0], [ruleToDeleteId = null], both table bodies
    empty. *)
Definition initialPage (chk : option bool) : Page :=
  mkPage [] 0 None chk (Some []) (Some []) false [].

End Ordering.

(** ** The specification's vocabulary *)

(** The source-type select of a row whose rule stores the kinds [stored]
    (lines 147 and 170-171). *)
Definition sourceTypeSelectFor (stored : list string) : Select :=
  populateSelectMultiple (map (fun t => mkOptionData t t) ALL_SOURCE_TYPES)
                         stored.

(** The priority Link > CSV Formula > Text Override > CSV over a set of
    kind names, as the specification words it. *)
Definition priorityKind (kinds : list string) : option SourceKind :=
  if Js.arrIncludes kinds "Link" then Some Link
  else if Js.arrIncludes kinds "CSV Formula" then Some CsvFormula
  else if Js.arrIncludes kinds "Text Override" then Some TextOverride
  else if Js.arrIncludes kinds "CSV" then Some Csv
  else None.

(** The field names of the Rule/RulePayload shape of the data model. *)
Definition RulePayload_fields : list string :=
  ["id"; "rule_name"; "field_role"; "destination_field";
   "source_type_options"; "is_required"; "is_hidden"; "is_base_rule";
   "link_table_lookup"; "link_field_lookup"; "formula_template";
   "static_value"; "default_transformation"].

(** A control can be edited when it is not disabled. *)
Definition editable (el : Control) : bool := negb (ctl_disabled el).

(** The privileged override, as [toggleBaseRuleEditability] reads it. *)
Definition overrideActive (p : Page) : bool :=
  match chk_super_admin p with
  | Some checked => checked
  | None => false
  end.

(** Two rules share their [(field_role, destination_field)] pair. *)
Definition samePair (a b : Rule) : Prop :=
  field_role a = field_role b /\ destination_field a = destination_field b.

(** The round trip at a rule [r] of [store]: the reverse lookup of the
    pointer that the forward lookup writes when the picker holds [r]'s id
    gives back [r]'s id. *)
Definition roundTripAt (store : list Rule) (r : Rule) : Prop :=
  let pointer := forwardLookup store (Some (id r)) in
  reverseLookup store (fst pointer) (snd pointer) = Some (id r).

(** The role order as the specification gives it: the five roles of
    the Schema Registry in their order, and 99 for any other role. *)
Definition specRoleOrder (role : string) : Z :=
  if role =? "header" then 1
  else if role =? "item" then 2
  else if role =? "line" then 3
  else if role =? "account" then 4
  else if role =? "ignore" then 5
  else 99.

(** Ascending by role order, then by rule name. *)
Definition canonicalLe (localeCompare : string -> string -> Z) (a b : Rule)
    : Prop :=
  (specRoleOrder (field_role a) < specRoleOrder (field_role b))%Z
  \/ (specRoleOrder (field_role a) = specRoleOrder (field_role b)
      /\ (localeCompare (rule_name a) (rule_name b) <= 0)%Z).

(** A role that names no property inherited from [Object.prototype]. *)
Definition plainRole (role : string) : Prop := Js.inherited role = None.

Definition plainRules (rules : list Rule) : Prop :=
  Forall (fun r => plainRole (field_role r)) rules.

(** A rule whose name and default transformation the markup of its row
    holds as they are. *)
Definition markupSafeRule (r : Rule) : Prop :=
  markupSafe (rule_name r) = true
  /\ markupSafe (orEmpty (default_transformation r)) = true.

(** A collation is consistent: swapping the arguments flips the sign, and
    "not after" is transitive. *)
Definition consistentCollation (compare : string -> string -> Z) : Prop :=
  (forall a b, Z.sgn (compare a b) = (- Z.sgn (compare b a))%Z)
  /\ (forall a b c, (compare a b <= 0)%Z -> (compare b c <= 0)%Z ->
                    (compare a c <= 0)%Z).

(** An editor holds a text that its element can give back: a textarea
    gives line feeds for all line breaks, a text input gives none. *)
Definition heldByEditor (details : SourceDetails) : Prop :=
  match details with
  | FormulaEditor formulaInput _ =>
      Js.normalizeNewlines formulaInput = formulaInput
  | TextOverrideInput textInput => Js.stripNewlines textInput = textInput
  | _ => True
  end.

(** The kind of the auxiliary editor a row shows. *)
Definition editorKind (details : SourceDetails) : option SourceKind :=
  match details with
  | LinkSourceSelect _ => Some Link
  | FormulaEditor _ _ => Some CsvFormula
  | TextOverrideInput _ => Some TextOverride
  | CsvColumnLabel => Some Csv
  | DashLabel => None
  end.

(** The properties a request carries on the wire. *)
Definition wireBody (e : Event) : option Js.Object :=
  match e with
  | Request _ _ (Some payload) => Some (Js.stringify payload)
  | _ => None
  end.

(** [a] stands before [b] in [l]. *)
Definition before (a b : Rule) (l : list Rule) : Prop :=
  exists l1 l2 l3, l = l1 ++ a :: l2 ++ b :: l3.

(** A collation the comparator can be run with: code-unit order. *)
Definition codeUnitCompare (a b : string) : Z :=
  match String_as_OT.compare a b with
  | Lt => (-1)%Z
  | Eq => 0%Z
  | Gt => 1%Z
  end.

(** An action whose fetched rules, if any, have plain roles. *)
Definition plainAction (a : Action) : Prop :=
  match a with
  | RulesArrive (Ok rules) => plainRules rules
  | _ => True
  end.

(** The fetches that succeeded in a run bring only plain roles. *)
Definition plainResponses (actions : list Action) : Prop :=
  forall rules,
    In (RulesArrive (Ok rules)) actions -> plainRules rules.

(** The fetches that succeeded in a run bring only persisted ids. *)
Definition persistedResponses (actions : list Action) : Prop :=
  forall rules r,
    In (RulesArrive (Ok rules)) actions -> In r rules ->
    Js.startsWith (id r) "new_" = false.

(** Both table bodies are in the document. *)
Definition bodiesPresent (p : Page) : Prop :=
  base_rules_body p <> None /\ additional_rules_body p <> None.

(** The shared collection is in canonical order on a page that has both
    table bodies. *)
Definition canonicalStore (localeCompare : string -> string -> Z) (p : Page)
    : Prop :=
  bodiesPresent p
  /\ StronglySorted (canonicalLe localeCompare) (allRules p).

(** Every row of the two table bodies carries the four source kinds in
    its source-type select. *)
Definition rowsWellFormed (p : Page) : Prop :=
  forall row,
    In row (bodyRows (base_rules_body p)
            ++ bodyRows (additional_rules_body p)) ->
    map value (source_type_select row) = ALL_SOURCE_TYPES.

(** ** Sample data *)

Definition sampleRule (i name role dest kinds : string) : Rule :=
  mkRule i name role dest kinds false false false None None None None None.

Definition sampleStore : list Rule :=
  [sampleRule "1" "B" "line" "quantity" "CSV";
   sampleRule "2" "A" "header" "invoice_number" "CSV,Link";
   sampleRule "3" "A" "line" "description" "CSV Formula,Text Override"].

Definition ignoredRule : Rule := sampleRule "7" "Skip" "ignore" "" "CSV".

Definition blankDestinationRule : Rule := sampleRule "8" "Blank" "header" "" "CSV".

Definition sampleActions : list Action :=
  [CallFetchRules; RulesArrive (Ok sampleStore); AddRow false].

Definition samplePage : Page :=
  run codeUnitCompare (initialPage (Some false)) sampleActions.

(** A page of three rows, and a batch save in which the call of the second
    row fails and the calls end in the order third, first, second. *)
Definition batchPage : Page :=
  run codeUnitCompare (initialPage (Some false))
      [CallFetchRules; RulesArrive (Ok sampleStore)].

Definition batchResponses (i : nat) : Response unit :=
  if Nat.eqb i 1 then NotOk (Some "duplicate name") else Ok tt.

Definition batchOrder : list nat := [2; 0; 1].

Definition sampleRow : Row :=
  createRuleRow sampleStore (sampleRule "2" "A" "header" "invoice_number" "CSV,Link") false.

Definition batchFailingRow : Row :=
  nth 1 (bodyRows (additional_rules_body batchPage)) sampleRow.

Definition toggledPage : Page := toggleBaseRuleEditability samplePage.

Definition toggledRow : Row :=
  hd sampleRow (bodyRows (additional_rules_body toggledPage)).

(** ** Change listeners of a row *)

(** [rule.source_type_options ? rule.source_type_options.split(',') : []]
    (line 147): the kinds a stored string stands for. *)
Definition storedKinds (kinds : string) : list string :=
  if Js.truthy kinds then Js.split "," kinds else [].

(** A payload property as a string operand of [||]: [null] and the other
    non-strings count for nothing. *)
Definition stringOperand (v : option Js.Value) : option string :=
  match v with
  | Some (Js.Str s) => Some s
  | _ => None
  end.

(** [r.link_table_lookup === t], for a string [t]. *)
Definition isString (o : option string) (t : string) : bool :=
  match o with
  | Some s => s =? t
  | None => false
  end.

(** [r.link_table_lookup === v], for a stored pointer part, which is a
    string or [null], and a truthy payload value [v]. *)
Definition isValue (o : option string) (v : Js.Value) : bool :=
  match v with
  | Js.Str t => isString o t
  | _ => false
  end.

(** The rule id handed to the link picker by [handleSourceChange]
    (lines 191-193): [null] when the payload has no pointer, else the id of
    the first rule whose own stored pointer equals the payload's.  When
    there is none the id is [undefined], for which [populateSelect] takes
    its default [[]], whose rendering is the empty string. *)
Definition changedLinkedRuleId (allRules : list Rule)
    (currentRuleData : Js.Object) : option string :=
  match Js.get "link_table_lookup" currentRuleData,
        Js.get "link_field_lookup" currentRuleData with
  | Some table, Some fieldName =>
      if andb (Js.truthyValue table) (Js.truthyValue fieldName) then
        match Js.find (fun r =>
                 andb (isValue (link_table_lookup r) table)
                      (isValue (link_field_lookup r) fieldName)) allRules with
        | Some r => Some (id r)
        | None => Some ""
        end
      else None
  | _, _ => None
  end.

(** [handleSourceChange] (lines 183-196): the payload is read off the row
    as it stands, and the auxiliary editor is rebuilt from it; the controls
    of the new editor are enabled. *)
Definition handleSourceChange (allRules : list Rule) (row : Row) : Row :=
  let currentRuleData := getRulePayload allRules row in
  let details :=
    updateSourceDetailsDisplay allRules (source_type_select row)
      (orElse (stringOperand (Js.get "formula_template" currentRuleData))
              (stringOperand (Js.get "static_value" currentRuleData)))
      (changedLinkedRuleId allRules currentRuleData)
      (Some (dataset_id row)) in
  mkRow (dataset_id row) (rule_name_input row) (field_role_select row)
        (destination_field_select row) (source_type_select row)
        details (default_transformation_input row)
        (is_required_input row) (is_hidden_input row) (is_base_rule_input row)
        (firstn 4 (controls row)
         ++ detailControls details
         ++ skipn (4 + List.length (detailControls (source_details row)))
                  (controls row)).

(** The [change] listener of the role select (lines 198-201), run once the
    select holds the role the user chose: the destination select is
    refilled for that role with nothing preselected ([String(null)]), then
    [handleSourceChange] runs. *)
Definition fieldRoleChanged (allRules : list Rule) (row : Row) : Row :=
  handleSourceChange allRules
    (mkRow (dataset_id row) (rule_name_input row) (field_role_select row)
       (populateDestinationFields (selectValue (field_role_select row)) "null")
       (source_type_select row) (source_details row)
       (default_transformation_input row) (is_required_input row)
       (is_hidden_input row) (is_base_rule_input row) (controls row)).

(** ** Further vocabulary *)

(** A stored pointer [(table, field)] designates the rule [r]: the test
    of the scan of lines 175-176. *)
Definition designates (table fieldName : string) (r : Rule) : bool :=
  andb (match roleOfTable table with
        | Some role => role =? field_role r
        | None => false
        end)
       (destination_field r =? fieldName).

(** The row stands for a rule the server knows: its id is not empty and
    is no [new_] marker (the test of line 127). *)
Definition persistedRow (row : Row) : bool :=
  andb (Js.truthy (dataset_id row))
       (negb (Js.startsWith (dataset_id row) "new_")).

(** All rows of the two table bodies, base rules first. *)
Definition allRows (p : Page) : list Row :=
  bodyRows (base_rules_body p) ++ bodyRows (additional_rules_body p).

(** Every row with a [new_] marker got it from [addRow]: its number is at
    most [newRuleCounter]. *)
Definition transientIdsCounted (p : Page) : Prop :=
  forall row,
    In row (allRows p) ->
    Js.startsWith (dataset_id row) "new_" = true ->
    exists k, 1 <= k <= newRuleCounter p
              /\ dataset_id row = ("new_" ++ decimal k)%string.

(** The first valid destination of a role, the empty string for a role
    without destinations. *)
Definition firstDestination (role : string) : string :=
  match ROLE_DESTINATION_FIELDS role with
  | Some (fieldData :: _) => od_value fieldData
  | _ => ""
  end.

(** The destinations valid for a role. *)
Definition validDestinations (role : string) : list string :=
  match ROLE_DESTINATION_FIELDS role with
  | Some fields => map od_value fields
  | None => []
  end.

(** A character other than the comma occurs at every place of [s]. *)
Fixpoint commaFree (s : string) : bool :=
  match s with
  | EmptyString => true
  | String c rest => andb (negb (Ascii.eqb c ",")) (commaFree rest)
  end.


(** A store whose second rule has a role that names a method of
    [Object.prototype], and a row whose link picker targets that rule. *)
Definition inheritedRoleStore : list Rule :=
  [sampleRule "1" "B" "header" "invoice_number" "CSV";
   sampleRule "2" "A" "toString" "total" "CSV";
   sampleRule "3" "C" "line" "quantity" "Link"].

Definition inheritedRoleRow : Row :=
  mkRow "3" "C" [] [] (sourceTypeSelectFor ["Link"])
        (LinkSourceSelect [mkOption "2" "A" true false])
        "" (Some false) false false [].

(** Two rules of which the second has the role [constructor], which is
    outside the known roles and names an inherited property. *)
Definition inheritedOrderStore : list Rule :=
  [sampleRule "1" "B" "header" "invoice_number" "CSV";
   sampleRule "2" "A" "constructor" "total" "CSV"].

(** A response that is not in canonical order, and a page whose document
    lacks the base-rule table. *)
Definition unsortedStore : list Rule :=
  [sampleRule "1" "B" "line" "quantity" "CSV";
   sampleRule "2" "A" "header" "invoice_number" "CSV"].

Definition pageWithoutBaseBody : Page :=
  mkPage [] 0 None (Some false) None (Some []) false [].

(** A text-override rule whose static text has a line feed between [a]
    and [b], and a formula rule whose formula has a carriage return and
    a line feed there. *)
Definition twoLineTextRule : Rule :=
  mkRule "5" "Note" "header" "invoice_number" "Text Override"
         false false false None None None
         (Some (String "a" (String (ascii_of_nat 10) "b"))) None.

Definition twoLineFormulaRule : Rule :=
  mkRule "6" "Sum" "header" "invoice_number" "CSV Formula"
         false false false None None
         (Some (String "a" (String (ascii_of_nat 13)
                              (String (ascii_of_nat 10) "b"))))
         None None.

(** * Properties *)

(** ** The shape of a payload *)

Lemma getRulePayload_keys (rules : list Rule) (row : Row) :
  Js.keys (getRulePayload rules row) =
  ["id"; "rule_name"; "field_role"; "destination_field";
   "source_type_options"; "rule_type"; "is_required"; "is_hidden";
   "is_base_rule"; "link_table_lookup"; "link_field_lookup";
   "formula_template"; "static_value"; "default_transformation"].
Proof.
  unfold getRulePayload.
  destruct (payloadKind _) as [[ | | | ] | ];
    try destruct (forwardLookup _ _); reflexivity.
Qed.

Lemma serialised_strOrNull (s : string) :
  Js.serialised (Js.strOrNull s) = true.
Proof. unfold Js.strOrNull. now destruct (Js.truthy s). Qed.

Lemma serialised_optOrNull (o : option string) :
  Js.serialised (Js.optOrNull o) = true.
Proof. destruct o; [apply serialised_strOrNull | reflexivity]. Qed.

Lemma forwardLookup_cases (rules : list Rule) (v : option string) :
  forwardLookup rules v = (Js.Null, Js.Null)
  \/ exists r, In r rules /\ forwardLookup rules v = linkPointer r.
Proof.
  unfold forwardLookup, Js.find.
  destruct v as [v | ]; [ | now left].
  destruct (Js.truthy v); [ | now left].
  destruct (find _ rules) as [r | ] eqn:E; [ | now left].
  right. exists r. split; [ | reflexivity].
  now apply find_some in E.
Qed.

Lemma lookupOrNull_plain (own : string -> option string) (key : string) :
  Js.inherited key = None -> Js.serialised (Js.lookupOrNull own key) = true.
Proof.
  intros H. unfold Js.lookupOrNull. rewrite H.
  destruct (own key); [apply serialised_strOrNull | reflexivity].
Qed.

(** What [JSON.stringify] keeps of a payload: every property but, when it
    holds a function, [link_table_lookup]. *)
Lemma getRulePayload_wire_keys (rules : list Rule) (row : Row) :
  Js.keys (Js.stringify (getRulePayload rules row)) =
  ["id"; "rule_name"; "field_role"; "destination_field";
   "source_type_options"; "rule_type"; "is_required"; "is_hidden";
   "is_base_rule"]
  ++ (match Js.get "link_table_lookup" (getRulePayload rules row) with
      | Some Js.Fun => []
      | _ => ["link_table_lookup"]
      end)
  ++ ["link_field_lookup"; "formula_template"; "static_value";
      "default_transformation"].
Proof.
  unfold getRulePayload.
  assert (Hid : forall c s, Js.serialised (if c : bool then Js.Str s
                                           else Js.Null) = true)
    by (intros [ | ] ?; reflexivity).
  destruct (payloadKind _) as [[ | | | ] | ].
  - destruct (forwardLookup_cases rules (linkSourceSelectValue row))
      as [-> | (r & _ & ->)].
    + cbn [Js.stringify filter snd Js.serialised Js.get Js.keys map fst
           List.find String.eqb Ascii.eqb Bool.eqb app].
      rewrite Hid, serialised_strOrNull. reflexivity.
    + unfold linkPointer.
      cbn [Js.stringify filter snd Js.get Js.keys map fst].
      rewrite Hid, serialised_strOrNull. cbn [Js.serialised].
      destruct (Js.lookupOrNull tableMap (field_role r)); reflexivity.
  - cbn [Js.stringify filter snd]. cbn [Js.serialised].
    rewrite Hid, serialised_strOrNull, serialised_optOrNull. reflexivity.
  - cbn [Js.stringify filter snd]. cbn [Js.serialised].
    rewrite Hid, serialised_strOrNull, serialised_optOrNull. reflexivity.
  - cbn [Js.stringify filter snd]. cbn [Js.serialised].
    rewrite Hid, serialised_strOrNull. reflexivity.
  - cbn [Js.stringify filter snd]. cbn [Js.serialised].
    rewrite Hid, serialised_strOrNull. reflexivity.
Qed.

(** With plain roles in the store the pointer of a payload holds no
    function. *)
Lemma getRulePayload_table_plain (rules : list Rule) (row : Row) :
  plainRules rules ->
  Js.get "link_table_lookup" (getRulePayload rules row) <> Some Js.Fun.
Proof.
  intros Hplain. unfold getRulePayload.
  destruct (payloadKind _) as [[ | | | ] | ]; try (cbn; discriminate).
  destruct (forwardLookup_cases rules (linkSourceSelectValue row))
    as [-> | (r & Hr & ->)]; [cbn; discriminate | ].
  unfold linkPointer. cbn.
  intros H. injection H as H.
  unfold plainRules in Hplain. rewrite Forall_forall in Hplain.
  pose proof (lookupOrNull_plain tableMap _ (Hplain r Hr)) as Hs.
  rewrite H in Hs. discriminate Hs.
Qed.

(** The four auxiliary properties of a payload, by the branch taken. *)
Lemma getRulePayload_auxiliary (rules : list Rule) (row : Row) :
  let payload := getRulePayload rules row in
  let pointer := forwardLookup rules (linkSourceSelectValue row) in
  (Js.get "link_table_lookup" payload, Js.get "link_field_lookup" payload,
   Js.get "formula_template" payload, Js.get "static_value" payload) =
  match payloadKind (Js.join "," (selectedValues (source_type_select row))) with
  | Some Link => (Some (fst pointer), Some (snd pointer),
                  Some Js.Null, Some Js.Null)
  | Some CsvFormula => (Some Js.Null, Some Js.Null,
                        Some (Js.optOrNull (formulaInputValue row)),
                        Some Js.Null)
  | Some TextOverride => (Some Js.Null, Some Js.Null, Some Js.Null,
                          Some (Js.optOrNull (textInputValue row)))
  | _ => (Some Js.Null, Some Js.Null, Some Js.Null, Some Js.Null)
  end.
Proof.
  unfold getRulePayload.
  destruct (payloadKind _) as [[ | | | ] | ];
    try destruct (forwardLookup _ _); reflexivity.
Qed.

(** C1. For every row, the payload's [is_required] is [true] when the
    row's [is_base_rule] box is checked, whatever the [is_required] box
    holds, and otherwise it is the state of the [is_required] box ([false]
    when the row has no such box); [is_base_rule] is copied as it is. *)
Theorem C1_is_required_forced_for_base_rules :
  forall (rules : list Rule) (row : Row),
    Js.get "is_base_rule" (getRulePayload rules row)
    = Some (Js.Bool (is_base_rule_input row))
    /\ Js.get "is_required" (getRulePayload rules row)
       = Some (Js.Bool (if is_base_rule_input row then true
                        else match is_required_input row with
                             | Some checked => checked
                             | None => false
                             end)).
Proof.
  intros rules row. unfold getRulePayload.
  destruct (payloadKind _) as [[ | | | ] | ];
    try destruct (forwardLookup _ _);
    (split; [reflexivity | ]);
    cbn; destruct (is_base_rule_input row); reflexivity.
Qed.

(** ** The active source kind *)

Lemma sourceTypeSelectFor_selected (stored : list string) :
  selectedValues (sourceTypeSelectFor stored)
  = filter (Js.arrIncludes stored) ALL_SOURCE_TYPES.
Proof.
  unfold selectedValues, sourceTypeSelectFor, populateSelectMultiple,
    ALL_SOURCE_TYPES.
  cbn [map filter selected value od_value od_text].
  repeat match goal with
         | |- context [if Js.arrIncludes stored ?k then _ else _] =>
             destruct (Js.arrIncludes stored k)
         end; reflexivity.
Qed.

(** A select that carries the four source kinds is determined by its four
    selection flags. *)
Lemma source_select_flags (sel : Select) :
  map value sel = ALL_SOURCE_TYPES ->
  exists b1 b2 b3 b4 : bool,
    selectedValues sel
    = (if b1 then ["CSV"] else []) ++ (if b2 then ["CSV Formula"] else [])
      ++ (if b3 then ["Text Override"] else []) ++ (if b4 then ["Link"] else []).
Proof.
  unfold ALL_SOURCE_TYPES, selectedValues. intros H.
  destruct sel as [ | [v1 t1 s1 d1] [ | [v2 t2 s2 d2] [ | [v3 t3 s3 d3]
    [ | [v4 t4 s4 d4] [ | ? ?]]]]]; try discriminate H.
  cbn in H. injection H as -> -> -> ->.
  exists s1, s2, s3, s4.
  destruct s1, s2, s3, s4; reflexivity.
Qed.

(** On the select of a row, the branch of the payload builder is the
    branch of the display, the plain CSV kind having no branch in the
    builder. *)
Lemma payloadKind_activeKind (sel : Select) :
  map value sel = ALL_SOURCE_TYPES ->
  payloadKind (Js.join "," (selectedValues sel))
  = match activeKind (map Js.toLowerCase (selectedValues sel)) with
    | Some Csv => None
    | k => k
    end.
Proof.
  intros H. destruct (source_select_flags sel H) as (b1 & b2 & b3 & b4 & ->).
  destruct b1, b2, b3, b4; vm_compute; reflexivity.
Qed.

Lemma active_priority (stored : list string) :
  activeKind (map Js.toLowerCase (selectedValues (sourceTypeSelectFor stored)))
  = priorityKind stored.
Proof.
  rewrite sourceTypeSelectFor_selected.
  unfold priorityKind, ALL_SOURCE_TYPES. cbn [filter].
  destruct (Js.arrIncludes stored "CSV"),
    (Js.arrIncludes stored "CSV Formula"),
    (Js.arrIncludes stored "Text Override"),
    (Js.arrIncludes stored "Link"); reflexivity.
Qed.

(** C3. The kinds stored with a rule select the options of the row's
    source-type select.  On that select [updateSourceDetailsDisplay]
    builds the editor of the kind that the priority
    Link > CSV Formula > Text Override > CSV gives on the stored kinds,
    and the dash placeholder when it gives none; and [getRulePayload]
    fills the auxiliary properties of that same kind, the plain CSV kind
    having none to fill.  So (CSV, Link) resolves to Link,
    (CSV Formula, Text Override) to CSV Formula, and the empty set or a
    set of unrecognised names to none, with the dash placeholder and no
    auxiliary property. *)
Theorem C3_active_kind_priority :
  forall (stored : list string) (rules : list Rule)
         (formula linked rowId : option string) (row : Row),
    let select := sourceTypeSelectFor stored in
    let display := updateSourceDetailsDisplay rules select formula linked
                                              rowId in
    let payload := getRulePayload rules row in
    let pointer := forwardLookup rules (linkSourceSelectValue row) in
    editorKind display = priorityKind stored
    /\ (priorityKind stored = None <-> display = DashLabel)
    /\ (source_type_select row = select ->
        (Js.get "link_table_lookup" payload,
         Js.get "link_field_lookup" payload,
         Js.get "formula_template" payload,
         Js.get "static_value" payload)
        = match priorityKind stored with
          | Some Link => (Some (fst pointer), Some (snd pointer),
                          Some Js.Null, Some Js.Null)
          | Some CsvFormula => (Some Js.Null, Some Js.Null,
                                Some (Js.optOrNull (formulaInputValue row)),
                                Some Js.Null)
          | Some TextOverride => (Some Js.Null, Some Js.Null, Some Js.Null,
                                  Some (Js.optOrNull (textInputValue row)))
          | Some Csv | None =>
              (Some Js.Null, Some Js.Null, Some Js.Null, Some Js.Null)
          end)
    /\ editorKind (updateSourceDetailsDisplay rules
                     (sourceTypeSelectFor ["CSV"; "Link"])
                     formula linked rowId)
       = Some Link
    /\ editorKind (updateSourceDetailsDisplay rules
                     (sourceTypeSelectFor ["CSV Formula"; "Text Override"])
                     formula linked rowId)
       = Some CsvFormula
    /\ updateSourceDetailsDisplay rules (sourceTypeSelectFor [])
         formula linked rowId
       = DashLabel
    /\ ((forall k, In k stored -> ~ In k ALL_SOURCE_TYPES) ->
        priorityKind stored = None /\ display = DashLabel).
Proof.
  intros stored rules formula linked rowId row select display payload pointer.
  assert (Hkind : editorKind display = priorityKind stored).
  { unfold display, select, updateSourceDetailsDisplay.
    rewrite active_priority.
    now destruct (priorityKind stored) as [[ | | | ] | ]. }
  assert (Hdash : priorityKind stored = None <-> display = DashLabel).
  { rewrite <- Hkind. destruct display; cbn; split; congruence. }
  split; [exact Hkind | ].
  split; [exact Hdash | ].
  split.
  { intros Hsel.
    pose proof (getRulePayload_auxiliary rules row) as Haux.
    cbv zeta in Haux. fold payload pointer in Haux.
    rewrite Hsel in Haux. unfold select in Haux.
    rewrite payloadKind_activeKind in Haux.
    - rewrite active_priority in Haux. rewrite Haux.
      now destruct (priorityKind stored) as [[ | | | ] | ].
    - unfold sourceTypeSelectFor, populateSelectMultiple.
      rewrite map_map. reflexivity. }
  split.
  { unfold updateSourceDetailsDisplay. now rewrite active_priority. }
  split.
  { unfold updateSourceDetailsDisplay. now rewrite active_priority. }
  split.
  { unfold updateSourceDetailsDisplay. now rewrite active_priority. }
  intros Hunknown.
  assert (Hnone : priorityKind stored = None).
  { assert (Hout : forall k, In k ALL_SOURCE_TYPES ->
                             Js.arrIncludes stored k = false).
    { intros k Hk. unfold Js.arrIncludes.
      destruct (existsb (String.eqb k) stored) eqn:E; [ | reflexivity].
      apply existsb_exists in E. destruct E as (x & Hx & Heq).
      apply String.eqb_eq in Heq. subst x.
      exfalso. exact (Hunknown k Hx Hk). }
    unfold priorityKind.
    rewrite !Hout by (unfold ALL_SOURCE_TYPES; simpl; tauto).
    reflexivity. }
  split; [exact Hnone | now apply Hdash].
Qed.

(** ** Auxiliary fields of a payload *)

Lemma createRuleRow_source_select (rules : list Rule) (rule : Rule)
    (isBase : bool) :
  map value (source_type_select (createRuleRow rules rule isBase))
  = ALL_SOURCE_TYPES.
Proof.
  unfold createRuleRow. cbn [source_type_select].
  unfold populateSelectMultiple. rewrite map_map. reflexivity.
Qed.

Lemma removeFirstRow_incl (rowId : string) (rows : list Row) (row : Row) :
  In row (removeFirstRow rowId rows) -> In row rows.
Proof.
  induction rows as [ | r rest IH]; cbn; [tauto | ].
  destruct (dataset_id r =? rowId); cbn; tauto.
Qed.

Lemma bodyRows_map (f : Row -> Row) (body : option (list Row)) (row : Row) :
  In row (bodyRows (option_map (map f) body)) ->
  exists r0, row = f r0 /\ In r0 (bodyRows body).
Proof.
  destruct body as [rows | ]; cbn; [ | tauto].
  intros H. apply in_map_iff in H. destruct H as (r0 & <- & Hr0).
  now exists r0.
Qed.

Lemma toggle_rowsWellFormed (p : Page) :
  rowsWellFormed p -> rowsWellFormed (toggleBaseRuleEditability p).
Proof.
  unfold rowsWellFormed, toggleBaseRuleEditability.
  cbn [base_rules_body additional_rules_body].
  intros H row Hrow. apply in_app_or in Hrow.
  destruct Hrow as [Hrow | Hrow];
    apply bodyRows_map in Hrow; destruct Hrow as (r0 & -> & Hr0);
    cbn [toggleRow source_type_select]; apply H; apply in_or_app; tauto.
Qed.


(** C2. For every row whose source-type select carries the four source
    kinds, the payload fills the auxiliary fields of the branch that the
    active kind selects from the row's editor, and every auxiliary field
    outside that branch is null: Link leaves [formula_template] and
    [static_value] null, CSV Formula leaves the link pointer and
    [static_value] null, Text Override leaves the link pointer and
    [formula_template] null, and CSV or no kind leaves all four null. *)
Theorem C2_only_active_branch_populated :
  forall (rules : list Rule) (row : Row),
    map value (source_type_select row) = ALL_SOURCE_TYPES ->
    let payload := getRulePayload rules row in
    let pointer := forwardLookup rules (linkSourceSelectValue row) in
    (Js.get "link_table_lookup" payload, Js.get "link_field_lookup" payload,
     Js.get "formula_template" payload, Js.get "static_value" payload) =
    match activeKind (map Js.toLowerCase
                        (selectedValues (source_type_select row))) with
    | Some Link => (Some (fst pointer), Some (snd pointer),
                    Some Js.Null, Some Js.Null)
    | Some CsvFormula => (Some Js.Null, Some Js.Null,
                          Some (Js.optOrNull (formulaInputValue row)),
                          Some Js.Null)
    | Some TextOverride => (Some Js.Null, Some Js.Null, Some Js.Null,
                            Some (Js.optOrNull (textInputValue row)))
    | Some Csv | None =>
        (Some Js.Null, Some Js.Null, Some Js.Null, Some Js.Null)
    end.
Proof.
  intros rules row Hsel payload pointer.
  unfold payload, pointer. rewrite getRulePayload_auxiliary.
  rewrite (payloadKind_activeKind _ Hsel).
  destruct (activeKind _) as [[ | | | ] | ]; reflexivity.
Qed.

Lemma C2_only_active_branch_populated_witness :
  map value (source_type_select sampleRow) = ALL_SOURCE_TYPES
  /\ (Js.get "link_table_lookup" (getRulePayload sampleStore sampleRow),
      Js.get "link_field_lookup" (getRulePayload sampleStore sampleRow),
      Js.get "formula_template" (getRulePayload sampleStore sampleRow),
      Js.get "static_value" (getRulePayload sampleStore sampleRow))
     = (Some (Js.Str "supplier_invoice_lines"), Some (Js.Str "quantity"),
        Some Js.Null, Some Js.Null).
Proof.
  split; [reflexivity | ].
  exact (C2_only_active_branch_populated sampleStore sampleRow eq_refl).
Defined.

(** ** Field names on the wire *)

(** C9, as the specification states it, fails: the object that is
    serialised into the body of a save carries a property [rule_type],
    which is not a field of the data model. *)
Lemma C9_payload_fields_counterexample :
  (exists method url,
      saveRequest sampleStore sampleRow
      = Request method url (Some (getRulePayload sampleStore sampleRow)))
  /\ ~ (forall k,
          In k (Js.keys (Js.stringify (getRulePayload sampleStore sampleRow)))
          <-> In k RulePayload_fields).
Proof.
  split; [do 2 eexists; reflexivity | ].
  intros H.
  assert (Hin : In "rule_type"
                   (Js.keys (Js.stringify
                               (getRulePayload sampleStore sampleRow)))).
  { rewrite getRulePayload_wire_keys. simpl. tauto. }
  apply H in Hin. unfold RulePayload_fields in Hin. simpl in Hin.
  repeat (destruct Hin as [Hin | Hin]; [discriminate Hin | ]).
  exact Hin.
Qed.

(** C9, amended. The body of every save is the serialisation of the
    row's payload.  It never has a property other than the thirteen
    fields of the data model and [rule_type], none twice; [rule_type]
    always holds the string [user_set]; and every one of the fourteen
    other than [link_table_lookup] is always there.  When the roles of
    the store name no property inherited from [Object.prototype] the
    body has exactly the fourteen.  (For a link to a rule with such a
    role, as in [inheritedRoleStore], [link_table_lookup] holds a
    function and is left out of the body.) *)
Theorem C9_payload_fields :
  forall (rules : list Rule) (row : Row),
    let payload := getRulePayload rules row in
    let body := Js.stringify payload in
    (exists method url,
        saveRequest rules row = Request method url (Some payload)
        /\ wireBody (saveRequest rules row) = Some body)
    /\ (forall k, In k (Js.keys body) ->
                  In k RulePayload_fields \/ k = "rule_type")
    /\ (forall k, In k RulePayload_fields \/ k = "rule_type" ->
                  k <> "link_table_lookup" -> In k (Js.keys body))
    /\ NoDup (Js.keys body)
    /\ Js.get "rule_type" body = Some (Js.Str "user_set")
    /\ (plainRules rules ->
        forall k, In k (Js.keys body)
                  <-> In k RulePayload_fields \/ k = "rule_type")
    /\ Js.keys (Js.stringify
                  (getRulePayload inheritedRoleStore inheritedRoleRow))
       = ["id"; "rule_name"; "field_role"; "destination_field";
          "source_type_options"; "rule_type"; "is_required"; "is_hidden";
          "is_base_rule"; "link_field_lookup"; "formula_template";
          "static_value"; "default_transformation"].
Proof.
  intros rules row payload body. unfold body, payload.
  split.
  { unfold saveRequest.
    destruct (Js.get "id" (getRulePayload rules row)) as [[ | b | i | | ] | ];
      try (do 2 eexists; split; reflexivity).
    destruct (Js.truthy i); do 2 eexists; split; reflexivity. }
  split.
  { intros k. rewrite getRulePayload_wire_keys. unfold RulePayload_fields.
    destruct (Js.get "link_table_lookup" _) as [[ | | | | ] | ];
      simpl; intuition. }
  split.
  { intros k Hk Hne. rewrite getRulePayload_wire_keys.
    unfold RulePayload_fields in Hk.
    destruct (Js.get "link_table_lookup" _) as [[ | | | | ] | ];
      simpl in *; intuition. }
  split.
  { rewrite getRulePayload_wire_keys.
    destruct (Js.get "link_table_lookup" _) as [[ | | | | ] | ];
      cbn [app];
      repeat (constructor; [simpl; intuition discriminate | ]);
      constructor. }
  split.
  { assert (H : Js.get "rule_type" (getRulePayload rules row)
                = Some (Js.Str "user_set")).
    { unfold getRulePayload.
      destruct (payloadKind _) as [[ | | | ] | ];
        try destruct (forwardLookup _ _); reflexivity. }
    revert H. unfold getRulePayload.
    assert (Hid : forall c s, Js.serialised (if c : bool then Js.Str s
                                             else Js.Null) = true)
      by (intros [ | ] ?; reflexivity).
    destruct (payloadKind _) as [[ | | | ] | ];
      try destruct (forwardLookup _ _);
      intros _; cbn [Js.stringify filter snd]; rewrite Hid;
      reflexivity. }
  split.
  { intros Hplain k. rewrite getRulePayload_wire_keys.
    pose proof (getRulePayload_table_plain rules row Hplain) as Hne.
    unfold RulePayload_fields.
    destruct (Js.get "link_table_lookup" _) as [[ | | | | ] | ];
      try (exfalso; apply Hne; reflexivity);
      simpl; intuition. }
  reflexivity.
Qed.

(** ** Editability *)

Lemma toggled_rows (p : Page) (isBaseRow : bool) (row : Row) :
  In row (bodyRows (if isBaseRow
                    then base_rules_body (toggleBaseRuleEditability p)
                    else additional_rules_body (toggleBaseRuleEditability p))) ->
  exists before_toggle,
    row = toggleRow isBaseRow (overrideActive p) before_toggle.
Proof.
  unfold toggleBaseRuleEditability, overrideActive.
  destruct isBaseRow; cbn [base_rules_body additional_rules_body].
  - destruct (base_rules_body p) as [rows | ]; cbn; [ | tauto].
    intros H. apply in_map_iff in H. destruct H as (r0 & <- & _).
    now exists r0.
  - destruct (additional_rules_body p) as [rows | ]; cbn; [ | tauto].
    intros H. apply in_map_iff in H. destruct H as (r0 & <- & _).
    now exists r0.
Qed.

(** C4. After [toggleBaseRuleEditability], for every row of either table
    body and every control of the row: the [is_base_rule] control is
    editable exactly when the override is active; the [is_required]
    control is editable exactly when the row is not in the base-rule
    table; every other control is editable unless the row is in the
    base-rule table and the override is inactive. *)
Theorem C4_field_editability :
  forall (p : Page) (isBaseRow : bool) (row : Row) (el : Control),
    In row (bodyRows (if isBaseRow
                      then base_rules_body (toggleBaseRuleEditability p)
                      else additional_rules_body
                             (toggleBaseRuleEditability p))) ->
    In el (controls row) ->
    (field el = Some "is_base_rule" -> editable el = overrideActive p)
    /\ (field el = Some "is_required" -> editable el = negb isBaseRow)
    /\ (field el <> Some "is_base_rule" -> field el <> Some "is_required" ->
        editable el = negb (andb isBaseRow (negb (overrideActive p)))).
Proof.
  intros p isBaseRow row el Hrow Hel.
  destruct (toggled_rows p isBaseRow row Hrow) as (row0 & ->).
  unfold toggleRow in Hel. cbn [controls] in Hel.
  apply in_map_iff in Hel. destruct Hel as (el0 & <- & _).
  unfold editable, toggleControl, controlDisabled.
  cbn [field ctl_disabled].
  repeat split.
  - intros ->. cbn. apply negb_involutive.
  - intros ->. reflexivity.
  - intros Hbase Hreq. destruct (field el0) as [f | ]; [ | reflexivity].
    destruct (String.eqb_spec f "is_base_rule") as [-> | _];
      [now elim Hbase | ].
    destruct (String.eqb_spec f "is_required") as [-> | _];
      [now elim Hreq | ].
    reflexivity.
Qed.

Lemma C4_field_editability_witness :
  In toggledRow (bodyRows (additional_rules_body toggledPage))
  /\ In (mkControl (Some "is_base_rule") true) (controls toggledRow)
  /\ editable (mkControl (Some "is_base_rule") true) = overrideActive samplePage.
Proof.
  assert (Hrow : In toggledRow (bodyRows (additional_rules_body toggledPage))).
  { vm_compute. left. reflexivity. }
  assert (Hel : In (mkControl (Some "is_base_rule") true) (controls toggledRow)).
  { vm_compute. do 8 right. left. reflexivity. }
  split; [exact Hrow | split; [exact Hel | ]].
  exact (proj1 (C4_field_editability samplePage false toggledRow
                  (mkControl (Some "is_base_rule") true) Hrow Hel) eq_refl).
Defined.

(** ** Link round trip *)

Lemma Rule_eq_dec (a b : Rule) : {a = b} + {a <> b}.
Proof.
  decide equality;
    try apply string_dec; try apply bool_dec;
    decide equality; apply string_dec.
Qed.

Lemma find_unique (test : Rule -> bool) (store : list Rule) (r : Rule) :
  In r store -> test r = true ->
  (forall x, In x store -> test x = true -> x = r) ->
  Js.find test store = Some r.
Proof.
  intros Hin Hr Huniq. unfold Js.find.
  destruct (List.find test store) as [x | ] eqn:E.
  - apply find_some in E. destruct E as [Hx Htx].
    now rewrite (Huniq x Hx Htx).
  - now rewrite (find_none _ _ E r Hin) in Hr.
Qed.

Lemma find_by_id (store : list Rule) (r : Rule) :
  In r store -> NoDup (map id store) ->
  Js.find (fun x => id x =? id r) store = Some r.
Proof.
  intros Hin Hnodup. apply find_unique; [exact Hin | apply String.eqb_refl | ].
  intros x Hx Heq. apply String.eqb_eq in Heq.
  clear - Hin Hx Heq Hnodup.
  induction store as [ | y rest IH]; [contradiction | ].
  cbn in Hnodup. inversion Hnodup as [ | ? ? Hnotin Hrest]; subst.
  destruct Hin as [-> | Hin], Hx as [-> | Hx].
  - reflexivity.
  - elim Hnotin. rewrite <- Heq. now apply in_map.
  - elim Hnotin. rewrite Heq. now apply in_map.
  - now apply IH.
Qed.

Lemma tableMap_roleOfTable (role : string) :
  In role ["header"; "item"; "line"; "account"] ->
  exists table,
    tableMap role = Some table /\ roleOfTable table = Some role
    /\ Js.truthy table = true.
Proof.
  intros H. simpl in H.
  destruct H as [<- | [<- | [<- | [<- | []]]]];
    eexists; repeat split; reflexivity.
Qed.

(** C6, as the specification states it, fails: a rule of role [ignore]
    has no table, and a rule with an empty destination field writes a
    field that the reverse lookup does not follow; in a store holding
    only that rule the round trip gives no id. *)
Lemma C6_round_trip_counterexample :
  ~ (forall (store : list Rule) (r : Rule),
        In r store ->
        (forall r', In r' store -> r' <> r -> ~ samePair r' r) ->
        roundTripAt store r)
  /\ ~ roundTripAt [ignoredRule] ignoredRule
  /\ ~ roundTripAt [blankDestinationRule] blankDestinationRule.
Proof.
  assert (H1 : ~ roundTripAt [ignoredRule] ignoredRule)
    by (vm_compute; discriminate).
  assert (H2 : ~ roundTripAt [blankDestinationRule] blankDestinationRule)
    by (vm_compute; discriminate).
  repeat split; [ | exact H1 | exact H2].
  intros H. apply H1. apply H.
  - left. reflexivity.
  - intros r' [<- | []] Hneq. now elim Hneq.
Qed.

(** C6, amended. For every store and every rule [r] in it whose role is
    header, item, line or account and whose destination field is not
    empty, provided no other rule of the store shares [r]'s
    [(field_role, destination_field)] pair: the reverse lookup of the
    pointer written for [r] gives [r]'s id; that pointer is what the
    forward lookup gives whenever the picker's value resolves to [r]; so
    with distinct ids in the store and a non-empty id the round trip
    holds at [r]. *)
Theorem C6_round_trip :
  forall (store : list Rule) (r : Rule),
    In r store ->
    In (field_role r) ["header"; "item"; "line"; "account"] ->
    destination_field r <> "" ->
    (forall r', In r' store -> r' <> r -> ~ samePair r' r) ->
    reverseLookup store (fst (linkPointer r)) (snd (linkPointer r))
    = Some (id r)
    /\ (forall v, Js.truthy v = true ->
                  Js.find (fun x => id x =? v) store = Some r ->
                  forwardLookup store (Some v) = linkPointer r)
    /\ (id r <> "" -> NoDup (map id store) -> roundTripAt store r).
Proof.
  intros store r Hin Hrole Hdest Huniq.
  assert (Hrev : reverseLookup store (fst (linkPointer r)) (snd (linkPointer r))
                 = Some (id r)).
  { destruct (tableMap_roleOfTable _ Hrole) as (table & Htab & Hback & Htruthy).
    unfold linkPointer, Js.lookupOrNull. rewrite Htab. cbn [fst snd].
    unfold Js.strOrNull. rewrite Htruthy.
    unfold reverseLookup. cbn [Js.truthyValue]. rewrite Htruthy.
    assert (Hd : Js.truthy (destination_field r) = true).
    { unfold Js.truthy. apply negb_true_iff. now apply String.eqb_neq. }
    rewrite Hd. cbn [andb]. rewrite Hback.
    rewrite (find_unique _ store r Hin); [reflexivity | | ].
    - now rewrite !String.eqb_refl.
    - intros x Hx Htest. apply andb_true_iff in Htest.
      destruct Htest as [Hr Hf].
      apply String.eqb_eq in Hr. apply String.eqb_eq in Hf.
      destruct (Rule_eq_dec x r) as [-> | Hneq]; [reflexivity | ].
      elim (Huniq x Hx Hneq). split; [now symmetry | exact Hf]. }
  assert (Hfwd : forall v, Js.truthy v = true ->
                   Js.find (fun x => id x =? v) store = Some r ->
                   forwardLookup store (Some v) = linkPointer r).
  { intros v Hv Hfind. unfold forwardLookup. now rewrite Hv, Hfind. }
  repeat split; [exact Hrev | exact Hfwd | ].
  intros Hid Hnodup. unfold roundTripAt. cbv zeta.
  rewrite (Hfwd (id r)); [exact Hrev | | now apply find_by_id].
  unfold Js.truthy. apply negb_true_iff. now apply String.eqb_neq.
Qed.

Lemma C6_round_trip_witness :
  reverseLookup sampleStore
    (Js.Str "supplier_invoice_headers") (Js.Str "invoice_number")
  = Some "2".
Proof.
  refine (proj1 (C6_round_trip sampleStore
                   (sampleRule "2" "A" "header" "invoice_number" "CSV,Link")
                   _ _ _ _)).
  - simpl. right. left. reflexivity.
  - simpl. left. reflexivity.
  - discriminate.
  - intros r' Hr' Hneq [Hrole Hdest]. simpl in Hr'.
    destruct Hr' as [<- | [<- | [<- | []]]];
      [discriminate Hrole | now elim Hneq | discriminate Hrole].
Defined.

(** ** Substrings *)

Lemma prefix_append (k post : string) : String.prefix k (k ++ post) = true.
Proof.
  induction k as [ | c k IH]; cbn.
  - now destruct post.
  - destruct (ascii_dec c c) as [_ | Hneq]; [exact IH | now elim Hneq].
Qed.

Lemma includes_append (pre k post : string) :
  Js.includes (pre ++ k ++ post) k = true.
Proof.
  induction pre as [ | c pre IH].
  - cbn [String.append].
    destruct (k ++ post)%string eqn:E; cbn [Js.includes];
      rewrite <- E, prefix_append; reflexivity.
  - cbn [String.append Js.includes].
    destruct (String.prefix k (String c (pre ++ k ++ post)));
      [reflexivity | exact IH].
Qed.

Lemma split_head (sep : ascii) (s : string) :
  exists piece pieces post,
    Js.split sep s = piece :: pieces /\ s = (piece ++ post)%string.
Proof.
  induction s as [ | c s (piece & pieces & post & Hs & Heq)].
  - exists "", [], "". now split.
  - cbn [Js.split]. destruct (Ascii.eqb c sep).
    + exists "", (Js.split sep s), (String c s). now split.
    + rewrite Hs. exists (String c piece), pieces, post.
      split; [reflexivity | ]. cbn. now rewrite <- Heq.
Qed.

Lemma split_substring (sep : ascii) (s k : string) :
  In k (Js.split sep s) -> exists pre post, s = (pre ++ k ++ post)%string.
Proof.
  revert k. induction s as [ | c s IH]; intros k Hk.
  - cbn in Hk. destruct Hk as [<- | []]. now exists "", "".
  - cbn [Js.split] in Hk. destruct (Ascii.eqb c sep).
    + destruct Hk as [<- | Hk].
      * now exists "", (String c s).
      * destruct (IH k Hk) as (pre & post & ->).
        now exists (String c pre), post.
    + destruct (split_head sep s) as (piece & pieces & post & Hs & Heq).
      rewrite Hs in Hk, IH. destruct Hk as [<- | Hk].
      * exists "", post. cbn. now rewrite <- Heq.
      * destruct (IH k (or_intror Hk)) as (pre & post' & ->).
        now exists (String c pre), post'.
Qed.

(** A rule whose stored kinds include Link fails the filter's test. *)
Lemma link_kind_detected (kinds : string) :
  In "Link" (Js.split "," kinds) ->
  andb (Js.truthy kinds) (Js.includes kinds "Link") = true.
Proof.
  intros H. destruct (split_substring _ _ _ H) as (pre & post & ->).
  rewrite includes_append, andb_true_r.
  destruct pre; reflexivity.
Qed.

(** ** Frames: what each operation leaves alone *)

Lemma toggle_allRules (p : Page) :
  allRules (toggleBaseRuleEditability p) = allRules p.
Proof. reflexivity. Qed.

Lemma toggle_bodiesPresent (p : Page) :
  bodiesPresent p -> bodiesPresent (toggleBaseRuleEditability p).
Proof.
  unfold bodiesPresent, toggleBaseRuleEditability. cbn.
  destruct (base_rules_body p), (additional_rules_body p); cbn;
    intuition discriminate.
Qed.

Lemma addRow_allRules (p : Page) (isBase : bool) :
  allRules (addRow p isBase) = allRules p.
Proof. reflexivity. Qed.

Lemma addRow_bodiesPresent (p : Page) (isBase : bool) :
  bodiesPresent p -> bodiesPresent (addRow p isBase).
Proof.
  intros H. unfold addRow. apply toggle_bodiesPresent.
  unfold bodiesPresent in *. cbn.
  destruct isBase, (base_rules_body p), (additional_rules_body p); cbn;
    intuition discriminate.
Qed.

Lemma saveAllChanges_frame (p : Page) responses order :
  allRules (saveAllChanges p responses order) = allRules p
  /\ base_rules_body (saveAllChanges p responses order) = base_rules_body p
  /\ additional_rules_body (saveAllChanges p responses order)
     = additional_rules_body p.
Proof.
  unfold saveAllChanges.
  destruct (base_rules_body p) eqn:Hb, (additional_rules_body p) eqn:Ha;
    try (now rewrite ?Hb, ?Ha).
  destruct (settleAll _ _ _). cbn. now rewrite Hb, Ha.
Qed.

Lemma deleteRule_allRules (p : Page) response :
  allRules (deleteRule p response) = allRules p.
Proof.
  unfold deleteRule.
  destruct (ruleToDeleteId p) as [raw | ]; [ | reflexivity]. cbv zeta.
  destruct (negb (Js.truthyId raw)); [reflexivity | ].
  destruct (Js.startsWith (Js.render raw) "new_"); [reflexivity | ].
  destruct (isOk response); reflexivity.
Qed.

Lemma deleteRule_bodiesPresent (p : Page) response :
  bodiesPresent p -> bodiesPresent (deleteRule p response).
Proof.
  unfold deleteRule, bodiesPresent.
  destruct (ruleToDeleteId p) as [raw | ]; [ | tauto]. cbv zeta.
  destruct (negb (Js.truthyId raw)); [tauto | ].
  destruct (Js.startsWith (Js.render raw) "new_").
  - cbn. destruct (existsb _ _), (base_rules_body p),
      (additional_rules_body p); cbn; intuition discriminate.
  - destruct (isOk response); cbn; tauto.
Qed.

(** ** Role order *)

Lemma inherited_names (role : string) (v : Js.Value) :
  Js.inherited role = Some v ->
  In role ["__proto__"; "constructor"; "hasOwnProperty"; "isPrototypeOf";
           "propertyIsEnumerable"; "toLocaleString"; "toString"; "valueOf";
           "__defineGetter__"; "__defineSetter__"; "__lookupGetter__";
           "__lookupSetter__"].
Proof.
  unfold Js.inherited.
  destruct (String.eqb_spec role "__proto__") as [-> | _]; [now left | ].
  destruct (existsb _ _) eqn:E; [ | discriminate].
  intros _. apply existsb_exists in E. destruct E as (k & Hk & Heq).
  apply String.eqb_eq in Heq. subst k. now right.
Qed.

Lemma known_plain (role : string) : In role ALL_ROLES -> plainRole role.
Proof.
  unfold ALL_ROLES, plainRole. simpl.
  intros [<- | [<- | [<- | [<- | [<- | []]]]]]; reflexivity.
Qed.

(** On a plain role the script's order is the specification's: this pins
    the five numbers of [FIELD_ROLE_ORDER] and the default. *)
Lemma roleOrder_plain (role : string) :
  plainRole role -> roleOrder role = Num (specRoleOrder role).
Proof.
  unfold plainRole, roleOrder, specRoleOrder, FIELD_ROLE_ORDER.
  intros H. rewrite H.
  repeat match goal with
         | |- context [String.eqb role ?k] => destruct (String.eqb role k)
         end; reflexivity.
Qed.

(** On a role that names an inherited property it is no number. *)
Lemma roleOrder_inherited (role : string) (v : Js.Value) :
  Js.inherited role = Some v -> roleOrder role = NaN.
Proof.
  intros H. apply inherited_names in H. simpl in H.
  repeat (destruct H as [<- | H]; [reflexivity | ]). destruct H.
Qed.

Lemma specRoleOrder_known (role : string) :
  In role ALL_ROLES -> (1 <= specRoleOrder role <= 5)%Z.
Proof.
  unfold ALL_ROLES. simpl.
  intros [<- | [<- | [<- | [<- | [<- | []]]]]]; vm_compute;
    split; discriminate.
Qed.

Lemma specRoleOrder_unknown (role : string) :
  ~ In role ALL_ROLES -> specRoleOrder role = 99%Z.
Proof.
  unfold ALL_ROLES, specRoleOrder. simpl. intros H.
  repeat match goal with
         | |- context [String.eqb role ?k] =>
             destruct (String.eqb_spec role k) as [-> | _];
             [exfalso; apply H; tauto | ]
         end.
  reflexivity.
Qed.

(** ** Rows that cannot be built *)

Lemma plain_never_throws (rule : Rule) :
  plainRole (field_role rule) -> createRuleRowThrows rule = false.
Proof.
  unfold plainRole, createRuleRowThrows. intros ->.
  now destruct (ROLE_DESTINATION_FIELDS _).
Qed.

Lemma inherited_throws (rule : Rule) (v : Js.Value) :
  Js.inherited (field_role rule) = Some v -> createRuleRowThrows rule = true.
Proof.
  intros H. unfold createRuleRowThrows. rewrite H.
  apply inherited_names in H. simpl in H.
  repeat (destruct H as [<- | H]; [reflexivity | ]). destruct H.
Qed.

Lemma plainRules_never_throw (rules : list Rule) :
  plainRules rules -> existsb createRuleRowThrows rules = false.
Proof.
  induction 1 as [ | r rest Hr _ IH]; [reflexivity | ].
  cbn. now rewrite plain_never_throws.
Qed.


Lemma builtBeforeThrow_incl (rules : list Rule) (r : Rule) :
  In r (builtBeforeThrow rules) -> In r rules.
Proof.
  induction rules as [ | y rest IH]; [cbn; tauto | ].
  cbn. destruct (createRuleRowThrows y); [cbn; tauto | ].
  intros [-> | H]; [now left | right; now apply IH].
Qed.

(** ** The sort and the shared collection *)

Section OrderingFacts.

Variable localeCompare : string -> string -> Z.

(** The comparator is consistent: swapping the arguments flips the
    sign, and "not after" is transitive. *)
Hypothesis localeCompare_antisym :
  forall a b, Z.sgn (localeCompare a b) = (- Z.sgn (localeCompare b a))%Z.
Hypothesis localeCompare_trans :
  forall a b c, (localeCompare a b <= 0)%Z -> (localeCompare b c <= 0)%Z ->
                (localeCompare a c <= 0)%Z.

Lemma compareRules_plain (a b : Rule) :
  plainRole (field_role a) -> plainRole (field_role b) ->
  compareRules localeCompare a b =
  (if (specRoleOrder (field_role a) - specRoleOrder (field_role b) =? 0)%Z
   then localeCompare (rule_name a) (rule_name b)
   else specRoleOrder (field_role a) - specRoleOrder (field_role b))%Z.
Proof.
  intros Ha Hb. unfold compareRules.
  now rewrite (roleOrder_plain _ Ha), (roleOrder_plain _ Hb).
Qed.

Lemma compareRules_le (a b : Rule) :
  plainRole (field_role a) -> plainRole (field_role b) ->
  (compareRules localeCompare a b <=? 0)%Z = true ->
  canonicalLe localeCompare a b.
Proof.
  intros Ha Hb. rewrite (compareRules_plain a b Ha Hb).
  unfold canonicalLe. rewrite Z.leb_le.
  destruct (Z.eqb_spec (specRoleOrder (field_role a)
                        - specRoleOrder (field_role b)) 0); lia.
Qed.

Lemma compareRules_gt (a b : Rule) :
  plainRole (field_role a) -> plainRole (field_role b) ->
  (compareRules localeCompare a b <=? 0)%Z = false ->
  canonicalLe localeCompare b a.
Proof.
  intros Ha Hb. rewrite (compareRules_plain a b Ha Hb).
  unfold canonicalLe. rewrite Z.leb_gt.
  pose proof (localeCompare_antisym (rule_name a) (rule_name b)) as Hs.
  destruct (Z.eqb_spec (specRoleOrder (field_role a)
                        - specRoleOrder (field_role b)) 0); lia.
Qed.

Lemma canonicalLe_trans (a b c : Rule) :
  canonicalLe localeCompare a b -> canonicalLe localeCompare b c ->
  canonicalLe localeCompare a c.
Proof.
  unfold canonicalLe.
  intros [Hab | [Hab Hn1]] [Hbc | [Hbc Hn2]]; try (left; lia).
  right. split; [lia | ]. eapply localeCompare_trans; eassumption.
Qed.

Lemma insertRule_perm (x : Rule) (l : list Rule) :
  Permutation (x :: l) (insertRule localeCompare x l).
Proof.
  induction l as [ | y rest IH]; cbn; [reflexivity | ].
  destruct (compareRules localeCompare x y <=? 0)%Z; [reflexivity | ].
  rewrite perm_swap. now constructor.
Qed.

Lemma sortRules_perm (rules : list Rule) :
  Permutation rules (sortRules localeCompare rules).
Proof.
  induction rules as [ | x rest IH]; cbn; [reflexivity | ].
  rewrite <- insertRule_perm. now constructor.
Qed.

Lemma sortRules_plain (rules : list Rule) :
  plainRules rules -> plainRules (sortRules localeCompare rules).
Proof.
  unfold plainRules. intros H.
  eapply Permutation_Forall; [apply sortRules_perm | exact H].
Qed.

Lemma insertRule_sorted (x : Rule) (l : list Rule) :
  plainRole (field_role x) -> plainRules l ->
  StronglySorted (canonicalLe localeCompare) l ->
  StronglySorted (canonicalLe localeCompare) (insertRule localeCompare x l).
Proof.
  intros Hx Hl.
  induction 1 as [ | y rest Hrest IH Hall]; cbn.
  - repeat constructor.
  - apply Forall_cons_iff in Hl. destruct Hl as [Hy Hl].
    destruct (compareRules localeCompare x y <=? 0)%Z eqn:E.
    + apply compareRules_le in E; [ | assumption | assumption].
      constructor; [now constructor | ].
      constructor; [exact E | ].
      eapply Forall_impl; [ | exact Hall].
      intros z Hz. eapply canonicalLe_trans; eassumption.
    + apply compareRules_gt in E; [ | assumption | assumption].
      constructor; [now apply IH | ].
      eapply Permutation_Forall; [apply insertRule_perm | ].
      now constructor.
Qed.

Lemma sortRules_sorted (rules : list Rule) :
  plainRules rules ->
  StronglySorted (canonicalLe localeCompare) (sortRules localeCompare rules).
Proof.
  induction 1 as [ | x rest Hx Hrest IH]; cbn; [constructor | ].
  apply insertRule_sorted; [exact Hx | now apply sortRules_plain | exact IH].
Qed.

Lemma filter_sorted (keep : Rule -> bool) (l : list Rule) :
  StronglySorted (canonicalLe localeCompare) l ->
  StronglySorted (canonicalLe localeCompare) (filter keep l).
Proof.
  induction 1 as [ | y rest Hrest IH Hall]; cbn; [constructor | ].
  destruct (keep y); [ | exact IH].
  constructor; [exact IH | ].
  apply Forall_forall. intros z Hz. apply filter_In in Hz.
  rewrite Forall_forall in Hall. now apply Hall.
Qed.

Lemma sorted_later (l1 l2 : list Rule) (a b : Rule) :
  StronglySorted (canonicalLe localeCompare) (l1 ++ a :: l2) ->
  In b l2 -> canonicalLe localeCompare a b.
Proof.
  induction l1 as [ | y l1 IH]; cbn; intros Hs Hb.
  - apply StronglySorted_inv in Hs. destruct Hs as [_ Hall].
    rewrite Forall_forall in Hall. now apply Hall.
  - apply StronglySorted_inv in Hs. now apply IH.
Qed.

(** C7. The sort of [renderRules] is the canonical ordering on roles
    that name no property inherited from [Object.prototype], and is not
    on the others.  With a consistent [localeCompare] that puts A before
    B: the sort returns a rearrangement of the rules; on plain roles it
    ascends
    by (role order, rule name), where [FIELD_ROLE_ORDER] gives header,
    item, line, account and ignore the orders 1 to 5 and any other plain
    role gets 99, so a rule with an unknown plain role stands after
    every rule with a known role; and the rules line/B, header/A, line/A
    sort to header/A, line/A, line/B.  But the role [constructor], which
    is outside the known set, finds the inherited property instead of
    99, the difference of the orders is no number, and the names decide:
    header/B, constructor/A sorts to constructor/A, header/B, which is
    not ascending by (role order, rule name). *)
Theorem C7_canonical_ordering :
  (localeCompare "A" "B" < 0)%Z ->
  (forall rules, Permutation rules (sortRules localeCompare rules))
  /\ (forall rules,
         plainRules rules ->
         StronglySorted (canonicalLe localeCompare)
           (sortRules localeCompare rules))
  /\ (roleOrder "header" = Num 1 /\ roleOrder "item" = Num 2
      /\ roleOrder "line" = Num 3 /\ roleOrder "account" = Num 4
      /\ roleOrder "ignore" = Num 5)
  /\ (forall role, ~ In role ALL_ROLES -> plainRole role ->
                   roleOrder role = Num 99)
  /\ (forall rules known unknown,
         plainRules rules ->
         In known rules -> In unknown rules ->
         In (field_role known) ALL_ROLES ->
         ~ In (field_role unknown) ALL_ROLES ->
         before known unknown (sortRules localeCompare rules))
  /\ (forall r1 r2 r3,
         field_role r1 = "line" -> rule_name r1 = "B" ->
         field_role r2 = "header" -> rule_name r2 = "A" ->
         field_role r3 = "line" -> rule_name r3 = "A" ->
         sortRules localeCompare [r1; r2; r3] = [r2; r3; r1])
  /\ (forall known unknown,
         field_role known = "header" -> rule_name known = "B" ->
         field_role unknown = "constructor" -> rule_name unknown = "A" ->
         ~ In (field_role unknown) ALL_ROLES
         /\ roleOrder (field_role unknown) = NaN
         /\ sortRules localeCompare [known; unknown] = [unknown; known]
         /\ ~ canonicalLe localeCompare unknown known).
Proof.
  intros HAB.
  split; [exact sortRules_perm | ].
  split; [exact sortRules_sorted | ].
  split; [repeat split; reflexivity | ].
  split.
  { intros role Hrole Hplain. rewrite (roleOrder_plain _ Hplain).
    now rewrite (specRoleOrder_unknown _ Hrole). }
  split.
  { intros rules known unknown Hplain Hk Hu Hkr Hur.
    pose proof (sortRules_sorted rules Hplain) as Hsorted.
    pose proof (sortRules_perm rules) as Hperm.
    assert (Hk' := Permutation_in _ Hperm Hk).
    assert (Hu' := Permutation_in _ Hperm Hu).
    destruct (in_split _ _ Hk') as (l1 & l2 & Heq).
    rewrite Heq in Hu', Hsorted |- *.
    apply in_app_or in Hu'. destruct Hu' as [Hu' | [Hu' | Hu']].
    + exfalso. destruct (in_split _ _ Hu') as (m1 & m2 & ->).
      rewrite <- app_assoc in Hsorted. cbn in Hsorted.
      assert (Hle : canonicalLe localeCompare unknown known).
      { eapply sorted_later; [exact Hsorted | ].
        apply in_or_app. right. now left. }
      pose proof (specRoleOrder_known _ Hkr).
      pose proof (specRoleOrder_unknown _ Hur).
      unfold canonicalLe in Hle. lia.
    + subst unknown. now elim Hur.
    + destruct (in_split _ _ Hu') as (m1 & m2 & ->).
      now exists l1, m1, m2. }
  split.
  { intros r1 r2 r3 Hr1 Hn1 Hr2 Hn2 Hr3 Hn3.
    pose proof (localeCompare_antisym "A" "B") as Hanti.
    assert (H23 : (compareRules localeCompare r2 r3 <=? 0)%Z = true).
    { unfold compareRules. rewrite Hr2, Hr3. reflexivity. }
    assert (H12 : (compareRules localeCompare r1 r2 <=? 0)%Z = false).
    { unfold compareRules. rewrite Hr1, Hr2. reflexivity. }
    assert (H13 : (compareRules localeCompare r1 r3 <=? 0)%Z = false).
    { unfold compareRules. rewrite Hr1, Hr3, Hn1, Hn3.
      change (roleOrder "line") with (Num 3). cbv iota beta.
      change (3 - 3 =? 0)%Z with true. cbv iota.
      apply Z.leb_gt. lia. }
    cbn [sortRules fold_right insertRule].
    rewrite H23. cbn [insertRule]. rewrite H12, H13. reflexivity. }
  intros known unknown Hk Hkn Hu Hun.
  pose proof (localeCompare_antisym "A" "B") as Hanti.
  split; [rewrite Hu; simpl; intuition discriminate | ].
  split; [now rewrite Hu | ].
  split.
  - cbn [sortRules fold_right insertRule].
    assert (H : (compareRules localeCompare known unknown <=? 0)%Z = false).
    { unfold compareRules. rewrite Hk, Hu, Hkn, Hun.
      change (roleOrder "header") with (Num 1).
      change (roleOrder "constructor") with NaN. cbv iota beta.
      apply Z.leb_gt. lia. }
    now rewrite H.
  - unfold canonicalLe. rewrite Hk, Hu.
    change (specRoleOrder "constructor") with 99%Z.
    change (specRoleOrder "header") with 1%Z. lia.
Qed.

(** *** The collection stays in canonical order *)

Lemma renderRules_allRules (p : Page) :
  bodiesPresent p ->
  allRules (renderRules localeCompare p) = sortRules localeCompare (allRules p)
  /\ bodiesPresent (renderRules localeCompare p).
Proof.
  unfold bodiesPresent, renderRules. intros [Hb Ha].
  destruct (base_rules_body p); [ | now elim Hb].
  destruct (additional_rules_body p); [ | now elim Ha].
  cbv zeta. destruct (existsb createRuleRowThrows _);
    (split; [reflexivity | ]); cbn; split; discriminate.
Qed.

Lemma renderRules_perm (p : Page) :
  Permutation (allRules p) (allRules (renderRules localeCompare p)).
Proof.
  unfold renderRules.
  destruct (base_rules_body p); [ | reflexivity].
  destruct (additional_rules_body p); [ | reflexivity].
  cbv zeta. destruct (existsb createRuleRowThrows _);
    cbn; apply sortRules_perm.
Qed.

Lemma fetchRulesSettle_perm (p : Page) (rules : list Rule) :
  Permutation rules (allRules (fetchRulesSettle localeCompare p (Ok rules))).
Proof.
  unfold fetchRulesSettle.
  match goal with
  | |- context [renderRulesThrows _ ?q] =>
      pose proof (renderRules_perm q) as H;
      destruct (renderRulesThrows localeCompare q)
  end; exact H.
Qed.

(** What a fetch leaves of the collection and of the bodies, whether or
    not a row could not be built. *)
Lemma fetchRulesSettle_allRules (p : Page) (rules : list Rule) :
  bodiesPresent p ->
  allRules (fetchRulesSettle localeCompare p (Ok rules))
  = sortRules localeCompare rules
  /\ bodiesPresent (fetchRulesSettle localeCompare p (Ok rules)).
Proof.
  intros Hbodies. unfold fetchRulesSettle.
  match goal with
  | |- context [renderRulesThrows _ ?q] =>
      destruct (renderRules_allRules q Hbodies) as [Heq Hpresent];
      destruct (renderRulesThrows localeCompare q)
  end; split; assumption.
Qed.

Lemma plainResponses_cons (a : Action) (rest : list Action) :
  plainResponses (a :: rest) -> plainAction a /\ plainResponses rest.
Proof.
  unfold plainResponses. intros H. split.
  - destruct a as [ | [rules | | ] | | | | | | ]; cbn; try exact I.
    apply H. now left.
  - intros rules Hin. apply H. now right.
Qed.

Lemma step_canonical (p : Page) (a : Action) :
  plainAction a ->
  canonicalStore localeCompare p ->
  canonicalStore localeCompare (step localeCompare p a).
Proof.
  intros Hplain H.
  destruct a as [ | response | isBase | ruleId | response
                  | responses order | checked | ]; cbn [step].
  - exact H.
  - destruct H as [Hbodies Hsorted].
    destruct response as [rules | message | message];
      try (split; [exact Hbodies | exact Hsorted]).
    destruct (fetchRulesSettle_allRules p rules Hbodies) as [Heq Hpresent].
    split; [exact Hpresent | ]. rewrite Heq.
    now apply sortRules_sorted.
  - destruct H as [Hbodies Hsorted].
    split; [now apply addRow_bodiesPresent | exact Hsorted].
  - exact H.
  - destruct H as [Hbodies Hsorted]. split.
    + now apply deleteRule_bodiesPresent.
    + now rewrite deleteRule_allRules.
  - destruct H as [Hbodies Hsorted].
    destruct (saveAllChanges_frame p responses order) as (H1 & H2 & H3).
    unfold canonicalStore, bodiesPresent. now rewrite H1, H2, H3.
  - exact H.
  - destruct H as [Hbodies Hsorted].
    split; [now apply toggle_bodiesPresent | exact Hsorted].
Qed.

Lemma step_bodiesPresent (p : Page) (a : Action) :
  bodiesPresent p -> bodiesPresent (step localeCompare p a).
Proof.
  intros H. destruct a as [ | response | isBase | ruleId | response
                            | responses order | checked | ]; cbn [step].
  - exact H.
  - destruct response as [rules | message | message]; try exact H.
    exact (proj2 (fetchRulesSettle_allRules p rules H)).
  - now apply addRow_bodiesPresent.
  - exact H.
  - now apply deleteRule_bodiesPresent.
  - destruct (saveAllChanges_frame p responses order) as (_ & H2 & H3).
    unfold bodiesPresent. now rewrite H2, H3.
  - exact H.
  - now apply toggle_bodiesPresent.
Qed.

Lemma run_bodiesPresent (actions : list Action) (p : Page) :
  bodiesPresent p -> bodiesPresent (run localeCompare p actions).
Proof.
  revert p. induction actions as [ | a rest IH]; intros p H; cbn.
  - exact H.
  - apply IH. now apply step_bodiesPresent.
Qed.

Lemma run_canonical (actions : list Action) (p : Page) :
  plainResponses actions ->
  canonicalStore localeCompare p ->
  canonicalStore localeCompare (run localeCompare p actions).
Proof.
  revert p. induction actions as [ | a rest IH]; intros p Hplain H; cbn.
  - exact H.
  - apply plainResponses_cons in Hplain. destruct Hplain as [Ha Hrest].
    apply IH; [exact Hrest | ]. now apply step_canonical.
Qed.

Lemma initialPage_canonical (chk : option bool) :
  canonicalStore localeCompare (initialPage chk).
Proof.
  split; [split; discriminate | constructor].
Qed.

Lemma filter_before (keep : Rule -> bool) (a b : Rule) (l : list Rule) :
  before a b (filter keep l) -> before a b l.
Proof.
  unfold before. revert a b.
  induction l as [ | y rest IH]; intros a b (l1 & l2 & l3 & H).
  - destruct l1; discriminate H.
  - cbn in H. destruct (keep y) eqn:Hy.
    + destruct l1 as [ | z l1]; cbn in H.
      * injection H as <- H.
        assert (Hb : In b (filter keep rest))
          by (rewrite H; apply in_or_app; right; now left).
        apply filter_In in Hb. destruct Hb as [Hb _].
        destruct (in_split _ _ Hb) as (m1 & m2 & ->).
        now exists [], m1, m2.
      * injection H as <- H.
        destruct (IH a b (ex_intro _ l1 (ex_intro _ l2 (ex_intro _ l3 H))))
          as (m1 & m2 & m3 & ->).
        now exists (y :: m1), m2, m3.
    + destruct (IH a b (ex_intro _ l1 (ex_intro _ l2 (ex_intro _ l3 H))))
        as (m1 & m2 & m3 & ->).
      now exists (y :: m1), m2, m3.
Qed.

(** C5, amended. For every store and every rule id [x] being edited, the
    linkable candidates are rules of the store other than [x], none of
    them has Link among its source kinds, and they stand in the order in
    which the store has them.  The store of the script is the shared
    collection, which [renderRules] sorts in place: on the page with its
    two table bodies, after any run whose fetched rules have plain
    roles, the collection and so the candidates ascend by role order
    then rule name. *)
Theorem C5_linkable_candidates :
  forall (store : list Rule) (x : string)
         (chk : option bool) (actions : list Action),
    let candidates := linkableRules store (Some x) in
    (forall r, In r candidates -> In r store /\ id r <> x)
    /\ (forall r, In r candidates ->
                  ~ In "Link" (Js.split "," (source_type_options r)))
    /\ (forall a b, before a b candidates -> before a b store)
    /\ (plainResponses actions ->
        StronglySorted (canonicalLe localeCompare)
          (linkableRules
             (allRules (run localeCompare (initialPage chk) actions))
             (Some x))).
Proof.
  intros store x chk actions candidates.
  assert (Hkeep : forall r, In r candidates ->
            In r store
            /\ (id r =? x) = false
            /\ andb (Js.truthy (source_type_options r))
                    (Js.includes (source_type_options r) "Link") = false).
  { intros r Hr. unfold candidates, linkableRules in Hr.
    apply filter_In in Hr. destruct Hr as [Hin Htest].
    apply andb_true_iff in Htest. destruct Htest as [Hself Hlink].
    apply negb_true_iff in Hself. apply negb_true_iff in Hlink. tauto. }
  split; [ | split; [ | split]].
  - intros r Hr. split; [now apply Hkeep | ].
    apply String.eqb_neq. now apply Hkeep.
  - intros r Hr Hlink. apply link_kind_detected in Hlink.
    destruct (Hkeep r Hr) as (_ & _ & Hno). congruence.
  - intros a b. unfold candidates, linkableRules. apply filter_before.
  - intros Hplain. unfold linkableRules. apply filter_sorted.
    apply (run_canonical actions (initialPage chk) Hplain).
    apply initialPage_canonical.
Qed.

(** *** Where the rules of the collection come from *)

Lemma step_allRules (p : Page) (a : Action) :
  allRules (step localeCompare p a) <> allRules p ->
  exists rules, a = RulesArrive (Ok rules).
Proof.
  destruct a as [ | [rules | message | message] | isBase | ruleId | response
                  | responses order | checked | ]; cbn [step]; intros H;
    try (now elim H).
  - now exists rules.
  - elim H. apply deleteRule_allRules.
  - elim H. apply saveAllChanges_frame.
Qed.

Lemma step_provenance (p : Page) (a : Action) (r : Rule) :
  In r (allRules (step localeCompare p a)) ->
  In r (allRules p) \/ exists rules, a = RulesArrive (Ok rules) /\ In r rules.
Proof.
  intros Hr.
  destruct a as [ | [rules | message | message] | isBase | ruleId | response
                  | responses order | checked | ]; cbn [step] in Hr;
    try (left; exact Hr).
  - right. exists rules. split; [reflexivity | ].
    eapply Permutation_in in Hr;
      [ | apply Permutation_sym; apply fetchRulesSettle_perm].
    exact Hr.
  - left. now rewrite deleteRule_allRules in Hr.
  - left. destruct (saveAllChanges_frame p responses order) as (H1 & _).
    now rewrite H1 in Hr.
Qed.

Lemma run_provenance (actions : list Action) (p : Page) (r : Rule) :
  In r (allRules (run localeCompare p actions)) ->
  In r (allRules p)
  \/ exists rules, In (RulesArrive (Ok rules)) actions /\ In r rules.
Proof.
  revert p. induction actions as [ | a rest IH]; intros p Hr; cbn in Hr.
  - now left.
  - destruct (IH _ Hr) as [Hstep | (rules & Hin & Hrules)].
    + destruct (step_provenance p a r Hstep) as [Hp | (rules & -> & Hrules)].
      * now left.
      * right. exists rules. split; [now left | exact Hrules].
    + right. exists rules. split; [now right | exact Hrules].
Qed.

(** C10. After any run in which the fetches that succeeded brought only
    persisted ids: adding a row leaves the shared collection as it was;
    a step changes the collection only if it is the arrival of a
    successful fetch; the added row sits in its table body under an id
    that starts with [new_]; and every rule among the linkable candidates
    or among the placeholder rules offered to any row came with a
    successful fetch, so none of them has such an id. *)
Theorem C10_transient_rule_not_offered :
  forall (chk : option bool) (actions : list Action) (isBase : bool),
    persistedResponses actions ->
    let p := run localeCompare (initialPage chk) actions in
    let q := addRow p isBase in
    allRules q = allRules p
    /\ (forall a, allRules (step localeCompare p a) <> allRules p ->
                  exists rules, a = RulesArrive (Ok rules))
    /\ (exists rows newRow,
           (if isBase then base_rules_body q else additional_rules_body q)
           = Some (rows ++ [newRow])
           /\ Js.startsWith (dataset_id newRow) "new_" = true)
    /\ (forall x r,
           In r (linkableRules (allRules q) x)
           \/ In r (placeholderRules (allRules q) x) ->
           (exists rules, In (RulesArrive (Ok rules)) actions /\ In r rules)
           /\ Js.startsWith (id r) "new_" = false).
Proof.
  intros chk actions isBase Hpersisted p q.
  split; [reflexivity | ].
  split; [intros a; apply step_allRules | ].
  split.
  - assert (Hbodies : bodiesPresent p).
    { apply run_bodiesPresent. split; discriminate. }
    destruct Hbodies as [Hb Ha].
    unfold q, addRow, toggleBaseRuleEditability.
    cbn [base_rules_body additional_rules_body chk_super_admin].
    destruct isBase.
    + destruct (base_rules_body p) as [rows | ]; [ | now elim Hb].
      cbn [option_map]. rewrite map_app. cbn [map].
      do 2 eexists. split; [reflexivity | ].
      cbn [toggleRow dataset_id createRuleRow id].
      apply prefix_append.
    + destruct (additional_rules_body p) as [rows | ]; [ | now elim Ha].
      cbn [option_map]. rewrite map_app. cbn [map].
      do 2 eexists. split; [reflexivity | ].
      cbn [toggleRow dataset_id createRuleRow id].
      apply prefix_append.
  - intros x r Hr.
    assert (Hin : In r (allRules p)).
    { unfold q in Hr. rewrite addRow_allRules in Hr.
      unfold linkableRules, placeholderRules in Hr.
      destruct Hr as [Hr | Hr]; apply filter_In in Hr; tauto. }
    apply run_provenance in Hin.
    destruct Hin as [[] | (rules & Hact & Hrules)].
    split; [now exists rules | exact (Hpersisted rules r Hact Hrules)].
Qed.

End OrderingFacts.

(** ** Code-unit order is a consistent collation *)

Lemma codeUnitCompare_antisym (a b : string) :
  Z.sgn (codeUnitCompare a b) = (- Z.sgn (codeUnitCompare b a))%Z.
Proof.
  unfold codeUnitCompare.
  pose proof String_as_OT.lt_strorder as [Hirr Htr].
  destruct (String_as_OT.compare_spec a b) as [Hab | Hab | Hab],
    (String_as_OT.compare_spec b a) as [Hba | Hba | Hba];
    try reflexivity; exfalso; unfold String_as_OT.eq in *; subst;
    try (now apply (Hirr a)); try (now apply (Hirr b));
    apply (Hirr a); eapply Htr; eassumption.
Qed.

Lemma codeUnitCompare_trans (a b c : string) :
  (codeUnitCompare a b <= 0)%Z -> (codeUnitCompare b c <= 0)%Z ->
  (codeUnitCompare a c <= 0)%Z.
Proof.
  unfold codeUnitCompare.
  pose proof String_as_OT.lt_strorder as [Hirr Htr].
  destruct (String_as_OT.compare_spec a b) as [Hab | Hab | Hab],
    (String_as_OT.compare_spec b c) as [Hbc | Hbc | Hbc],
    (String_as_OT.compare_spec a c) as [Hac | Hac | Hac];
    intros H1 H2; try discriminate; try (now elim H1); try (now elim H2);
    exfalso; unfold String_as_OT.eq in *; subst;
    try (now apply (Hirr c)); try (now apply (Hirr a));
    try (apply (Hirr c); eapply Htr; eassumption);
    apply (Hirr a); eapply Htr; [eassumption | ]; eapply Htr; eassumption.
Qed.

Lemma C7_canonical_ordering_witness :
  (codeUnitCompare "A" "B" < 0)%Z
  /\ sortRules codeUnitCompare
       [sampleRule "1" "B" "line" "quantity" "CSV";
        sampleRule "2" "A" "header" "invoice_number" "CSV,Link";
        sampleRule "3" "A" "line" "description" "CSV Formula,Text Override"]
     = [sampleRule "2" "A" "header" "invoice_number" "CSV,Link";
        sampleRule "3" "A" "line" "description" "CSV Formula,Text Override";
        sampleRule "1" "B" "line" "quantity" "CSV"]
  /\ sortRules codeUnitCompare inheritedOrderStore
     = [sampleRule "2" "A" "constructor" "total" "CSV";
        sampleRule "1" "B" "header" "invoice_number" "CSV"].
Proof.
  assert (HAB : (codeUnitCompare "A" "B" < 0)%Z) by reflexivity.
  split; [exact HAB | ].
  pose proof (C7_canonical_ordering codeUnitCompare codeUnitCompare_antisym
                codeUnitCompare_trans HAB)
    as (_ & _ & _ & _ & _ & Hexample & Hdivergence).
  split.
  - apply Hexample; reflexivity.
  - apply (Hdivergence (sampleRule "1" "B" "header" "invoice_number" "CSV")
                       (sampleRule "2" "A" "constructor" "total" "CSV"));
      reflexivity.
Defined.

Lemma sampleActions_plain : plainResponses sampleActions.
Proof.
  intros rules Hact. unfold sampleActions in Hact. simpl in Hact.
  destruct Hact as [H | [H | [H | []]]]; try discriminate H.
  injection H as <-. unfold sampleStore.
  repeat constructor.
Qed.

(** C5, as the specification states it, fails: on a page that lacks the
    base-rule table [renderRules] returns before its sort, the shared
    collection stays in the order of the response, here line/B before
    header/A, and so do the candidates offered to a row. *)
Lemma C5_linkable_candidates_counterexample :
  allRules (run codeUnitCompare pageWithoutBaseBody
              [CallFetchRules; RulesArrive (Ok unsortedStore)])
  = unsortedStore
  /\ linkableRules unsortedStore (Some "new_1") = unsortedStore
  /\ ~ StronglySorted (canonicalLe codeUnitCompare)
         (linkableRules unsortedStore (Some "new_1")).
Proof.
  split; [reflexivity | ].
  split; [reflexivity | ].
  intros H. change (linkableRules unsortedStore (Some "new_1"))
    with unsortedStore in H.
  unfold unsortedStore in H.
  apply StronglySorted_inv in H. destruct H as [_ H].
  apply Forall_inv in H. unfold canonicalLe in H. cbn in H.
  destruct H as [H | [H _]]; [ | discriminate H].
  revert H. vm_compute. intros H. discriminate H.
Qed.

Lemma C5_linkable_candidates_witness :
  plainResponses sampleActions
  /\ map id (linkableRules (allRules samplePage) (Some "new_1")) = ["3"; "1"]
  /\ StronglySorted (canonicalLe codeUnitCompare)
       (linkableRules (allRules samplePage) (Some "new_1")).
Proof.
  split; [exact sampleActions_plain | ].
  split; [reflexivity | ].
  apply (C5_linkable_candidates codeUnitCompare codeUnitCompare_antisym
           codeUnitCompare_trans sampleStore "new_1" (Some false)
           sampleActions).
  exact sampleActions_plain.
Defined.

Lemma sampleActions_persisted : persistedResponses sampleActions.
Proof.
  intros rules r Hact Hr. unfold sampleActions in Hact. simpl in Hact.
  destruct Hact as [H | [H | [H | []]]]; try discriminate H.
  injection H as <-. unfold sampleStore in Hr. simpl in Hr.
  destruct Hr as [<- | [<- | [<- | []]]]; reflexivity.
Qed.

Lemma C10_transient_rule_not_offered_witness :
  persistedResponses sampleActions
  /\ allRules (addRow samplePage false) = allRules samplePage.
Proof.
  split; [exact sampleActions_persisted | ].
  apply (C10_transient_rule_not_offered codeUnitCompare (Some false)
           sampleActions false sampleActions_persisted).
Defined.

(** ** Batch save *)

Lemma filter_none {A : Type} (f : A -> bool) (l : list A) :
  (forall x, In x l -> f x = false) -> filter f l = [].
Proof.
  induction l as [ | y rest IH]; cbn; intros H; [reflexivity | ].
  rewrite (H y (or_introl eq_refl)). apply IH.
  intros x Hx. apply H. now right.
Qed.

Lemma filter_seq_single (f : nat -> bool) (n k : nat) :
  k < n -> f k = true ->
  (forall i, i < n -> i <> k -> f i = false) ->
  filter f (seq 0 n) = [k].
Proof.
  induction n as [ | n IH]; intros Hk Hfk Hothers; [lia | ].
  rewrite seq_S, filter_app. cbn [filter Nat.add].
  destruct (Nat.eq_dec k n) as [-> | Hneq].
  - rewrite Hfk, filter_none; [reflexivity | ].
    intros x Hx. apply in_seq in Hx. apply Hothers; lia.
  - rewrite (Hothers n) by lia. rewrite app_nil_r.
    apply IH; [lia | exact Hfk | ].
    intros i Hi Hik. apply Hothers; lia.
Qed.

Lemma filter_split_length {A : Type} (f : A -> bool) (l : list A) :
  List.length (filter f l) + List.length (filter (fun x => negb (f x)) l)
  = List.length l.
Proof.
  induction l as [ | y rest IH]; cbn; [reflexivity | ].
  destruct (f y); cbn; lia.
Qed.

Lemma filter_perm {A : Type} (f : A -> bool) (l l' : list A) :
  Permutation l l' -> Permutation (filter f l) (filter f l').
Proof.
  induction 1 as [ | x l l' _ IH | x y l | l l' l'' _ IH1 _ IH2]; cbn.
  - constructor.
  - destruct (f x); [now constructor | exact IH].
  - destruct (f x), (f y); try reflexivity. apply perm_swap.
  - now transitivity (filter f l').
Qed.

(** The outcome of the saves, whatever the order in which they end. *)
Lemma settle_fold (rows : list Row) (responses : nat -> Response unit)
    (order : list nat) (acc : nat * list Event) :
  (forall i, In i order -> i < List.length rows) ->
  fold_left (settleSave rows responses) order acc
  = (fst acc + List.length (filter (fun i => isOk (responses i)) order),
     snd acc
     ++ flat_map (fun i => match nth_error rows i with
                           | Some row => [saveFailure row (responses i)]
                           | None => []
                           end)
          (filter (fun i => negb (isOk (responses i))) order)).
Proof.
  revert acc. induction order as [ | i rest IH]; intros acc Hvalid.
  - cbn. rewrite Nat.add_0_r, app_nil_r. now destruct acc.
  - cbn [fold_left]. rewrite IH by (intros j Hj; apply Hvalid; now right).
    unfold settleSave. cbn [filter].
    destruct (nth_error rows i) as [row | ] eqn:Hrow.
    + destruct (isOk (responses i)); cbn [fst snd negb flat_map List.length].
      * f_equal. lia.
      * rewrite Hrow. f_equal. now rewrite <- app_assoc.
    + apply nth_error_None in Hrow.
      pose proof (Hvalid i (or_introl eq_refl)). lia.
Qed.

Lemma saveRequest_not_fetch (rules : list Rule) (row : Row) :
  saveRequest rules row <> Request "GET" API_BASE_URL None.
Proof.
  unfold saveRequest.
  destruct (Js.get "id" (getRulePayload rules row)) as [[ | b | i | | ] | ];
    try discriminate.
  destruct (Js.truthy i); discriminate.
Qed.

(** C8. In a batch save of the [n] rows of the two table bodies in which
    exactly the call of row [k] fails, whatever the order in which the
    calls end: a request is issued for every row; [successCount] ends at
    [n - 1]; exactly one failure message is shown and it names the
    [rule_name] of row [k]; the success message, shown when [n - 1] is
    positive, reports [n - 1]; and one fetch of the rules follows as the
    last effect, none of the save requests being such a fetch.  The
    shared collection and the rows are left as they were. *)
Theorem C8_batch_save_partial_failure :
  forall (p : Page) (baseRows additionalRows : list Row)
         (responses : nat -> Response unit) (order : list nat)
         (k : nat) (failing : Row),
    base_rules_body p = Some baseRows ->
    additional_rules_body p = Some additionalRows ->
    let rows := baseRows ++ additionalRows in
    let n := List.length rows in
    Permutation order (seq 0 n) ->
    nth_error rows k = Some failing ->
    isOk (responses k) = false ->
    (forall i, i < n -> i <> k -> isOk (responses i) = true) ->
    let failure :=
      ShowMessage
        ("Error saving " ++ dquote ++ rule_name_input failing ++ dquote
         ++ ": "
         ++ errorMessage (responses k)
              ("Failed to save rule: " ++ rule_name_input failing))
        "error" in
    settleAll rows responses order = (n - 1, [failure])
    /\ trace (saveAllChanges p responses order)
       = trace p
         ++ map (saveRequest (allRules p)) rows
         ++ [failure]
         ++ (if Nat.ltb 0 (n - 1)
             then [ShowMessage ("Successfully saved " ++ decimal (n - 1)
                                ++ " rule(s).") "success"]
             else [])
         ++ [Request "GET" API_BASE_URL None]
    /\ (forall row, In row rows ->
                    saveRequest (allRules p) row
                    <> Request "GET" API_BASE_URL None)
    /\ allRules (saveAllChanges p responses order) = allRules p
    /\ base_rules_body (saveAllChanges p responses order) = Some baseRows
    /\ additional_rules_body (saveAllChanges p responses order)
       = Some additionalRows.
Proof.
  intros p baseRows additionalRows responses order k failing Hb Ha rows n
    Hperm Hk Hfail Hothers failure.
  assert (Hkn : k < n).
  { apply nth_error_Some. intros Hnone.
    change (nth_error rows k = None) in Hnone.
    rewrite Hk in Hnone. discriminate Hnone. }
  assert (Hfailing :
            filter (fun i => negb (isOk (responses i))) order = [k]).
  { apply Permutation_length_1_inv.
    rewrite <- (filter_seq_single (fun i => negb (isOk (responses i))) n k).
    - apply filter_perm. now apply Permutation_sym.
    - exact Hkn.
    - now rewrite Hfail.
    - intros i Hi Hik. now rewrite (Hothers i Hi Hik). }
  assert (Hcount :
            List.length (filter (fun i => isOk (responses i)) order) = n - 1).
  { pose proof (filter_split_length (fun i => isOk (responses i)) order) as Hs.
    cbv beta in Hs. rewrite Hfailing in Hs. cbn in Hs.
    rewrite (Permutation_length Hperm), length_seq in Hs. lia. }
  assert (Hsettle : settleAll rows responses order = (n - 1, [failure])).
  { unfold settleAll. rewrite settle_fold.
    - rewrite Hfailing, Hcount. cbn [fst snd flat_map app]. now rewrite Hk.
    - intros i Hi. apply (Permutation_in _ Hperm) in Hi.
      apply in_seq in Hi. unfold n in Hi. lia. }
  split; [exact Hsettle | ].
  split.
  { unfold saveAllChanges. rewrite Hb, Ha. fold rows. rewrite Hsettle.
    unfold fetchRulesCall, emit. cbn [trace allRules].
    now rewrite <- !app_assoc. }
  split; [intros row _; apply saveRequest_not_fetch | ].
  destruct (saveAllChanges_frame p responses order) as (H1 & H2 & H3).
  now rewrite H1, H2, H3.
Qed.

Lemma C8_batch_save_partial_failure_witness :
  settleAll (bodyRows (additional_rules_body batchPage))
    batchResponses batchOrder
  = (2, [ShowMessage
           ("Error saving " ++ dquote ++ "A" ++ dquote ++ ": duplicate name")
           "error"]).
Proof.
  refine (proj1 (C8_batch_save_partial_failure batchPage []
                   (bodyRows (additional_rules_body batchPage))
                   batchResponses batchOrder 1 batchFailingRow
                   _ _ _ _ _ _)).
  - reflexivity.
  - reflexivity.
  - apply (Permutation_cons_app [0; 1] []). reflexivity.
  - reflexivity.
  - reflexivity.
  - intros i Hi Hik.
    destruct i as [ | [ | [ | i]]]; [reflexivity | now elim Hik | reflexivity | ].
    cbn in Hi. lia.
Defined.

(** ** The rows of a reachable page *)

Section RowFacts.

Variable localeCompare : string -> string -> Z.

Lemma renderRules_rowsWellFormed (p : Page) :
  rowsWellFormed p -> rowsWellFormed (renderRules localeCompare p).
Proof.
  intros H. unfold renderRules.
  destruct (base_rules_body p) as [b | ] eqn:Hb; [ | exact H].
  destruct (additional_rules_body p) as [a | ] eqn:Ha; [ | exact H].
  cbv zeta.
  match goal with
  | |- rowsWellFormed (if _ then ?q else _) =>
      assert (Hrows : rowsWellFormed q)
  end.
  { intros row Hrow.
    cbn [base_rules_body additional_rules_body bodyRows] in Hrow.
    apply in_app_or in Hrow.
    destruct Hrow as [Hrow | Hrow];
      apply in_map_iff in Hrow; destruct Hrow as (rule & <- & _);
      apply createRuleRow_source_select. }
  destruct (existsb createRuleRowThrows _);
    [exact Hrows | now apply toggle_rowsWellFormed].
Qed.

Lemma addRow_rowsWellFormed (p : Page) (isBase : bool) :
  rowsWellFormed p -> rowsWellFormed (addRow p isBase).
Proof.
  intros H. unfold addRow. apply toggle_rowsWellFormed.
  intros row Hrow. cbn [base_rules_body additional_rules_body] in Hrow.
  assert (Hcases :
            In row (bodyRows (base_rules_body p)
                    ++ bodyRows (additional_rules_body p))
            \/ exists rule, row = createRuleRow (allRules p) rule isBase).
  { apply in_app_or in Hrow.
    destruct isBase, (base_rules_body p) as [b | ],
      (additional_rules_body p) as [a | ]; cbn in Hrow |- *;
      destruct Hrow as [Hrow | Hrow]; try contradiction;
      try (apply in_app_or in Hrow; destruct Hrow as [Hrow | [<- | []]]);
      try (right; eexists; reflexivity);
      left; try (apply in_or_app); tauto. }
  destruct Hcases as [Hold | (rule & ->)].
  - now apply H.
  - apply createRuleRow_source_select.
Qed.

Lemma deleteRule_rowsWellFormed (p : Page) response :
  rowsWellFormed p -> rowsWellFormed (deleteRule p response).
Proof.
  intros H. unfold deleteRule.
  destruct (ruleToDeleteId p) as [raw | ]; [ | exact H]. cbv zeta.
  destruct (negb (Js.truthyId raw)); [exact H | ].
  destruct (Js.startsWith (Js.render raw) "new_").
  - intros row Hrow. apply H.
    cbn [hideConfirmationModal setRuleToDeleteId emit base_rules_body
           additional_rules_body] in Hrow.
    apply in_app_or in Hrow. apply in_or_app.
    destruct (existsb _ _), (base_rules_body p) as [b | ],
      (additional_rules_body p) as [a | ]; cbn in Hrow |- *;
      destruct Hrow as [Hrow | Hrow]; try contradiction;
      try (apply removeFirstRow_incl in Hrow); tauto.
  - destruct (isOk response); exact H.
Qed.

Lemma step_rowsWellFormed (p : Page) (a : Action) :
  rowsWellFormed p -> rowsWellFormed (step localeCompare p a).
Proof.
  intros H. destruct a as [ | response | isBase | ruleId | response
                            | responses order | checked | ]; cbn [step].
  - exact H.
  - unfold fetchRulesSettle.
    destruct response as [rules | message | message]; try exact H.
    match goal with
    | |- context [renderRulesThrows _ ?q] =>
        pose proof (renderRules_rowsWellFormed q H) as Hq;
        destruct (renderRulesThrows localeCompare q)
    end; exact Hq.
  - now apply addRow_rowsWellFormed.
  - exact H.
  - now apply deleteRule_rowsWellFormed.
  - destruct (saveAllChanges_frame p responses order) as (_ & H2 & H3).
    unfold rowsWellFormed. now rewrite H2, H3.
  - exact H.
  - now apply toggle_rowsWellFormed.
Qed.

(** Every row that the script has put in a table body satisfies the
    premise on which the payload's branch and the display's agree. *)
Lemma run_rowsWellFormed (chk : option bool) (actions : list Action) :
  rowsWellFormed (run localeCompare (initialPage chk) actions).
Proof.
  assert (Hgen : forall p, rowsWellFormed p ->
                           rowsWellFormed (run localeCompare p actions)).
  { induction actions as [ | a rest IH]; intros p H; cbn.
    - exact H.
    - apply IH. now apply step_rowsWellFormed. }
  apply Hgen. intros row [].
Qed.

End RowFacts.

(** * Further properties of the script *)

(** ** Scalars of a payload *)

Lemma getRulePayload_scalars (rules : list Rule) (row : Row) :
  let payload := getRulePayload rules row in
  Js.get "id" payload
  = Some (if persistedRow row then Js.Str (dataset_id row) else Js.Null)
  /\ Js.get "rule_name" payload = Some (Js.Str (rule_name_input row))
  /\ Js.get "field_role" payload
     = Some (Js.Str (selectValue (field_role_select row)))
  /\ Js.get "destination_field" payload
     = Some (Js.Str (selectValue (destination_field_select row)))
  /\ Js.get "source_type_options" payload
     = Some (Js.Str (Js.join "," (selectedValues (source_type_select row))))
  /\ Js.get "is_hidden" payload = Some (Js.Bool (is_hidden_input row))
  /\ Js.get "default_transformation" payload
     = Some (Js.strOrNull (default_transformation_input row)).
Proof.
  unfold getRulePayload, persistedRow.
  destruct (payloadKind _) as [[ | | | ] | ];
    try destruct (forwardLookup _ _); repeat split; reflexivity.
Qed.

(** A row is created with POST on the collection and a null id when its
    [dataset.id] is empty or a [new_] marker, and updated with PUT on the
    rule's own URL under its id otherwise: no marker reaches the API, in
    the body or in the URL. *)
Theorem save_request_by_identity :
  forall (rules : list Rule) (row : Row),
    let payload := getRulePayload rules row in
    Js.get "id" payload
    = Some (if persistedRow row then Js.Str (dataset_id row) else Js.Null)
    /\ saveRequest rules row
       = (if persistedRow row
          then Request "PUT" (API_BASE_URL ++ "/" ++ dataset_id row)
                       (Some payload)
          else Request "POST" API_BASE_URL (Some payload))
    /\ (Js.startsWith (dataset_id row) "new_" = true ->
        saveRequest rules row = Request "POST" API_BASE_URL (Some payload)).
Proof.
  intros rules row payload.
  destruct (getRulePayload_scalars rules row) as (Hid & _).
  fold payload in Hid.
  assert (Hreq : saveRequest rules row
                 = (if persistedRow row
                    then Request "PUT" (API_BASE_URL ++ "/" ++ dataset_id row)
                                 (Some payload)
                    else Request "POST" API_BASE_URL (Some payload))).
  { unfold saveRequest. fold payload. rewrite Hid.
    destruct (persistedRow row) eqn:E; [ | reflexivity].
    unfold persistedRow in E. apply andb_true_iff in E.
    destruct E as [-> _]. reflexivity. }
  repeat split; [exact Hid | exact Hreq | ].
  intros Hnew. rewrite Hreq. unfold persistedRow. rewrite Hnew.
  now rewrite andb_false_r.
Qed.

(** ** Single selects *)

Lemma selected_single (options : list OptionData) (v : string)
    (o : SelectOption) :
  In o (filter selected (populateSelectSingle options v)) -> value o = v.
Proof.
  intros H. apply filter_In in H. destruct H as [Hin Hsel].
  unfold populateSelectSingle in Hin. apply in_map_iff in Hin.
  destruct Hin as (od & <- & _). cbn in *. now apply String.eqb_eq.
Qed.

(** A single select filled by [populateSelect] shows the requested value
    when an option carries it. *)
Lemma selectValue_present (options : list OptionData) (v : string) :
  In v (map od_value options) ->
  selectValue (populateSelectSingle options v) = v.
Proof.
  intros Hin. unfold selectValue.
  destruct (rev (filter selected (populateSelectSingle options v)))
    as [ | o rest] eqn:E.
  - exfalso. apply in_map_iff in Hin. destruct Hin as (od & Hv & Hod).
    assert (Hsel : In (mkOption (od_value od) (od_text od)
                                (od_value od =? v) false)
                      (filter selected (populateSelectSingle options v))).
    { apply filter_In. split.
      - unfold populateSelectSingle. apply in_map_iff. now exists od.
      - cbn. now apply String.eqb_eq. }
    apply in_rev in Hsel. rewrite E in Hsel. exact Hsel.
  - apply (selected_single options). apply in_rev. rewrite E. now left.
Qed.

(** Otherwise it shows its first option, or nothing when it has none. *)
Lemma selectValue_absent (options : list OptionData) (v : string) :
  ~ In v (map od_value options) ->
  selectValue (populateSelectSingle options v)
  = match options with
    | od :: _ => od_value od
    | [] => ""
    end.
Proof.
  intros Hout. unfold selectValue.
  assert (Hnone : filter selected (populateSelectSingle options v) = []).
  { apply filter_none. intros o Ho. unfold populateSelectSingle in Ho.
    apply in_map_iff in Ho. destruct Ho as (od & <- & Hod). cbn.
    apply String.eqb_neq. intros Heq. apply Hout. rewrite <- Heq.
    now apply in_map. }
  rewrite Hnone. cbn [rev]. destruct options as [ | od rest]; reflexivity.
Qed.

Lemma arrIncludes_In (arr : list string) (x : string) :
  Js.arrIncludes arr x = true <-> In x arr.
Proof.
  unfold Js.arrIncludes. rewrite existsb_exists. split.
  - intros (y & Hy & Heq). apply String.eqb_eq in Heq. now subst.
  - intros H. exists x. split; [exact H | apply String.eqb_refl].
Qed.

Lemma selectValue_single (options : list OptionData) (v : string) :
  selectValue (populateSelectSingle options v)
  = if Js.arrIncludes (map od_value options) v then v
    else match options with
         | od :: _ => od_value od
         | [] => ""
         end.
Proof.
  destruct (Js.arrIncludes (map od_value options) v) eqn:E.
  - apply selectValue_present. now apply arrIncludes_In.
  - apply selectValue_absent. intros H. apply arrIncludes_In in H. congruence.
Qed.

(** A row is built for a rule whose role names no inherited property;
    when the rule's name and default transformation are safe in the
    markup, that row is saved under the rule's own role and destination
    if the role is one of the five and the destination is valid for it.
    A plain role outside the five, such as the empty role of a new rule,
    is saved as [header], the first option of the role select, with an
    empty destination; an invalid destination of a known role is saved
    as the first destination of that role.  For a role that names an
    inherited property no row is built, so nothing is saved for it. *)
Theorem loaded_role_and_destination :
  forall (rules : list Rule) (rule : Rule) (isBase : bool),
    markupSafeRule rule ->
    (plainRole (field_role rule) ->
     createRuleRowThrows rule = false
     /\ let payload := getRulePayload rules (createRuleRow rules rule isBase) in
        Js.get "field_role" payload
        = Some (Js.Str (if Js.arrIncludes ALL_ROLES (field_role rule)
                        then field_role rule else "header"))
        /\ Js.get "destination_field" payload
           = Some (Js.Str (if Js.arrIncludes
                                (validDestinations (field_role rule))
                                (destination_field rule)
                           then destination_field rule
                           else firstDestination (field_role rule)))
        /\ (Js.arrIncludes ALL_ROLES (field_role rule) = false ->
            Js.get "field_role" payload = Some (Js.Str "header")
            /\ Js.get "destination_field" payload = Some (Js.Str "")))
    /\ (forall v, Js.inherited (field_role rule) = Some v ->
                  createRuleRowThrows rule = true
                  /\ Js.arrIncludes ALL_ROLES (field_role rule) = false).
Proof.
  intros rules rule isBase Hsafe. split.
  - intros Hplain. split; [now apply plain_never_throws | ].
    intros payload.
    destruct (getRulePayload_scalars rules (createRuleRow rules rule isBase))
      as (_ & _ & Hrole & Hdest & _).
    fold payload in Hrole, Hdest.
    assert (Hr : Js.get "field_role" payload
                 = Some (Js.Str (if Js.arrIncludes ALL_ROLES (field_role rule)
                                 then field_role rule else "header"))).
    { rewrite Hrole. cbn [createRuleRow field_role_select].
      rewrite selectValue_single. rewrite map_map. cbn [od_value].
      rewrite map_id. reflexivity. }
    assert (Hd : Js.get "destination_field" payload
                 = Some (Js.Str
                           (if Js.arrIncludes
                                 (validDestinations (field_role rule))
                                 (destination_field rule)
                            then destination_field rule
                            else firstDestination (field_role rule)))).
    { rewrite Hdest. cbn [createRuleRow destination_field_select].
      unfold populateDestinationFields, validDestinations, firstDestination.
      rewrite selectValue_single.
      destruct (ROLE_DESTINATION_FIELDS (field_role rule)) as [[ | od rest] | ];
        reflexivity. }
    split; [exact Hr | split; [exact Hd | ]].
    intros Hunknown. split.
    + rewrite Hr. now rewrite Hunknown.
    + rewrite Hd.
      assert (Hnone : ROLE_DESTINATION_FIELDS (field_role rule) = None).
      { unfold ROLE_DESTINATION_FIELDS.
        unfold ALL_ROLES, Js.arrIncludes in Hunknown. cbn in Hunknown.
        repeat (apply orb_false_iff in Hunknown;
                destruct Hunknown as [?H Hunknown]).
        repeat match goal with
               | H : (field_role rule =? _) = false |- _ => rewrite H; clear H
               end.
        reflexivity. }
      unfold validDestinations, firstDestination. now rewrite Hnone.
  - intros v Hv. split; [now apply (inherited_throws rule v) | ].
    apply inherited_names in Hv. simpl in Hv.
    repeat (destruct Hv as [<- | Hv]; [reflexivity | ]). destruct Hv.
Qed.

Lemma loaded_role_and_destination_witness :
  markupSafeRule blankDestinationRule
  /\ plainRole (field_role blankDestinationRule)
  /\ Js.get "destination_field"
       (getRulePayload sampleStore
          (createRuleRow sampleStore blankDestinationRule false))
     = Some (Js.Str "id").
Proof.
  assert (Hsafe : markupSafeRule blankDestinationRule) by (split; reflexivity).
  assert (Hplain : plainRole (field_role blankDestinationRule))
    by reflexivity.
  split; [exact Hsafe | split; [exact Hplain | ]].
  exact (proj1 (proj2 (proj2 (proj1 (loaded_role_and_destination sampleStore
                                       blankDestinationRule false Hsafe)
                                Hplain)))).
Defined.

(** ** Kinds: joining and splitting *)

Lemma split_commaFree (k : string) :
  commaFree k = true -> Js.split "," k = [k].
Proof.
  induction k as [ | c k IH]; cbn; [reflexivity | ].
  intros H. apply andb_true_iff in H. destruct H as [Hc Hk].
  apply negb_true_iff in Hc. rewrite Hc, (IH Hk). reflexivity.
Qed.

Lemma split_append (k rest : string) :
  commaFree k = true ->
  Js.split "," (k ++ String "," rest) = k :: Js.split "," rest.
Proof.
  induction k as [ | c k IH]; cbn; [reflexivity | ].
  intros H. apply andb_true_iff in H. destruct H as [Hc Hk].
  apply negb_true_iff in Hc. rewrite Hc, (IH Hk). reflexivity.
Qed.

Lemma split_join (kinds : list string) :
  kinds <> [] ->
  (forall k, In k kinds -> commaFree k = true) ->
  Js.split "," (Js.join "," kinds) = kinds.
Proof.
  induction kinds as [ | k rest IH]; intros Hne Hfree; [now elim Hne | ].
  destruct rest as [ | k' rest'].
  - cbn. apply split_commaFree. apply Hfree. now left.
  - change (Js.join "," (k :: k' :: rest'))
      with (k ++ String "," (Js.join "," (k' :: rest')))%string.
    rewrite split_append by (apply Hfree; now left).
    f_equal. apply IH; [discriminate | ].
    intros x Hx. apply Hfree. now right.
Qed.

(** What [getRulePayload] joins, [createRuleRow] splits back: a list of
    kind names without commas and without the empty name is recovered from
    its joined string, the empty list included. *)
Theorem stored_kinds_round_trip :
  forall kinds : list string,
    (forall k, In k kinds -> k <> "" /\ commaFree k = true) ->
    storedKinds (Js.join "," kinds) = kinds.
Proof.
  intros kinds H. unfold storedKinds.
  destruct kinds as [ | k rest]; [reflexivity | ].
  assert (Htruthy : Js.truthy (Js.join "," (k :: rest)) = true).
  { destruct (H k (or_introl eq_refl)) as [Hk _].
    destruct k as [ | c k]; [now elim Hk | ].
    destruct rest; reflexivity. }
  rewrite Htruthy. apply split_join; [discriminate | ].
  intros x Hx. now apply H.
Qed.

Lemma stored_kinds_round_trip_witness :
  storedKinds (Js.join "," ["CSV Formula"; "Link"]) = ["CSV Formula"; "Link"].
Proof.
  apply stored_kinds_round_trip.
  intros k Hk. simpl in Hk.
  destruct Hk as [<- | [<- | []]]; split; (discriminate || reflexivity).
Defined.


(** ** Reverse lookup: the first match, or nothing *)

Lemma find_first {A : Type} (test : A -> bool) (l : list A) (x : A) :
  List.find test l = Some x ->
  exists pre post,
    l = pre ++ x :: post /\ test x = true
    /\ forall y, In y pre -> test y = false.
Proof.
  induction l as [ | y rest IH]; cbn; [discriminate | ].
  destruct (test y) eqn:E.
  - intros [= <-]. exists [], rest. repeat split; [exact E | intros ? []].
  - intros H. destruct (IH H) as (pre & post & -> & Hx & Hpre).
    exists (y :: pre), post. repeat split; [exact Hx | ].
    intros z [<- | Hz]; [exact E | now apply Hpre].
Qed.

(** The reverse lookup of a stored pointer gives the id of the first rule
    of the collection that the pointer designates: rules before it are not
    designated, rules after it are not looked at.  It gives nothing when
    either part of the pointer is null or empty, and nothing when no rule
    is designated. *)
Theorem reverse_lookup_first_match :
  forall (store : list Rule) (table fieldName : string),
    (forall i,
        reverseLookup store (Js.Str table) (Js.Str fieldName) = Some i ->
        exists pre r post,
          store = pre ++ r :: post /\ id r = i
          /\ designates table fieldName r = true
          /\ forall x, In x pre -> designates table fieldName x = false)
    /\ (forall pre r post,
           store = pre ++ r :: post ->
           table <> "" -> fieldName <> "" ->
           designates table fieldName r = true ->
           (forall x, In x pre -> designates table fieldName x = false) ->
           reverseLookup store (Js.Str table) (Js.Str fieldName)
           = Some (id r))
    /\ ((forall x, In x store -> designates table fieldName x = false) ->
        reverseLookup store (Js.Str table) (Js.Str fieldName) = None)
    /\ (forall v, reverseLookup store Js.Null v = None
                  /\ reverseLookup store v Js.Null = None
                  /\ reverseLookup store (Js.Str "") v = None
                  /\ reverseLookup store v (Js.Str "") = None).
Proof.
  intros store table fieldName.
  assert (Hshape :
            reverseLookup store (Js.Str table) (Js.Str fieldName)
            = if andb (Js.truthy table) (Js.truthy fieldName)
              then option_map id (List.find (designates table fieldName) store)
              else None).
  { unfold reverseLookup, Js.find. cbn [Js.truthyValue].
    destruct (andb (Js.truthy table) (Js.truthy fieldName)); [ | reflexivity].
    change (fun r : Rule =>
              andb match roleOfTable table with
                   | Some role => role =? field_role r
                   | None => false
                   end (destination_field r =? fieldName))
      with (designates table fieldName).
    now destruct (List.find (designates table fieldName) store). }
  split; [ | split; [ | split]].
  - intros i Hi. rewrite Hshape in Hi.
    destruct (andb (Js.truthy table) (Js.truthy fieldName)); [ | discriminate].
    destruct (List.find (designates table fieldName) store) as [r | ] eqn:E;
      [ | discriminate].
    injection Hi as <-.
    destruct (find_first _ _ _ E) as (pre & post & Hstore & Hr & Hpre).
    now exists pre, r, post.
  - intros pre r post -> Ht Hf Hr Hpre. rewrite Hshape.
    assert (Htt : Js.truthy table = true)
      by (unfold Js.truthy; apply negb_true_iff; now apply String.eqb_neq).
    assert (Hft : Js.truthy fieldName = true)
      by (unfold Js.truthy; apply negb_true_iff; now apply String.eqb_neq).
    rewrite Htt, Hft. cbn [andb].
    assert (Hfind : List.find (designates table fieldName) (pre ++ r :: post)
                    = Some r).
    { clear - Hr Hpre. induction pre as [ | y pre IH]; cbn.
      - now rewrite Hr.
      - rewrite (Hpre y (or_introl eq_refl)). apply IH.
        intros x Hx. apply Hpre. now right. }
    now rewrite Hfind.
  - intros Hnone. rewrite Hshape.
    destruct (andb (Js.truthy table) (Js.truthy fieldName)); [ | reflexivity].
    destruct (List.find (designates table fieldName) store) as [r | ] eqn:E;
      [ | reflexivity].
    apply find_some in E. destruct E as [Hin Hr].
    now rewrite (Hnone r Hin) in Hr.
  - intros v.
    repeat split; unfold reverseLookup; destruct v as [ | [ | ] | s | | ];
      cbn [Js.truthyValue andb]; rewrite ?andb_false_r; reflexivity.
Qed.

(** ** The link picker *)

Lemma candidate_option_values (candidates : list Rule) :
  map od_value (map (fun r => mkOptionData (id r) (ruleLabel r)) candidates)
  = map id candidates.
Proof. rewrite map_map. reflexivity. Qed.

(** When Link is among the selected kinds, the options of the link picker
    are the linkable candidates and nothing else: [populateSelect] empties
    the select, so the "select a rule" placeholder is gone.  The picker
    then shows the preselected rule when it is a candidate and the first
    candidate otherwise.  Without candidates the picker holds one
    disabled option, its value is empty and the payload's pointer is
    null. *)
Theorem link_picker_options :
  forall (rules : list Rule) (selectedSourceTypes : list string)
         (linked currentRow : option string),
    Js.arrIncludes selectedSourceTypes "link" = true ->
    let candidates := linkableRules rules currentRow in
    let picker :=
      populateLinkSourceDropdown rules selectedSourceTypes linked currentRow in
    (candidates <> [] ->
     map value picker = map id candidates
     /\ (forall o, In o picker -> disabled o = false)
     /\ selectValue picker
        = (if Js.arrIncludes (map id candidates) (stringOfId linked)
           then stringOfId linked
           else hd "" (map id candidates)))
    /\ (candidates = [] ->
        picker = [mkOption "" "No available rules" false true]
        /\ selectValue picker = ""
        /\ forwardLookup rules (Some (selectValue picker))
           = (Js.Null, Js.Null)).
Proof.
  intros rules selectedSourceTypes linked currentRow Hlink candidates picker.
  unfold picker, populateLinkSourceDropdown. rewrite Hlink.
  fold candidates. split.
  - intros Hne.
    destruct candidates as [ | c rest] eqn:E; [now elim Hne | ].
    cbn [List.length Nat.eqb]. rewrite <- E.
    split; [ | split].
    + unfold populateSelectSingle. rewrite map_map. cbn [value].
      now rewrite map_map.
    + intros o Ho. unfold populateSelectSingle in Ho.
      apply in_map_iff in Ho. now destruct Ho as (od & <- & _).
    + rewrite selectValue_single, candidate_option_values.
      rewrite E. reflexivity.
  - intros ->. cbn. repeat split; reflexivity.
Qed.

Lemma link_picker_options_witness :
  selectValue
    (populateLinkSourceDropdown sampleStore ["link"] None (Some "new_1"))
  = "1".
Proof.
  refine (proj2 (proj2 (proj1 (link_picker_options sampleStore ["link"] None
                                 (Some "new_1") eq_refl) _))).
  discriminate.
Defined.

(** On kinds written by the payload builder the substring test of the
    filter is membership of Link. *)
Lemma link_test_exact (sel : Select) :
  map value sel = ALL_SOURCE_TYPES ->
  andb (Js.truthy (Js.join "," (selectedValues sel)))
       (Js.includes (Js.join "," (selectedValues sel)) "Link")
  = Js.arrIncludes (selectedValues sel) "Link".
Proof.
  intros H. destruct (source_select_flags sel H) as (b1 & b2 & b3 & b4 & ->).
  destruct b1, b2, b3, b4; reflexivity.
Qed.

(** For a rule whose stored kinds were written by the payload builder,
    being a linkable candidate is exactly being another rule of the
    collection without Link among its kinds: nothing else is left out. *)
Theorem linkable_exactly_non_link :
  forall (store : list Rule) (x : string) (r : Rule) (sel : Select),
    map value sel = ALL_SOURCE_TYPES ->
    source_type_options r = Js.join "," (selectedValues sel) ->
    (In r (linkableRules store (Some x))
     <-> In r store /\ id r <> x /\ ~ In "Link" (selectedValues sel)).
Proof.
  intros store x r sel Hsel Hkinds.
  unfold linkableRules. rewrite filter_In, Hkinds, (link_test_exact sel Hsel).
  rewrite andb_true_iff, !negb_true_iff, String.eqb_neq.
  rewrite <- (arrIncludes_In (selectedValues sel) "Link").
  destruct (Js.arrIncludes (selectedValues sel) "Link");
    intuition congruence.
Qed.

Lemma linkable_exactly_non_link_witness :
  In (sampleRule "1" "B" "line" "quantity" "CSV")
     (linkableRules sampleStore (Some "3")).
Proof.
  apply (linkable_exactly_non_link sampleStore "3"
           (sampleRule "1" "B" "line" "quantity" "CSV")
           (sourceTypeSelectFor ["CSV"]) eq_refl eq_refl).
  split; [left; reflexivity | split; [discriminate | ]].
  simpl. intros [H | []]. discriminate H.
Defined.

(** ** Loading a link and saving it back *)





(** ** Toggling twice *)

Lemma toggleRow_idempotent (isBaseRow isOverrideActive : bool) (row : Row) :
  toggleRow isBaseRow isOverrideActive
    (toggleRow isBaseRow isOverrideActive row)
  = toggleRow isBaseRow isOverrideActive row.
Proof.
  unfold toggleRow. cbn. f_equal. rewrite map_map. now apply map_ext.
Qed.

(** Running [toggleBaseRuleEditability] again without touching the
    override changes nothing: the flags it sets depend only on the row's
    table, the control's field and the override. *)
Theorem toggle_idempotent :
  forall p : Page,
    toggleBaseRuleEditability (toggleBaseRuleEditability p)
    = toggleBaseRuleEditability p.
Proof.
  intros p. unfold toggleBaseRuleEditability. cbn. f_equal.
  - destruct (base_rules_body p) as [rows | ]; cbn; [ | reflexivity].
    f_equal. rewrite map_map. apply map_ext. intros row.
    apply toggleRow_idempotent.
  - destruct (additional_rules_body p) as [rows | ]; cbn; [ | reflexivity].
    f_equal. rewrite map_map. apply map_ext. intros row.
    apply toggleRow_idempotent.
Qed.

(** ** Every save is accounted for *)




(** ** Deleting a persisted rule *)

(** The delete button of a row stores the id of the row's rule as the
    rule has it, and [deleteRule] tests that id for truthiness.  For an id
    that is truthy and whose rendering is no [new_] marker, confirming
    issues one DELETE on the rule's URL: when it succeeds a message is
    shown and the rules are fetched again; when it fails the reason is
    shown, the server's when it gave one, and nothing is fetched; either
    way the rows and the shared collection stay as they are until a fetch
    arrives, and the delete target is cleared.  For a falsy id, such as
    the number 0, whose rendering is the persisted id [0], confirming
    does nothing: no request is made and the target is not cleared.
    Without a target nothing happens at all. *)
Theorem delete_of_persisted_rule :
  forall (p : Page) (raw : Js.Id) (response : Response unit),
    let clicked := clickDelete p raw in
    let q := deleteRule clicked response in
    (Js.truthyId raw = true ->
     Js.startsWith (Js.render raw) "new_" = false ->
     trace q
     = trace p
       ++ Request "DELETE" (API_BASE_URL ++ "/" ++ Js.render raw) None
       :: (if isOk response
           then [ShowMessage "Rule deleted successfully!" "success";
                 Request "GET" API_BASE_URL None]
           else [ShowMessage
                   ("Error: "
                    ++ errorMessage response "Failed to delete rule")
                   "error"])
     /\ allRules q = allRules p
     /\ base_rules_body q = base_rules_body p
     /\ additional_rules_body q = additional_rules_body p
     /\ ruleToDeleteId q = None)
    /\ (Js.truthyId raw = false ->
        q = clicked /\ trace q = trace p /\ ruleToDeleteId q = Some raw)
    /\ (Js.truthyId (Js.IdNumber 0) = false
        /\ Js.render (Js.IdNumber 0) = "0"
        /\ Js.startsWith (Js.render (Js.IdNumber 0)) "new_" = false)
    /\ deleteRule (hideConfirmationModal p) response
       = hideConfirmationModal p.
Proof.
  intros p raw response clicked q.
  split; [ | split; [ | split]].
  - intros Htruthy Hnew. unfold q, clicked, deleteRule.
    cbn [clickDelete setRuleToDeleteId ruleToDeleteId]. cbv zeta.
    rewrite Htruthy, Hnew. cbn [negb].
    destruct (isOk response); cbn; rewrite <- ?app_assoc; repeat split.
  - intros Hfalsy. unfold q, clicked, deleteRule.
    cbn [clickDelete setRuleToDeleteId ruleToDeleteId]. cbv zeta.
    rewrite Hfalsy. cbn [negb]. repeat split.
  - repeat split.
  - reflexivity.
Qed.

Lemma delete_of_persisted_rule_witness :
  trace (deleteRule (clickDelete batchPage (Js.IdNumber 2)) (NotOk None))
  = trace batchPage
    ++ [Request "DELETE" (API_BASE_URL ++ "/2") None;
        ShowMessage "Error: Failed to delete rule" "error"]
  /\ deleteRule (clickDelete batchPage (Js.IdNumber 0)) (Ok tt)
     = clickDelete batchPage (Js.IdNumber 0).
Proof.
  split.
  - exact (proj1 (proj1 (delete_of_persisted_rule batchPage (Js.IdNumber 2)
                           (NotOk None)) eq_refl eq_refl)).
  - exact (proj1 (proj1 (proj2 (delete_of_persisted_rule batchPage
                                  (Js.IdNumber 0) (Ok tt))) eq_refl)).
Defined.

(** ** Rows and rules of the page *)


Lemma decimal_inj (a b : nat) : decimal a = decimal b -> a = b.
Proof.
  unfold decimal. intros H.
  apply DecimalNat.Unsigned.to_uint_inj.
  pose proof (DecimalString.NilEmpty.usu (Nat.to_uint a)) as Ha.
  pose proof (DecimalString.NilEmpty.usu (Nat.to_uint b)) as Hb.
  rewrite H in Ha. congruence.
Qed.

Lemma marker_inj (a b : nat) :
  ("new_" ++ decimal a)%string = ("new_" ++ decimal b)%string -> a = b.
Proof.
  cbn. intros H. injection H as H. now apply decimal_inj.
Qed.

Lemma marker_truthy (k : nat) :
  Js.truthy ("new_" ++ decimal k) = true
  /\ Js.startsWith ("new_" ++ decimal k) "new_" = true.
Proof.
  split; [reflexivity | apply prefix_append].
Qed.

Lemma removeFirstRow_absent (rowId : string) (rows : list Row) :
  (forall row, In row rows -> dataset_id row <> rowId) ->
  removeFirstRow rowId rows = rows.
Proof.
  induction rows as [ | r rest IH]; intros H; [reflexivity | ].
  cbn. destruct (String.eqb_spec (dataset_id r) rowId) as [Heq | _].
  - elim (H r (or_introl eq_refl) Heq).
  - f_equal. apply IH. intros row Hrow. apply H. now right.
Qed.

Lemma removeFirstRow_last (rowId : string) (rows : list Row) (last : Row) :
  (forall row, In row rows -> dataset_id row <> rowId) ->
  dataset_id last = rowId ->
  removeFirstRow rowId (rows ++ [last]) = rows.
Proof.
  induction rows as [ | r rest IH]; intros H Hlast; cbn.
  - rewrite Hlast, String.eqb_refl. reflexivity.
  - destruct (String.eqb_spec (dataset_id r) rowId) as [Heq | _].
    + elim (H r (or_introl eq_refl) Heq).
    + f_equal. apply IH; [ | exact Hlast].
      intros row Hrow. apply H. now right.
Qed.

Lemma existsb_absent (rowId : string) (rows : list Row) :
  (forall row, In row rows -> dataset_id row <> rowId) ->
  existsb (fun row => dataset_id row =? rowId) rows = false.
Proof.
  intros H. destruct (existsb _ rows) eqn:E; [ | reflexivity].
  apply existsb_exists in E. destruct E as (row & Hrow & Heq).
  apply String.eqb_eq in Heq. elim (H row Hrow Heq).
Qed.

Section PageFacts.

Variable localeCompare : string -> string -> Z.






(** *** Markers of new rows *)

Lemma allRows_toggle (p : Page) (row : Row) :
  In row (allRows (toggleBaseRuleEditability p)) ->
  exists r0, In r0 (allRows p) /\ dataset_id row = dataset_id r0.
Proof.
  unfold allRows, toggleBaseRuleEditability.
  cbn [base_rules_body additional_rules_body].
  intros H. apply in_app_or in H.
  destruct H as [H | H]; apply bodyRows_map in H;
    destruct H as (r0 & -> & Hr0); exists r0;
    (split; [apply in_or_app; tauto | reflexivity]).
Qed.

Lemma toggle_counted (p : Page) :
  transientIdsCounted p -> transientIdsCounted (toggleBaseRuleEditability p).
Proof.
  intros H row Hrow Hnew.
  destruct (allRows_toggle p row Hrow) as (r0 & Hr0 & Heq).
  rewrite Heq in Hnew |- *. exact (H r0 Hr0 Hnew).
Qed.

Lemma render_counted (p : Page) :
  (forall r, In r (allRules p) -> Js.startsWith (id r) "new_" = false) ->
  transientIdsCounted p ->
  transientIdsCounted (renderRules localeCompare p).
Proof.
  intros Hpersisted H. unfold renderRules.
  destruct (base_rules_body p) as [b | ]; [ | exact H].
  destruct (additional_rules_body p) as [a | ]; [ | exact H].
  cbv zeta.
  match goal with
  | |- transientIdsCounted (if _ then ?q else _) =>
      assert (Hq : transientIdsCounted q)
  end.
  { intros row Hrow Hnew. exfalso.
    unfold allRows in Hrow.
    cbn [base_rules_body additional_rules_body bodyRows] in Hrow.
    apply in_app_or in Hrow.
    destruct Hrow as [Hrow | Hrow]; apply in_map_iff in Hrow;
      destruct Hrow as (rule & <- & Hrule); apply filter_In in Hrule;
      destruct Hrule as [Hrule _];
      apply builtBeforeThrow_incl in Hrule;
      apply (Permutation_in _ (Permutation_sym
                                 (sortRules_perm localeCompare (allRules p))))
        in Hrule;
      change (Js.startsWith (id rule) "new_" = true) in Hnew;
      rewrite (Hpersisted rule Hrule) in Hnew; discriminate. }
  destruct (existsb createRuleRowThrows _);
    [exact Hq | now apply toggle_counted].
Qed.

Lemma allRows_addRow (p : Page) (isBase : bool) (row : Row) :
  In row (allRows (addRow p isBase)) ->
  (exists r0, In r0 (allRows p) /\ dataset_id row = dataset_id r0)
  \/ dataset_id row = ("new_" ++ decimal (S (newRuleCounter p)))%string.
Proof.
  intros H. unfold addRow in H.
  destruct (allRows_toggle _ row H) as (r0 & Hr0 & ->). clear H.
  unfold allRows in Hr0 |- *.
  cbn [base_rules_body additional_rules_body] in Hr0.
  apply in_app_or in Hr0.
  destruct isBase, (base_rules_body p) as [b | ],
    (additional_rules_body p) as [a | ]; cbn in Hr0 |- *;
    destruct Hr0 as [Hr0 | Hr0]; try contradiction;
    try (apply in_app_or in Hr0; destruct Hr0 as [Hr0 | [<- | []]]);
    try (right; reflexivity);
    left; exists r0; (split; [ | reflexivity]);
    try (apply in_or_app); tauto.
Qed.

Lemma allRows_deleteRule (p : Page) response (row : Row) :
  In row (allRows (deleteRule p response)) -> In row (allRows p).
Proof.
  unfold deleteRule.
  destruct (ruleToDeleteId p) as [raw | ]; [ | tauto]. cbv zeta.
  destruct (negb (Js.truthyId raw)); [tauto | ].
  destruct (Js.startsWith (Js.render raw) "new_").
  - unfold allRows.
    cbn [hideConfirmationModal setRuleToDeleteId emit base_rules_body
           additional_rules_body].
    intros Hrow. apply in_app_or in Hrow. apply in_or_app.
    destruct (existsb _ _), (base_rules_body p) as [b | ],
      (additional_rules_body p) as [a | ]; cbn in Hrow |- *;
      destruct Hrow as [Hrow | Hrow]; try contradiction;
      try (apply removeFirstRow_incl in Hrow); tauto.
  - destruct (isOk response); tauto.
Qed.

Lemma step_counted (p : Page) (a : Action) :
  (forall rules, a = RulesArrive (Ok rules) ->
                 forall r, In r rules -> Js.startsWith (id r) "new_" = false) ->
  transientIdsCounted p ->
  transientIdsCounted (step localeCompare p a).
Proof.
  intros Hpersisted H.
  destruct a as [ | response | isBase | ruleId | response
                  | responses order | checked | ]; cbn [step].
  - exact H.
  - unfold fetchRulesSettle.
    destruct response as [rules | message | message]; try exact H.
    match goal with
    | |- context [renderRulesThrows _ ?q] =>
        assert (Hq : transientIdsCounted (renderRules localeCompare q));
        [ | destruct (renderRulesThrows localeCompare q); exact Hq]
    end.
    apply render_counted; [ | exact H].
    cbn [allRules]. now apply Hpersisted.
  - intros row Hrow Hnew.
    destruct (allRows_addRow p isBase row Hrow) as [(r0 & Hr0 & Heq) | Heq].
    + rewrite Heq in Hnew |- *. destruct (H r0 Hr0 Hnew) as (k & Hk & Hid).
      exists k. cbn [addRow toggleBaseRuleEditability newRuleCounter].
      split; [lia | exact Hid].
    + exists (S (newRuleCounter p)).
      cbn [addRow toggleBaseRuleEditability newRuleCounter].
      split; [lia | exact Heq].
  - exact H.
  - intros row Hrow Hnew.
    destruct (H row (allRows_deleteRule p response row Hrow) Hnew)
      as (k & Hk & Hid).
    exists k. split; [ | exact Hid].
    assert (Hc : newRuleCounter (deleteRule p response) = newRuleCounter p).
    { unfold deleteRule.
      destruct (ruleToDeleteId p) as [raw | ]; [ | reflexivity]. cbv zeta.
      destruct (negb (Js.truthyId raw)); [reflexivity | ].
      destruct (Js.startsWith (Js.render raw) "new_"); [reflexivity | ].
      destruct (isOk response); reflexivity. }
    rewrite Hc. exact Hk.
  - destruct (saveAllChanges_frame p responses order) as (_ & H2 & H3).
    assert (Hc : newRuleCounter (saveAllChanges p responses order)
                 = newRuleCounter p).
    { unfold saveAllChanges.
      destruct (base_rules_body p), (additional_rules_body p);
        try reflexivity.
      now destruct (settleAll _ _ _). }
    unfold transientIdsCounted, allRows. rewrite H2, H3, Hc. exact H.
  - exact H.
  - now apply toggle_counted.
Qed.

Lemma run_counted (actions : list Action) (p : Page) :
  persistedResponses actions ->
  transientIdsCounted p ->
  transientIdsCounted (run localeCompare p actions).
Proof.
  revert p. induction actions as [ | a rest IH]; intros p Hpersisted H; cbn.
  - exact H.
  - apply IH.
    + intros rules r Hin. apply Hpersisted. now right.
    + apply step_counted; [ | exact H].
      intros rules -> r. apply Hpersisted. now left.
Qed.

Lemma reachable_marker_fresh (chk : option bool) (actions : list Action) :
  persistedResponses actions ->
  let p := run localeCompare (initialPage chk) actions in
  forall row, In row (allRows p) ->
              dataset_id row
              <> ("new_" ++ decimal (S (newRuleCounter p)))%string.
Proof.
  intros Hpersisted p row Hrow Heq.
  assert (Hcounted : transientIdsCounted p).
  { apply run_counted; [exact Hpersisted | ]. intros r []. }
  destruct (Hcounted row Hrow) as (k & Hk & Hid).
  - rewrite Heq. apply marker_truthy.
  - rewrite Heq in Hid. apply marker_inj in Hid. lia.
Qed.

(** After any run in which the fetches that succeeded brought only
    persisted ids, the marker [addRow] gives its row is new: it is
    [new_] followed by the incremented counter, and no row in the tables
    carries it yet. *)
Theorem new_row_marker_is_fresh :
  forall (chk : option bool) (actions : list Action) (isBase : bool),
    persistedResponses actions ->
    let p := run localeCompare (initialPage chk) actions in
    let q := addRow p isBase in
    let marker := ("new_" ++ decimal (S (newRuleCounter p)))%string in
    newRuleCounter q = S (newRuleCounter p)
    /\ (forall row, In row (allRows p) -> dataset_id row <> marker)
    /\ (exists rows newRow,
           (if isBase then base_rules_body q else additional_rules_body q)
           = Some (rows ++ [newRow])
           /\ dataset_id newRow = marker
           /\ forall row, In row rows -> dataset_id row <> marker).
Proof.
  intros chk actions isBase Hpersisted p q marker.
  pose proof (reachable_marker_fresh chk actions Hpersisted) as Hfresh.
  cbv zeta in Hfresh. fold p in Hfresh.
  split; [reflexivity | split; [exact Hfresh | ]].
  assert (Hbodies : bodiesPresent p).
  { apply run_bodiesPresent. split; discriminate. }
  destruct Hbodies as [Hb Ha].
  unfold q, addRow, toggleBaseRuleEditability.
  cbn [base_rules_body additional_rules_body chk_super_admin].
  unfold allRows in Hfresh.
  destruct isBase.
  - destruct (base_rules_body p) as [rows | ]; [ | now elim Hb].
    cbn [option_map]. rewrite map_app. cbn [map].
    do 2 eexists. split; [reflexivity | split; [reflexivity | ]].
    intros row Hrow. apply in_map_iff in Hrow.
    destruct Hrow as (r0 & <- & Hr0). cbn [toggleRow dataset_id].
    apply Hfresh. apply in_or_app. left. exact Hr0.
  - destruct (additional_rules_body p) as [rows | ]; [ | now elim Ha].
    cbn [option_map]. rewrite map_app. cbn [map].
    do 2 eexists. split; [reflexivity | split; [reflexivity | ]].
    intros row Hrow. apply in_map_iff in Hrow.
    destruct Hrow as (r0 & <- & Hr0). cbn [toggleRow dataset_id].
    apply Hfresh. apply in_or_app. right. exact Hr0.
Qed.

Lemma deleteRule_transient (r : Page) (marker : string)
    (response : Response unit) (baseRows additionalRows : list Row) :
  ruleToDeleteId r = Some (Js.IdString marker) ->
  Js.truthy marker = true ->
  Js.startsWith marker "new_" = true ->
  base_rules_body r = Some baseRows ->
  additional_rules_body r = Some additionalRows ->
  deleteRule r response
  = mkPage (allRules r) (newRuleCounter r) None (chk_super_admin r)
      (Some (removeFirstRow marker baseRows))
      (Some (if existsb (fun row => dataset_id row =? marker) baseRows
             then additionalRows
             else removeFirstRow marker additionalRows))
      (btn_add_base_disabled r)
      (trace r ++ [ShowMessage "New unsaved rule removed." "success"]).
Proof.
  intros Htarget Htruthy Hnew Hb Ha.
  unfold deleteRule. rewrite Htarget. cbv zeta. cbn [Js.truthyId Js.render].
  rewrite Htruthy, Hnew. cbn [negb].
  rewrite Hb, Ha. cbn [bodyRows option_map].
  now destruct (existsb _ baseRows).
Qed.

Lemma addRow_bodies (p : Page) (isBase : bool) (b a : list Row) :
  base_rules_body p = Some b ->
  additional_rules_body p = Some a ->
  exists newRow,
    dataset_id newRow = ("new_" ++ decimal (S (newRuleCounter p)))%string
    /\ base_rules_body (addRow p isBase)
       = Some (map (toggleRow true (overrideActive p)) b
               ++ (if isBase then [newRow] else []))
    /\ additional_rules_body (addRow p isBase)
       = Some (map (toggleRow false (overrideActive p)) a
               ++ (if isBase then [] else [newRow])).
Proof.
  intros Hb Ha. unfold addRow, toggleBaseRuleEditability, overrideActive.
  cbn [base_rules_body additional_rules_body chk_super_admin].
  rewrite Hb, Ha.
  destruct isBase; cbn [option_map]; rewrite ?map_app, ?app_nil_r;
    cbn [map]; eexists; (split; [ | split; reflexivity]); reflexivity.
Qed.

(** Adding a row and deleting it before any save costs no API call: the
    only effect recorded is the message that the unsaved rule was
    removed; the tables are what re-running the toggle on the page before
    the add gives, the shared collection is untouched and the delete
    target is cleared.  Only the counter has moved on. *)
Theorem add_then_delete_is_local :
  forall (chk : option bool) (actions : list Action) (isBase : bool)
         (response : Response unit),
    persistedResponses actions ->
    let p := run localeCompare (initialPage chk) actions in
    let marker := ("new_" ++ decimal (S (newRuleCounter p)))%string in
    let q := deleteRule (clickDelete (addRow p isBase) marker) response in
    trace q = trace p ++ [ShowMessage "New unsaved rule removed." "success"]
    /\ base_rules_body q = base_rules_body (toggleBaseRuleEditability p)
    /\ additional_rules_body q
       = additional_rules_body (toggleBaseRuleEditability p)
    /\ allRules q = allRules p
    /\ ruleToDeleteId q = None
    /\ newRuleCounter q = S (newRuleCounter p).
Proof.
  intros chk actions isBase response Hpersisted p marker q.
  pose proof (reachable_marker_fresh chk actions Hpersisted) as Hfresh.
  cbv zeta in Hfresh. fold p marker in Hfresh.
  assert (Hbodies : bodiesPresent p).
  { apply run_bodiesPresent. split; discriminate. }
  destruct Hbodies as [Hb Ha].
  destruct (marker_truthy (S (newRuleCounter p))) as [Htruthy Hnew].
  fold marker in Htruthy, Hnew.
  unfold allRows in Hfresh.
  destruct (base_rules_body p) as [b | ] eqn:Eb; [ | now elim Hb].
  destruct (additional_rules_body p) as [a | ] eqn:Ea; [ | now elim Ha].
  cbn [bodyRows] in Hfresh.
  assert (Hfb : forall row, In row (map (toggleRow true (overrideActive p)) b)
                            -> dataset_id row <> marker).
  { intros row Hrow. apply in_map_iff in Hrow.
    destruct Hrow as (r0 & <- & Hr0). change (dataset_id r0 <> marker).
    apply Hfresh, in_or_app. now left. }
  assert (Hfa : forall row,
             In row (map (toggleRow false (overrideActive p)) a) ->
             dataset_id row <> marker).
  { intros row Hrow. apply in_map_iff in Hrow.
    destruct Hrow as (r0 & <- & Hr0). change (dataset_id r0 <> marker).
    apply Hfresh, in_or_app. now right. }
  destruct (addRow_bodies p isBase b a Eb Ea) as (newRow & Hid & HB & HA).
  fold marker in Hid.
  assert (Htoggled :
            base_rules_body (toggleBaseRuleEditability p)
            = Some (map (toggleRow true (overrideActive p)) b)
            /\ additional_rules_body (toggleBaseRuleEditability p)
               = Some (map (toggleRow false (overrideActive p)) a)).
  { unfold toggleBaseRuleEditability, overrideActive.
    cbn [base_rules_body additional_rules_body]. now rewrite Eb, Ea. }
  destruct Htoggled as [-> ->].
  unfold q.
  rewrite (deleteRule_transient (clickDelete (addRow p isBase) marker) marker
             response _ _ eq_refl Htruthy Hnew HB HA).
  cbn [trace base_rules_body additional_rules_body allRules ruleToDeleteId
         newRuleCounter].
  destruct isBase.
  - rewrite removeFirstRow_last by assumption.
    rewrite existsb_app. cbn [existsb]. rewrite Hid, String.eqb_refl.
    rewrite orb_true_r, app_nil_r. repeat split.
  - rewrite !app_nil_r. rewrite (existsb_absent marker _ Hfb).
    rewrite (removeFirstRow_absent marker _ Hfb).
    rewrite removeFirstRow_last by assumption. repeat split.
Qed.

End PageFacts.

Lemma sampleStore_plain : plainRules sampleStore.
Proof. repeat constructor. Qed.



Lemma new_row_marker_is_fresh_witness :
  newRuleCounter (addRow samplePage true) = 2.
Proof.
  exact (proj1 (new_row_marker_is_fresh codeUnitCompare (Some false)
                  sampleActions true sampleActions_persisted)).
Defined.

Lemma add_then_delete_is_local_witness :
  trace (deleteRule (clickDelete (addRow samplePage false) "new_2") (Ok tt))
  = trace samplePage ++ [ShowMessage "New unsaved rule removed." "success"].
Proof.
  exact (proj1 (add_then_delete_is_local codeUnitCompare (Some false)
                  sampleActions false (Ok tt) sampleActions_persisted)).
Defined.

(** ** Sorting what is sorted *)

Lemma canonicalLe_compare (localeCompare : string -> string -> Z)
    (a b : Rule) :
  plainRole (field_role a) -> plainRole (field_role b) ->
  canonicalLe localeCompare a b ->
  (compareRules localeCompare a b <=? 0)%Z = true.
Proof.
  intros Ha Hb. rewrite (compareRules_plain localeCompare a b Ha Hb).
  unfold canonicalLe. intros H. apply Z.leb_le.
  destruct (Z.eqb_spec (specRoleOrder (field_role a)
                        - specRoleOrder (field_role b)) 0); lia.
Qed.

Lemma sorted_fixed (localeCompare : string -> string -> Z)
    (rules : list Rule) :
  plainRules rules ->
  StronglySorted (canonicalLe localeCompare) rules ->
  sortRules localeCompare rules = rules.
Proof.
  intros Hplain.
  induction 1 as [ | x rest Hrest IH Hall]; [reflexivity | ].
  apply Forall_cons_iff in Hplain. destruct Hplain as [Hx Hplain].
  cbn [sortRules fold_right]. fold (sortRules localeCompare rest).
  rewrite (IH Hplain). destruct rest as [ | y rest']; [reflexivity | ].
  cbn [insertRule]. rewrite canonicalLe_compare; [reflexivity | exact Hx | | ].
  - now apply Forall_inv in Hplain.
  - now inversion Hall.
Qed.

(** With a consistent [localeCompare] and plain roles, sorting leaves a
    collection that is already in canonical order exactly as it is, so
    sorting twice is sorting once and rendering the shared collection
    again does not move a rule. *)
Theorem sort_is_idempotent :
  forall localeCompare : string -> string -> Z,
    consistentCollation localeCompare ->
    forall rules : list Rule,
      plainRules rules ->
      sortRules localeCompare (sortRules localeCompare rules)
      = sortRules localeCompare rules
      /\ (StronglySorted (canonicalLe localeCompare) rules ->
          sortRules localeCompare rules = rules)
      /\ forall p : Page,
          allRules p = rules ->
          allRules (renderRules localeCompare (renderRules localeCompare p))
          = allRules (renderRules localeCompare p).
Proof.
  intros localeCompare [Hantisym Htrans] rules Hplain.
  assert (Htwice : sortRules localeCompare (sortRules localeCompare rules)
                   = sortRules localeCompare rules).
  { apply sorted_fixed; [now apply sortRules_plain | ].
    now apply sortRules_sorted. }
  split; [exact Htwice | split].
  - now apply sorted_fixed.
  - intros p <-. unfold renderRules.
    destruct (base_rules_body p) as [b | ] eqn:Eb;
      [ | now rewrite Eb].
    destruct (additional_rules_body p) as [a | ] eqn:Ea;
      [ | now rewrite Eb, Ea].
    cbv zeta.
    rewrite (plainRules_never_throw _
               (sortRules_plain localeCompare _ Hplain)).
    cbn [toggleBaseRuleEditability base_rules_body additional_rules_body
           allRules option_map].
    rewrite Htwice.
    rewrite (plainRules_never_throw _
               (sortRules_plain localeCompare _ Hplain)).
    reflexivity.
Qed.

Lemma codeUnitCompare_consistent : consistentCollation codeUnitCompare.
Proof.
  split; [exact codeUnitCompare_antisym | exact codeUnitCompare_trans].
Qed.

Lemma sort_is_idempotent_witness :
  plainRules sampleStore
  /\ sortRules codeUnitCompare (sortRules codeUnitCompare sampleStore)
     = sortRules codeUnitCompare sampleStore.
Proof.
  split; [exact sampleStore_plain | ].
  exact (proj1 (sort_is_idempotent codeUnitCompare codeUnitCompare_consistent
                  sampleStore sampleStore_plain)).
Defined.

(** ** Changing the role of a row *)

Lemma destination_after_role_change (role : string) :
  selectValue (populateDestinationFields role "null") = firstDestination role.
Proof.
  unfold populateDestinationFields, firstDestination, ROLE_DESTINATION_FIELDS.
  repeat match goal with
         | |- context [String.eqb role ?k] => destruct (String.eqb role k)
         end; reflexivity.
Qed.

Lemma firstDestination_valid (role : string) :
  In role ALL_ROLES -> In (firstDestination role) (validDestinations role).
Proof.
  unfold ALL_ROLES. simpl.
  intros [<- | [<- | [<- | [<- | [<- | []]]]]]; left; reflexivity.
Qed.

(** When the user changes the role of a row, the payload carries the new
    role and, as destination, the first destination of that role: the
    destination the row had is dropped even when the new role has it too.
    For one of the five roles the new destination is always valid for the
    role. *)
Theorem role_change_resets_destination :
  forall (rules : list Rule) (row : Row),
    let role := selectValue (field_role_select row) in
    let payload := getRulePayload rules (fieldRoleChanged rules row) in
    Js.get "field_role" payload = Some (Js.Str role)
    /\ Js.get "destination_field" payload
       = Some (Js.Str (firstDestination role))
    /\ (In role ALL_ROLES ->
        In (firstDestination role) (validDestinations role))
    /\ Js.get "rule_name" payload = Some (Js.Str (rule_name_input row))
    /\ Js.get "source_type_options" payload
       = Js.get "source_type_options" (getRulePayload rules row).
Proof.
  intros rules row role payload.
  destruct (getRulePayload_scalars rules (fieldRoleChanged rules row))
    as (_ & Hname & Hrole & Hdest & Hkinds & _).
  destruct (getRulePayload_scalars rules row) as (_ & _ & _ & _ & Hkinds0 & _).
  fold payload in Hname, Hrole, Hdest, Hkinds.
  repeat split.
  - exact Hrole.
  - rewrite Hdest. cbn [fieldRoleChanged handleSourceChange
                          destination_field_select].
    now rewrite destination_after_role_change.
  - apply firstDestination_valid.
  - exact Hname.
  - rewrite Hkinds, Hkinds0. reflexivity.
Qed.

(** ** Changing the source kinds of a row *)

Lemma kept_text (v : option string) :
  orEmpty (orElse (stringOperand (Some (Js.optOrNull v)))
                  (stringOperand (Some Js.Null)))
  = orEmpty v.
Proof.
  destruct v as [s | ]; [ | reflexivity].
  cbn [Js.optOrNull]. unfold Js.strOrNull.
  destruct (Js.truthy s) eqn:E; cbn [stringOperand orElse].
  - now rewrite E.
  - cbn. unfold Js.truthy in E. apply negb_false_iff in E.
    apply String.eqb_eq in E. now subst.
Qed.

Lemma optOrNull_orEmpty (v : option string) :
  Js.optOrNull (Some (orEmpty v)) = Js.optOrNull v.
Proof. now destruct v. Qed.

(** The properties of a payload other than the four auxiliary ones are
    read off the inputs of the row other than its auxiliary editor. *)
Lemma getRulePayload_other_inputs (rules : list Rule) (row row' : Row) :
  dataset_id row' = dataset_id row ->
  rule_name_input row' = rule_name_input row ->
  field_role_select row' = field_role_select row ->
  destination_field_select row' = destination_field_select row ->
  source_type_select row' = source_type_select row ->
  default_transformation_input row' = default_transformation_input row ->
  is_required_input row' = is_required_input row ->
  is_hidden_input row' = is_hidden_input row ->
  is_base_rule_input row' = is_base_rule_input row ->
  forall key,
    In key ["id"; "rule_name"; "field_role"; "destination_field";
            "source_type_options"; "rule_type"; "is_required";
            "is_hidden"; "is_base_rule"; "default_transformation"] ->
    Js.get key (getRulePayload rules row')
    = Js.get key (getRulePayload rules row).
Proof.
  intros E1 E2 E3 E4 E5 E6 E7 E8 E9 key Hkey.
  unfold getRulePayload. rewrite E1, E2, E3, E4, E5, E6, E7, E8, E9.
  destruct (payloadKind _) as [[ | | | ] | ];
    try destruct (forwardLookup rules (linkSourceSelectValue row'));
    try destruct (forwardLookup rules (linkSourceSelectValue row));
    simpl in Hkey;
    destruct Hkey as [<- | [<- | [<- | [<- | [<- | [<- | [<- | [<- | [<-
                     | [<- | []]]]]]]]]]];
    reflexivity.
Qed.

(** After a change of the selected kinds the auxiliary editor is the one
    of the active kind.  A formula or a static text is kept only when the
    editor shown before was of that same kind, and then as the new
    element holds it; coming from any other editor the new one starts
    empty.  For every kind but Link, when the editor shown before held a
    text its element can give back, the auxiliary fields of the payload
    are what they were just before the editor was rebuilt.  No other
    input of the row is touched: the name, the role, the destination,
    the selected kinds, the default transformation and the three
    checkboxes are as they were, and so is the row's id. *)
Theorem source_change_rebuilds_editor :
  forall (rules : list Rule) (row : Row),
    map value (source_type_select row) = ALL_SOURCE_TYPES ->
    let changed := handleSourceChange rules row in
    let kind := activeKind (map Js.toLowerCase
                              (selectedValues (source_type_select row))) in
    match kind with
    | Some Link => exists options, source_details changed
                                   = LinkSourceSelect options
    | Some CsvFormula =>
        exists builder,
          source_details changed
          = FormulaEditor
              (Js.normalizeNewlines (orEmpty (formulaInputValue row)))
              builder
    | Some TextOverride =>
        source_details changed
        = TextOverrideInput (Js.stripNewlines (orEmpty (textInputValue row)))
    | Some Csv => source_details changed = CsvColumnLabel
    | None => source_details changed = DashLabel
    end
    /\ editorKind (source_details changed) = kind
    /\ (kind <> Some Link -> heldByEditor (source_details row) ->
        forall key,
          In key ["link_table_lookup"; "link_field_lookup";
                  "formula_template"; "static_value"] ->
          Js.get key (getRulePayload rules changed)
          = Js.get key (getRulePayload rules row))
    /\ dataset_id changed = dataset_id row
    /\ rule_name_input changed = rule_name_input row
    /\ field_role_select changed = field_role_select row
    /\ destination_field_select changed = destination_field_select row
    /\ source_type_select changed = source_type_select row
    /\ default_transformation_input changed
       = default_transformation_input row
    /\ is_required_input changed = is_required_input row
    /\ is_hidden_input changed = is_hidden_input row
    /\ is_base_rule_input changed = is_base_rule_input row
    /\ (forall key,
          In key ["id"; "rule_name"; "field_role"; "destination_field";
                  "source_type_options"; "rule_type"; "is_required";
                  "is_hidden"; "is_base_rule"; "default_transformation"] ->
          Js.get key (getRulePayload rules changed)
          = Js.get key (getRulePayload rules row)).
Proof.
  intros rules row Hsel changed kind.
  pose proof (getRulePayload_auxiliary rules row) as Haux.
  cbv zeta in Haux. rewrite (payloadKind_activeKind _ Hsel) in Haux.
  fold kind in Haux.
  assert (Hdetails :
            source_details changed
            = match kind with
              | Some Link =>
                  LinkSourceSelect
                    (populateLinkSourceDropdown rules
                       (map Js.toLowerCase
                          (selectedValues (source_type_select row)))
                       (changedLinkedRuleId rules (getRulePayload rules row))
                       (Some (dataset_id row)))
              | Some CsvFormula =>
                  FormulaEditor
                    (Js.normalizeNewlines (orEmpty (formulaInputValue row)))
                    (populateFormulaBuilderDropdown rules
                       (Some (dataset_id row)))
              | Some TextOverride =>
                  TextOverrideInput
                    (Js.stripNewlines (orEmpty (textInputValue row)))
              | Some Csv => CsvColumnLabel
              | None => DashLabel
              end).
  { unfold changed, handleSourceChange. cbn [source_details].
    unfold updateSourceDetailsDisplay. fold kind.
    destruct kind as [[ | | | ] | ]; try reflexivity;
      injection Haux as _ _ Hf Hs; rewrite Hf, Hs.
    - now rewrite kept_text.
    - do 2 f_equal. cbn [stringOperand orElse]. now destruct (textInputValue row)
        as [s | ]; [cbn [Js.optOrNull]; unfold Js.strOrNull;
                    destruct (Js.truthy s) eqn:E; cbn [stringOperand orEmpty];
                    [ | unfold Js.truthy in E; apply negb_false_iff in E;
                        apply String.eqb_eq in E; subst ] | ]. }
  split.
  { rewrite Hdetails. destruct kind as [[ | | | ] | ]; eauto. }
  split.
  { rewrite Hdetails. now destruct kind as [[ | | | ] | ]. }
  split; [ | repeat split].
  - intros Hnotlink Hheld key Hkey.
    assert (Hn : Js.normalizeNewlines (orEmpty (formulaInputValue row))
                 = orEmpty (formulaInputValue row)).
    { unfold formulaInputValue.
      destruct (source_details row); try reflexivity. exact Hheld. }
    assert (Hs : Js.stripNewlines (orEmpty (textInputValue row))
                 = orEmpty (textInputValue row)).
    { unfold textInputValue.
      destruct (source_details row); try reflexivity. exact Hheld. }
    rewrite Hn, Hs in Hdetails.
    pose proof (getRulePayload_auxiliary rules changed) as Haux'.
    cbv zeta in Haux'.
    change (source_type_select changed) with (source_type_select row) in Haux'.
    rewrite (payloadKind_activeKind _ Hsel) in Haux'. fold kind in Haux'.
    assert (Hf : formulaInputValue changed
                 = match kind with
                   | Some CsvFormula => Some (orEmpty (formulaInputValue row))
                   | _ => None
                   end).
    { unfold formulaInputValue at 1. rewrite Hdetails.
      now destruct kind as [[ | | | ] | ]. }
    assert (Ht : textInputValue changed
                 = match kind with
                   | Some TextOverride => Some (orEmpty (textInputValue row))
                   | _ => None
                   end).
    { unfold textInputValue at 1. rewrite Hdetails.
      now destruct kind as [[ | | | ] | ]. }
    rewrite Hf, Ht in Haux'.
    destruct kind as [[ | | | ] | ]; [now elim Hnotlink | | | | ];
      rewrite ?optOrNull_orEmpty in Haux';
      injection Haux as H1 H2 H3 H4; injection Haux' as H1' H2' H3' H4';
      simpl in Hkey;
      destruct Hkey as [<- | [<- | [<- | [<- | []]]]]; congruence.
  - apply getRulePayload_other_inputs; reflexivity.
Qed.

Lemma source_change_rebuilds_editor_witness :
  map value (source_type_select sampleRow) = ALL_SOURCE_TYPES
  /\ editorKind (source_details (handleSourceChange sampleStore sampleRow))
     = Some Link.
Proof.
  split; [reflexivity | ].
  exact (proj1 (proj2 (source_change_rebuilds_editor sampleStore
                         sampleRow eq_refl))).
Defined.

(** ** The link picker after a change *)





(** ** Loading a formula or a static text and saving it back *)

(** The editor of a row built for a rule is filled with
    [formula_template || static_value], whichever kind is active, and
    holds it as its element does: a textarea turns every line break into
    a line feed, a text input drops line breaks.  So the payload of the
    unedited row gives a formula rule the stored formula, or the stored
    static text when it has no formula, and gives a text-override rule
    the stored formula when there is one, else the stored static text,
    each as the editor holds it; the field of the other kind is null.  A
    rule that stores only the text of its own kind, in a form its editor
    can hold, is saved with that text; a static text with a line break
    is saved without it. *)
Theorem loaded_text_round_trip :
  forall (rules : list Rule) (rule : Rule) (isBase : bool),
    plainRole (field_role rule) -> markupSafeRule rule ->
    let payload := getRulePayload rules (createRuleRow rules rule isBase) in
    let stored := orEmpty (orElse (formula_template rule)
                                  (static_value rule)) in
    match priorityKind (storedKinds (source_type_options rule)) with
    | Some CsvFormula =>
        Js.get "formula_template" payload
        = Some (Js.strOrNull (Js.normalizeNewlines stored))
        /\ Js.get "static_value" payload = Some Js.Null
        /\ (static_value rule = None ->
            Js.normalizeNewlines (orEmpty (formula_template rule))
            = orEmpty (formula_template rule) ->
            Js.get "formula_template" payload
            = Some (Js.optOrNull (formula_template rule)))
    | Some TextOverride =>
        Js.get "static_value" payload
        = Some (Js.strOrNull (Js.stripNewlines stored))
        /\ Js.get "formula_template" payload = Some Js.Null
        /\ (formula_template rule = None ->
            Js.stripNewlines (orEmpty (static_value rule))
            = orEmpty (static_value rule) ->
            Js.get "static_value" payload
            = Some (Js.optOrNull (static_value rule)))
    | _ =>
        Js.get "formula_template" payload = Some Js.Null
        /\ Js.get "static_value" payload = Some Js.Null
    end
    /\ Js.get "static_value"
         (getRulePayload rules (createRuleRow rules twoLineTextRule isBase))
       = Some (Js.Str "ab")
    /\ Js.get "formula_template"
         (getRulePayload rules (createRuleRow rules twoLineFormulaRule isBase))
       = Some (Js.Str (String "a" (String (ascii_of_nat 10) "b"))).
Proof.
  intros rules rule isBase Hplain Hsafe payload stored.
  split; [ | split; reflexivity].
  pose proof (getRulePayload_auxiliary rules
                (createRuleRow rules rule isBase)) as Haux.
  cbv zeta in Haux.
  rewrite (payloadKind_activeKind _
             (createRuleRow_source_select rules rule isBase)) in Haux.
  assert (Hkind :
            activeKind
              (map Js.toLowerCase
                 (selectedValues
                    (source_type_select (createRuleRow rules rule isBase))))
            = priorityKind (storedKinds (source_type_options rule)))
    by apply active_priority.
  rewrite Hkind in Haux. fold payload in Haux.
  assert (Hdetails :
            source_details (createRuleRow rules rule isBase)
            = updateSourceDetailsDisplay rules
                (sourceTypeSelectFor (storedKinds (source_type_options rule)))
                (orElse (formula_template rule) (static_value rule))
                (reverseLookup rules (optValue (link_table_lookup rule))
                   (optValue (link_field_lookup rule)))
                (Some (id rule))) by reflexivity.
  unfold formulaInputValue, textInputValue in Haux. rewrite Hdetails in Haux.
  unfold updateSourceDetailsDisplay in Haux.
  rewrite active_priority in Haux. fold stored in Haux.
  destruct (priorityKind (storedKinds (source_type_options rule)))
    as [[ | | | ] | ]; injection Haux as _ _ Hf Hs;
    cbn [Js.optOrNull] in Hf, Hs.
  - now split.
  - repeat split; [exact Hf | exact Hs | ].
    intros Hnone Hheld. rewrite Hf. unfold stored. rewrite Hnone.
    destruct (formula_template rule) as [s | ]; [ | reflexivity].
    cbn [orElse orEmpty Js.optOrNull] in Hheld |- *.
    destruct (Js.truthy s) eqn:E; cbn [orEmpty]; [now rewrite Hheld | ].
    unfold Js.strOrNull. now rewrite E.
  - repeat split; [exact Hs | exact Hf | ].
    intros Hnone Hheld. rewrite Hs. unfold stored. rewrite Hnone.
    cbn [orElse]. rewrite Hheld. now destruct (static_value rule).
  - now split.
  - now split.
Qed.

Lemma loaded_text_round_trip_witness :
  plainRole (field_role twoLineTextRule)
  /\ markupSafeRule twoLineTextRule
  /\ Js.get "static_value"
       (getRulePayload sampleStore
          (createRuleRow sampleStore twoLineTextRule false))
     = Some (Js.Str "ab").
Proof.
  assert (Hplain : plainRole (field_role twoLineTextRule)) by reflexivity.
  assert (Hsafe : markupSafeRule twoLineTextRule) by (split; reflexivity).
  split; [exact Hplain | split; [exact Hsafe | ]].
  exact (proj1 (proj2 (loaded_text_round_trip sampleStore twoLineTextRule
                         false Hplain Hsafe))).
Defined.

(** ** A page without a table body *)

(** When one of the two table bodies is missing from the document,
    [renderRules] returns before it sorts: a successful fetch then leaves
    the collection in the order of the response and builds no row, and a
    batch save does nothing at all, not even the fetch that otherwise
    follows it. *)
Theorem without_a_table_body :
  forall (localeCompare : string -> string -> Z) (p : Page)
         (rules : list Rule) (responses : nat -> Response unit)
         (order : list nat),
    base_rules_body p = None \/ additional_rules_body p = None ->
    let q := fetchRulesSettle localeCompare p (Ok rules) in
    allRules q = rules
    /\ base_rules_body q = base_rules_body p
    /\ additional_rules_body q = additional_rules_body p
    /\ trace q = trace p
    /\ saveAllChanges p responses order = p.
Proof.
  intros localeCompare p rules responses order Hmissing q.
  unfold q, fetchRulesSettle, renderRules, saveAllChanges.
  cbn [base_rules_body additional_rules_body].
  destruct Hmissing as [-> | ->].
  - repeat split.
  - destruct (base_rules_body p); repeat split.
Qed.

Lemma without_a_table_body_witness :
  allRules
    (fetchRulesSettle codeUnitCompare
       (mkPage [] 0 None (Some false) None (Some []) false [])
       (Ok sampleStore))
  = sampleStore.
Proof.
  exact (proj1 (without_a_table_body codeUnitCompare
                  (mkPage [] 0 None (Some false) None (Some []) false [])
                  sampleStore batchResponses batchOrder
                  (or_introl eq_refl))).
Defined.

(** ** Placeholder choices *)

(** The formula builder always offers the two supplier placeholders,
    after one placeholder per rule other than the edited one, and rests on
    its empty first option.  Rule names and supplier fields share the
    braces: a rule named like a supplier field is offered under the very
    value of that field, so the choices then hold that value twice. *)
Theorem placeholder_choices :
  forall (rules : list Rule) (currentRow : option string),
    let builder := populateFormulaBuilderDropdown rules currentRow in
    map value builder
    = "" :: map (fun r => ("{" ++ rule_name r ++ "}")%string)
              (placeholderRules rules currentRow)
         ++ ["{Supplier Name}"; "{Supplier Short Name}"]
    /\ selectValue builder = ""
    /\ (forall r, In r (placeholderRules rules currentRow) ->
                  In r rules /\ id r <> stringOfId currentRow)
    /\ (forall r, In r (placeholderRules rules currentRow) ->
                  rule_name r = "Supplier Name" ->
                  ~ NoDup (map value builder)).
Proof.
  intros rules currentRow builder.
  assert (Hvalues :
            map value builder
            = "" :: map (fun r => ("{" ++ rule_name r ++ "}")%string)
                      (placeholderRules rules currentRow)
                 ++ ["{Supplier Name}"; "{Supplier Short Name}"]).
  { unfold builder, populateFormulaBuilderDropdown. cbn [map value].
    rewrite map_app, map_map. reflexivity. }
  split; [exact Hvalues | split; [ | split]].
  - unfold builder, populateFormulaBuilderDropdown, selectValue.
    cbn [filter selected].
    assert (Hnone : forall l : Select,
               (forall o, In o l -> selected o = false) ->
               filter selected l = []) by (intros l; apply filter_none).
    rewrite Hnone; [reflexivity | ].
    intros o Ho. apply in_app_or in Ho.
    destruct Ho as [Ho | Ho]; apply in_map_iff in Ho;
      now destruct Ho as (x & <- & _).
  - intros r Hr. unfold placeholderRules in Hr. apply filter_In in Hr.
    destruct Hr as [Hin Hid]. split; [exact Hin | ].
    apply negb_true_iff in Hid. now apply String.eqb_neq.
  - intros r Hr Hname Hnodup. rewrite Hvalues in Hnodup.
    apply NoDup_cons_iff in Hnodup. destruct Hnodup as [_ Hnodup].
    destruct (in_split _ _ Hr) as (l1 & l2 & Hsplit).
    rewrite Hsplit, map_app in Hnodup. cbn [map] in Hnodup.
    rewrite Hname, <- app_assoc in Hnodup. cbn [app] in Hnodup.
    apply NoDup_remove_2 in Hnodup. apply Hnodup.
    apply in_or_app. right. apply in_or_app. right. now left.
Qed.
